(** * Placement Management System: recommender and OTP provisioner

    A shallow embedding of four serverless handlers of the repository
    and the properties their specification states about them:

    - [generate-job-recommendations] (skill matching, composite score,
      inclusion threshold, persistence of the recommendation rows);
    - [parse-resume] (cleaning of the extracted skill list);
    - [send-otp] (issuance of a one-time code);
    - [verify-otp] (verification, signup and password reset).

    Conventions of the model.
    - A JavaScript string is its sequence of code units; the model covers the
      code units 0..255 (Rocq's [ascii]), on which [toLowerCase] and [trim]
      are character-wise and are written out below.
    - A finite JavaScript number is the rational it denotes ([Q]).  The
      arithmetic of the recommender is binary64: every [+], [*] and [/]
      rounds its exact result to the nearest number of 53 significant
      bits, ties to even ([JS.fl]).  [Math.round] and [Math.floor] land in
      [Z].
    - The datastore is a record of tables, each a list of rows; a handler is a
      function from an environment (clocks, random source, outcome of each
      call to the datastore, whether the source reads it or not), a request
      and the datastore to a response and the new datastore. *)

From Stdlib Require Import ZArith QArith Qround List String Ascii Bool Lia.
From Stdlib Require Import Permutation Sorted Lqa.
Import ListNotations.

Open Scope string_scope.
Open Scope Z_scope.

(* ================================================================= *)
(** ** JavaScript primitives used by the handlers *)

Module JS.

(** [String.prototype.toLowerCase] on one code unit below 256: the
    letters A-Z and the Latin-1 capitals U+00C0..U+00DE (U+00D7, the
    multiplication sign, excepted) move up by 32. *)
Definition toLowerCase_char (c : ascii) : ascii :=
  let n := N_of_ascii c in
  if (((65 <=? n) && (n <=? 90)) ||
      ((192 <=? n) && (n <=? 222) && negb (n =? 215)))%N
  then ascii_of_N (n + 32) else c.

Fixpoint toLowerCase (s : string) : string :=
  match s with
  | EmptyString => EmptyString
  | String c s' => String (toLowerCase_char c) (toLowerCase s')
  end.

(** White space and line terminators below 256: TAB, LF, VT, FF, CR,
    SPACE and NBSP. *)
Definition isWhiteSpace (c : ascii) : bool :=
  let n := N_of_ascii c in
  (((9 <=? n) && (n <=? 13)) || (n =? 32) || (n =? 160))%N.

Fixpoint trimStart (s : string) : string :=
  match s with
  | EmptyString => EmptyString
  | String c s' => if isWhiteSpace c then trimStart s' else s
  end.

Fixpoint trimEnd (s : string) : string :=
  match s with
  | EmptyString => EmptyString
  | String c s' =>
      match trimEnd s' with
      | EmptyString => if isWhiteSpace c then EmptyString
                       else String c EmptyString
      | t => String c t
      end
  end.

(** [String.prototype.trim]. *)
Definition trim (s : string) : string := trimEnd (trimStart s).

Fixpoint startsWith (s p : string) : bool :=
  match p, s with
  | EmptyString, _ => true
  | String _ _, EmptyString => false
  | String a p', String b s' => Ascii.eqb a b && startsWith s' p'
  end.

(** [s.includes(sub)]: [sub] occurs in [s] at some position. *)
Fixpoint includes (s sub : string) : bool :=
  startsWith s sub ||
  match s with
  | EmptyString => false
  | String _ s' => includes s' sub
  end.

(** [s.includes(c)] for a one-character needle. *)
Definition includes_char (s : string) (c : ascii) : bool :=
  includes s (String c EmptyString).

(** [s.length]. *)
Definition length (s : string) : Z := Z.of_nat (String.length s).

(** [Math.floor] and [Math.round] (ties go up). *)
Definition Math_floor (x : Q) : Z := Qfloor x.
Definition Math_round (x : Q) : Z := Qfloor (x + (1 # 2)).

(** [x >= y] and [x > y] on numbers. *)
Definition geq (x y : Q) : bool := Qle_bool y x.
Definition gtr (x y : Q) : bool := negb (Qle_bool x y).

(** *** Binary64 arithmetic

    The integer nearest to [q], the even one of two. *)
Definition rne (q : Q) : Z :=
  let f := Qfloor q in
  match Qcompare (q - inject_Z f) (1 # 2) with
  | Lt => f
  | Gt => f + 1
  | Eq => if Z.even f then f else f + 1
  end.

(** The binary exponent of a positive number: [2 ^ e <= x < 2 ^ (e + 1)]. *)
Definition exponent (x : Q) : Z :=
  if Qle_bool 1 x then Z.log2 (Qfloor x)
  else - Z.log2_up (Qceiling (/ x)).

(** A positive number rounded to 53 significant bits; below [2 ^ -1022]
    the spacing stays that of the smallest normal numbers. *)
Definition round_pos (x : Q) : Q :=
  let K := 52 - Z.max (exponent x) (-1022) in
  if 0 <=? K
  then Qred (rne (x * inject_Z (2 ^ K)) # Z.to_pos (2 ^ K))
  else Qred (inject_Z (rne (x / inject_Z (2 ^ (- K))) * 2 ^ (- K))).

(** The binary64 number nearest to [x], in lowest terms.  There is no
    overflow to [Infinity] in the model: the numbers of the handlers are
    percentages, their sums and their averages. *)
Definition fl (x : Q) : Q :=
  let x' := Qred x in
  match Qnum x' with
  | 0 => 0%Q
  | Z.pos _ => round_pos x'
  | Z.neg _ => Qopp (round_pos (Qopp x'))
  end.

(** [x + y], [x * y] and [x / y] on numbers. *)
Definition fadd (x y : Q) : Q := fl (x + y).
Definition fmul (x y : Q) : Q := fl (x * y).
Definition fdiv (x y : Q) : Q := fl (x / y).

(** The values a JSON array element can take ([VObj] stands for any
    object or nested array). *)
Inductive value : Type :=
| VNull
| VBool (b : bool)
| VNum (q : Q)
| VStr (s : string)
| VObj.

(** [!!v]. *)
Definition truthy (v : value) : bool :=
  match v with
  | VNull => false
  | VBool b => b
  | VNum q => negb (Qeq_bool q 0)
  | VStr s => negb (String.eqb s "")
  | VObj => true
  end.

(** [typeof v === 'string'], with the string it holds. *)
Definition as_string (v : value) : option string :=
  match v with
  | VStr s => Some s
  | _ => None
  end.

(** Decimal digits of a non-negative integer, most significant first. *)
Definition digit_char (d : Z) : ascii :=
  ascii_of_N (48 + Z.to_N d).

Fixpoint digits (fuel : nat) (n : Z) (acc : string) : string :=
  let acc' := String (digit_char (n mod 10)) acc in
  match fuel with
  | O => acc'
  | S fuel' => if n <? 10 then acc' else digits fuel' (n / 10) acc'
  end.

(** [Number.prototype.toString] on an integer. *)
Definition toString (n : Z) : string :=
  if n <? 0 then String "-" (digits (Z.to_nat (Z.log2 (- n))) (- n) "")
  else digits (Z.to_nat (Z.log2 n)) n "".

End JS.

(* ================================================================= *)
(** ** generate-job-recommendations *)

Module Recommender.

(** A row of [offcampus_jobs] as selected by the handler;
    [skills_required] is a nullable text array. *)
Record Job : Type := mkJob {
  id : string;
  role : string;
  company_name : string;
  skills_required : option (list string)
}.

Record JobRecommendation : Type := mkRec {
  job_id : string;
  job_source : string;
  rec_company_name : string;
  rec_role : string;
  match_score : Z;
  skill_match : Z;
  test_performance : Z;
  interview_performance : Z;
  reasons : list string;
  rec_skills_required : list string
}.

(** A row of the [job_recommendations] table. *)
Record Row : Type := mkRow {
  row_student_id : string;
  row_job_id : string;
  row_job_source : string;
  row_match_score : Z;
  row_skill_match : Z;
  row_test_performance : Z;
  row_interview_performance : Z;
  row_reasons : list string
}.

(** [studentSkills.some(s => s.includes(jobSkill) || jobSkill.includes(s))]. *)
Definition skill_matches (studentSkills : list string) (jobSkill : string)
  : bool :=
  existsb (fun s => JS.includes s jobSkill || JS.includes jobSkill s)
          studentSkills.

(** The loop of [calculateSkillMatch]: the number of job skills that some
    student skill matches. *)
Fixpoint count_matches (studentSkills jobSkills : list string) : Z :=
  match jobSkills with
  | [] => 0
  | jobSkill :: rest =>
      (if skill_matches studentSkills jobSkill then 1 else 0)
      + count_matches studentSkills rest
  end.

Definition calculateSkillMatch (studentSkills jobSkills : list string) : Q :=
  match jobSkills, studentSkills with
  | [], _ | _, [] => 50
  | _, _ =>
      JS.fmul (JS.fdiv (inject_Z (count_matches studentSkills jobSkills))
                       (inject_Z (Z.of_nat (List.length jobSkills))))
              100
  end%Q.

(** The filter over [profile.resume_skills]. *)
Definition keep_skill (skill : JS.value) : bool :=
  match JS.truthy skill, JS.as_string skill with
  | true, Some s =>
      if JS.includes_char s "[" || JS.includes_char s "="
         || JS.includes_char s "{"
      then false
      else JS.length s >? 1
  | _, _ => false
  end.

Definition clean_one (skill : JS.value) : string :=
  match skill with
  | JS.VStr s => JS.trim (JS.toLowerCase s)
  | _ => ""
  end.

(** [studentSkills]: [(profile?.resume_skills || []).filter(...).map(...)]. *)
Definition studentSkills_of (resume_skills : option (list JS.value))
  : list string :=
  map clean_one
      (filter keep_skill
              (match resume_skills with Some l => l | None => [] end)).

(** [Number(x) || 0] on a nullable numeric column: the decimal the
    datastore holds, read as a number. *)
Definition number_or_zero (x : option Q) : Q :=
  match x with Some q => JS.fl q | None => 0%Q end.

(** The average over the rows a score query returned, 0 when there are
    none (or the query gave no data). *)
Definition average (rows : option (list (option Q))) : Q :=
  match rows with
  | Some (r :: rs) =>
      JS.fdiv (fold_left (fun sum x => JS.fadd sum (number_or_zero x))
                         (r :: rs) 0%Q)
              (inject_Z (Z.of_nat (List.length (r :: rs))))
  | _ => 0%Q
  end.

(** [job.skills_required || []]. *)
Definition required_skills (job : Job) : list string :=
  match skills_required job with Some l => l | None => [] end.

Definition jobSkills_of (job : Job) : list string :=
  map JS.toLowerCase (required_skills job).

Definition reasons_of (jobSkills : list string)
           (skillMatch avgMockScore avgInterviewScore : Q) : list string :=
  (match jobSkills with
   | [] => ["Open to all candidates"]
   | _ => if JS.gtr skillMatch 70 then ["Strong skill match"]
          else if JS.gtr skillMatch 40 then ["Good skill match"]
          else []
   end)
  ++ (if JS.gtr avgMockScore 70 then ["Excellent test performance"] else [])
  ++ (if JS.gtr avgInterviewScore 70 then ["Strong interview performance"]
      else []).

(** [matchScore], before rounding. *)
Definition matchScore_of (skillMatch avgMockScore avgInterviewScore : Q)
  : Q :=
  JS.fadd (JS.fadd (JS.fmul skillMatch (1 # 2))
                   (JS.fmul avgMockScore (1 # 4)))
          (JS.fmul avgInterviewScore (1 # 4)).

Section Candidate.
Variable studentSkills : list string.
Variables avgMockScore avgInterviewScore : Q.

Definition skillMatch_job (job : Job) : Q :=
  calculateSkillMatch studentSkills (jobSkills_of job).

Definition matchScore_job (job : Job) : Q :=
  matchScore_of (skillMatch_job job) avgMockScore avgInterviewScore.

(** The object pushed for a posting that passes the floor. *)
Definition recommendation_for (job : Job) : JobRecommendation :=
  let jobSkills := jobSkills_of job in
  let skillMatch := calculateSkillMatch studentSkills jobSkills in
  let reasons :=
    reasons_of jobSkills skillMatch avgMockScore avgInterviewScore in
  let matchScore :=
    matchScore_of skillMatch avgMockScore avgInterviewScore in
  {| job_id := id job;
     job_source := "offcampus";
     rec_company_name := company_name job;
     rec_role := role job;
     match_score := JS.Math_round matchScore;
     skill_match := JS.Math_round skillMatch;
     test_performance := JS.Math_round avgMockScore;
     interview_performance := JS.Math_round avgInterviewScore;
     reasons := reasons;
     rec_skills_required := jobSkills |}.

(** One iteration of the loop over the postings: the recommendation
    pushed, if any. *)
Definition process_job (job : Job) : option JobRecommendation :=
  if JS.geq (matchScore_job job) 15 then Some (recommendation_for job)
  else None.

Fixpoint process_jobs (jobs : list Job) : list JobRecommendation :=
  match jobs with
  | [] => []
  | job :: rest =>
      match process_job job with
      | Some r => r :: process_jobs rest
      | None => process_jobs rest
      end
  end.

End Candidate.

(** [recommendations.sort((a, b) => b.match_score - a.match_score)]: a
    stable sort, highest score first. *)
Fixpoint insert_by_score (r : JobRecommendation)
         (l : list JobRecommendation) : list JobRecommendation :=
  match l with
  | [] => [r]
  | x :: l' => if match_score x <=? match_score r then r :: l
               else x :: insert_by_score r l'
  end.

Fixpoint sort (l : list JobRecommendation) : list JobRecommendation :=
  match l with
  | [] => []
  | r :: l' => insert_by_score r (sort l')
  end.

(** What the handler reads: the credential, and the data the datastore
    returned for its four queries. *)
Record Request : Type := mkRequest {
  authorization : option string;
  (** [supabase.auth.getUser(token)]: the user id, or nothing on
      an authentication error. *)
  user : option string;
  (** the profile row ([None]: [profileError]) and its
      [resume_skills] column. *)
  profile : option (option (list JS.value));
  mockResults : option (list (option Q));
  interviews : option (list (option Q));
  offcampusJobs : option (list Job);
  (** the delete of the student's old rows fails; the source does not
      read its outcome. *)
  deleteError : bool;
  (** the bulk insert is refused by the datastore. *)
  insertError : bool;
  (** the message shown for an error object the datastore returned. *)
  error_message : string
}.

(** The postings of a request. *)
Definition jobs_of (req : Request) : list Job :=
match offcampusJobs req with Some jobs => jobs | None => [] end.

Inductive Response : Type :=
| Success (count : Z) (recommendations : list JobRecommendation)
| Failure (status : Z) (error : string).

Definition recommendations_of (req : Request) (resume_skills : option (list JS.value))
  : list JobRecommendation :=
  let avgMockScore := average (mockResults req) in
  let avgInterviewScore := average (interviews req) in
  let studentSkills := studentSkills_of resume_skills in
  sort (match offcampusJobs req with
        | Some jobs =>
            process_jobs studentSkills avgMockScore avgInterviewScore jobs
        | None => []
        end).

Definition to_row (student : string) (rec : JobRecommendation) : Row :=
  {| row_student_id := student;
     row_job_id := job_id rec;
     row_job_source := job_source rec;
     row_match_score := match_score rec;
     row_skill_match := skill_match rec;
     row_test_performance := test_performance rec;
     row_interview_performance := interview_performance rec;
     row_reasons := reasons rec |}.

(** The table constraint
    [CHECK (match_score >= 0 AND match_score <= 100)]. *)
Definition check_row (r : Row) : bool :=
  (0 <=? row_match_score r) && (row_match_score r <=? 100).

(** [.delete().eq("student_id", uid)]. *)
Definition delete_student (uid : string) (table : list Row) : list Row :=
  filter (fun r => negb (String.eqb (row_student_id r) uid)) table.

(** The table once [await supabase...delete().eq("student_id", uid)] has
    returned: the student's rows are gone unless the call failed. *)
Definition after_delete (req : Request) (uid : string) (table : list Row)
  : list Row :=
  if deleteError req then table else delete_student uid table.

(** The handler, on the [job_recommendations] table. *)
Definition handler (req : Request) (table : list Row)
  : Response * list Row :=
  match authorization req with
  | None => (Failure 500 "No authorization header", table)
  | Some _ =>
      match user req with
      | None => (Failure 500 "Unauthorized", table)
      | Some uid =>
          match profile req with
          | None => (Failure 500 (error_message req), table)
          | Some resume_skills =>
              let recommendations := recommendations_of req resume_skills in
              let table1 := after_delete req uid table in
              match recommendations with
              | [] => (Success 0 [], table1)
              | _ =>
                  let rows := map (to_row uid) recommendations in
                  if insertError req || negb (forallb check_row rows)
                  then (Failure 500 (error_message req), table1)
                  else (Success (Z.of_nat (List.length recommendations))
                                (firstn 10 recommendations),
                        (table1 ++ rows)%list)
              end
          end
      end
  end.

(** The rows persisted for a student. *)
Definition rows_of (uid : string) (table : list Row) : list Row :=
  filter (fun r => String.eqb (row_student_id r) uid) table.

End Recommender.

(* ================================================================= *)
(** ** parse-resume: cleaning of the extracted skills *)

Module ParseResume.

(** The first filter over the skills the extraction returned. *)
Definition keep_skill (skill : JS.value) : bool :=
  match JS.truthy skill, JS.as_string skill with
  | true, Some s =>
      if (JS.length s <? 2) || (JS.length s >? 50) then false
      else if JS.includes_char s "[" || JS.includes_char s "="
              || JS.includes_char s "{"
      then false
      else true
  | _, _ => false
  end.

Definition trim_one (skill : JS.value) : string :=
  match skill with
  | JS.VStr s => JS.trim s
  | _ => ""
  end.

(** [skills.filter(...).map(skill => skill.trim())
          .filter(skill => skill.length > 0)]: the list written to
    [profiles.resume_skills]. *)
Definition clean_skills (skills : list JS.value) : list string :=
  filter (fun skill => JS.length skill >? 0)
         (map trim_one (filter keep_skill skills)).

End ParseResume.

(* ================================================================= *)
(** ** The datastore of the OTP handlers *)

Module Store.

(** A row of [otp_verifications]; time stamps are milliseconds. *)
Record OtpRow : Type := mkOtpRow {
  otp_id : string;
  otp_email : string;
  otp : string;
  created_at : Z;
  expires_at : Z;
  verified : bool;
  attempts : Z
}.

(** An account of the authentication service. *)
Record AuthUser : Type := mkAuthUser {
  user_id : string;
  user_email : string;
  password : string;
  meta_name : option string;
  meta_department : option string
}.

Record Profile : Type := mkProfile {
  profile_id : string;
  profile_name : string;
  profile_email : string;
  profile_department : option string;
  temp_password_used : bool;
  tenth_percentage : option Q;
  twelfth_percentage : option Q;
  cgpa : option Q
}.

Record UserRole : Type := mkUserRole {
  role_user_id : string;
  user_role : string
}.

(** A message handed to the SMTP relay. *)
Record Mail : Type := mkMail {
  mail_to : string;
  mail_subject : string;
  mail_code : string
}.

Record World : Type := mkWorld {
  otp_verifications : list OtpRow;
  pre_registered_teachers : list string;
  pre_registered_students : list string;
  profiles : list Profile;
  auth_users : list AuthUser;
  user_roles : list UserRole;
  outbox : list Mail
}.

Definition set_otp_verifications (w : World) (t : list OtpRow) : World :=
  {| otp_verifications := t;
     pre_registered_teachers := pre_registered_teachers w;
     pre_registered_students := pre_registered_students w;
     profiles := profiles w;
     auth_users := auth_users w;
     user_roles := user_roles w;
     outbox := outbox w |}.

Definition set_profiles (w : World) (t : list Profile) : World :=
  {| otp_verifications := otp_verifications w;
     pre_registered_teachers := pre_registered_teachers w;
     pre_registered_students := pre_registered_students w;
     profiles := t;
     auth_users := auth_users w;
     user_roles := user_roles w;
     outbox := outbox w |}.

Definition set_auth_users (w : World) (t : list AuthUser) : World :=
  {| otp_verifications := otp_verifications w;
     pre_registered_teachers := pre_registered_teachers w;
     pre_registered_students := pre_registered_students w;
     profiles := profiles w;
     auth_users := t;
     user_roles := user_roles w;
     outbox := outbox w |}.

Definition set_user_roles (w : World) (t : list UserRole) : World :=
  {| otp_verifications := otp_verifications w;
     pre_registered_teachers := pre_registered_teachers w;
     pre_registered_students := pre_registered_students w;
     profiles := profiles w;
     auth_users := auth_users w;
     user_roles := t;
     outbox := outbox w |}.

Definition set_outbox (w : World) (t : list Mail) : World :=
  {| otp_verifications := otp_verifications w;
     pre_registered_teachers := pre_registered_teachers w;
     pre_registered_students := pre_registered_students w;
     profiles := profiles w;
     auth_users := auth_users w;
     user_roles := user_roles w;
     outbox := t |}.

(** The body and status of a handler's response. *)
Inductive Body : Type :=
| Error (error : string) (code : option string)
| Ok (message : string) (tempPassword : option string).

Record Response : Type := mkResponse {
  status : Z;
  body : Body
}.

(** [.eq("email", email).eq("verified", false)]. *)
Definition unverified_for (email : string) (r : OtpRow) : bool :=
  String.eqb (otp_email r) email && Bool.eqb (verified r) false.

(** A string that is present and not empty. *)
Definition present (x : option string) : bool :=
  match x with
  | Some s => negb (String.eqb s "")
  | None => false
  end.

End Store.

(* ================================================================= *)
(** ** send-otp *)

Module SendOtp.
Import Store.

Record Request : Type := mkRequest {
  email : string;                (* the empty string when absent *)
  name : option string;
  purpose : option string;       (* default "signup" *)
  role : option string           (* default "student" *)
}.

Record Env : Type := mkEnv {
  now : Z;                       (* [Date.now()], the handler's clock *)
  db_now : Z;                    (* [now()], the datastore's clock *)
  random : Q;                    (* [Math.random()], in [0, 1) *)
  new_id : string;               (* the key the datastore gives the row *)
  preRegError : bool;
  profileError : bool;
  deleteError : bool;            (* the delete fails; its outcome is not read *)
  insertError : bool;
  sendError : option string      (* the SMTP client throws *)
}.

(** [Math.floor(100000 + Math.random() * 900000).toString()].  The
    product and the sum are taken on the rationals here: the two roundings
    of the program can move the code of a given draw by one and leave the
    range of the codes, 100000 to 999999, as it is. *)
Definition generate_otp (random : Q) : string :=
  JS.toString (JS.Math_floor (100000 + random * 900000)%Q).

(** [.select(...).eq("email", email).maybeSingle()] found a row. *)
Definition has_email (table : list string) (email : string) : bool :=
  existsb (String.eqb email) table.

Definition not_preregistered_teacher : Response :=
  {| status := 403;
     body := Error "This email is not registered by TPO as a teacher. Please contact placement office."
                   (Some "EMAIL_NOT_PREREGISTERED") |}.

Definition not_preregistered : Response :=
  {| status := 403;
     body := Error "This email is not registered by TPO. Please contact placement office."
                   (Some "EMAIL_NOT_PREREGISTERED") |}.

(** The gate of the signup and of the reset purpose: the refusal, if
    any. *)
Definition gate (env : Env) (req : Request) (w : World) : option Response :=
  let purpose := match purpose req with Some p => p | None => "signup" end in
  let role := match role req with Some r => r | None => "student" end in
  if String.eqb purpose "signup" then
    if String.eqb role "teacher" then
      if preRegError env || negb (has_email (pre_registered_teachers w) (email req))
      then Some not_preregistered_teacher else None
    else
      if preRegError env || negb (has_email (pre_registered_students w) (email req))
      then Some not_preregistered else None
  else if String.eqb purpose "reset" then
    if profileError env
       || negb (has_email (map profile_email (profiles w)) (email req))
    then Some {| status := 404;
                 body := Error "Email not found in our system" None |}
    else None
  else None.

(** [.delete().eq("email", email).eq("verified", false)]. *)
Definition delete_unverified (email : string) (table : list OtpRow)
  : list OtpRow :=
  filter (fun r => negb (unverified_for email r)) table.

(** The code rows once [await supabase...delete()] has returned: the
    unverified rows of the email are gone unless the call failed. *)
Definition after_delete (env : Env) (email : string) (table : list OtpRow)
  : list OtpRow :=
  if deleteError env then table else delete_unverified email table.

(** [.insert({ email, otp, expires_at })], the other columns taking their
    defaults: [created_at] is [DEFAULT now()], the time of the datastore,
    [verified] is [DEFAULT false] and [attempts] is [DEFAULT 0]. *)
Definition new_row (env : Env) (email otp : string) (expiresAt : Z) : OtpRow :=
  {| otp_id := new_id env;
     otp_email := email;
     otp := otp;
     created_at := db_now env;
     expires_at := expiresAt;
     verified := false;
     attempts := 0 |}.

Definition handler (env : Env) (req : Request) (w : World)
  : Response * World :=
  if String.eqb (email req) "" then
    ({| status := 400; body := Error "Email is required" None |}, w)
  else
    match gate env req w with
    | Some refusal => (refusal, w)
    | None =>
        let otp := generate_otp (random env) in
        let expiresAt := now env + 10 * 60 * 1000 in
        let w1 := if deleteError env then w
                  else set_otp_verifications w
                         (delete_unverified (email req)
                                            (otp_verifications w)) in
        if insertError env then
          ({| status := 500; body := Error "Failed to generate OTP" None |},
           w1)
        else
          let w2 := set_otp_verifications w1
                      (otp_verifications w1
                       ++ [new_row env (email req) otp expiresAt])%list in
          match sendError env with
          | Some msg => ({| status := 500; body := Error msg None |}, w2)
          | None =>
              let subject :=
                if String.eqb
                     (match purpose req with Some p => p | None => "signup" end)
                     "reset"
                then "Password Reset Code" else "Your Verification Code" in
              ({| status := 200; body := Ok "OTP sent successfully" None |},
               set_outbox w2
                 (outbox w2 ++ [ {| mail_to := email req;
                                    mail_subject := subject;
                                    mail_code := otp |} ])%list)
          end
    end.

End SendOtp.

(* ================================================================= *)
(** ** verify-otp *)

Module VerifyOtp.
Import Store.

Record Request : Type := mkRequest {
  email : string;                (* the empty string when absent *)
  otp_given : string;            (* the [otp] field; empty when absent *)
  name : option string;
  department : option string;
  role : option string;
  purpose : option string;       (* default "signup" *)
  tenthPercentage : option Q;
  twelfthPercentage : option Q;
  cgpa_given : option Q
}.

(** The same request with another code. *)
Definition with_otp (req : Request) (code : string) : Request :=
  {| email := email req; otp_given := code; name := name req;
     department := department req; role := role req;
     purpose := purpose req; tenthPercentage := tenthPercentage req;
     twelfthPercentage := twelfthPercentage req;
     cgpa_given := cgpa_given req |}.

Record Env : Type := mkEnv {
  now : Z;                       (* [new Date()] *)
  fetchError : bool;
  tempPassword : string;         (* the two [Math.random().toString(36)] tails *)
  new_user_id : string;
  listError : bool;              (* [listUsers()] fails; its error is not read *)
  perPage : nat;                 (* the accounts on the page [listUsers()] returns *)
  signUpError : bool;
  roleError : bool;
  profileError : bool;
  updateError : bool;
  (** the outcome of the three updates whose result the source does not
      read: of [attempts], of [temp_password_used] and of [verified]. *)
  attemptsError : bool;
  flagError : bool;
  verifiedError : bool
}.

(** [.order("created_at", { ascending: false }).limit(1)]: the row
    created last (the first such row of the table among equals). *)
Fixpoint latest (rows : list OtpRow) : option OtpRow :=
  match rows with
  | [] => None
  | r :: rest =>
      match latest rest with
      | Some r' => if created_at r' >? created_at r then Some r' else Some r
      | None => Some r
      end
  end.

(** The OTP record of the request: the latest unverified row of the
    email. *)
Definition find_otp (w : World) (email : string) : option OtpRow :=
  latest (filter (unverified_for email) (otp_verifications w)).

(** [.update(...).eq("id", id)] on [otp_verifications]. *)
Definition update_otp (id : string) (f : OtpRow -> OtpRow)
           (table : list OtpRow) : list OtpRow :=
  map (fun r => if String.eqb (otp_id r) id then f r else r) table.

Definition set_attempts (n : Z) (r : OtpRow) : OtpRow :=
  {| otp_id := otp_id r; otp_email := otp_email r; otp := otp r;
     created_at := created_at r; expires_at := expires_at r;
     verified := verified r; attempts := n |}.

Definition set_verified (r : OtpRow) : OtpRow :=
  {| otp_id := otp_id r; otp_email := otp_email r; otp := otp r;
     created_at := created_at r; expires_at := expires_at r;
     verified := true; attempts := attempts r |}.

Definition mark_verified (id : string) (w : World) : World :=
  set_otp_verifications w
    (update_otp id set_verified (otp_verifications w)).

(** [await ... .update({ verified: true }).eq("id", id)], whose outcome
    is not read. *)
Definition try_mark_verified (env : Env) (id : string) (w : World) : World :=
  if verifiedError env then w else mark_verified id w.

(** [.update(...).eq("id", id)] on [profiles]. *)
Definition update_profile (id : string) (f : Profile -> Profile)
           (table : list Profile) : list Profile :=
  map (fun p => if String.eqb (profile_id p) id then f p else p) table.

Definition clear_temp_password_used (p : Profile) : Profile :=
  {| profile_id := profile_id p; profile_name := profile_name p;
     profile_email := profile_email p;
     profile_department := profile_department p;
     temp_password_used := false;
     tenth_percentage := tenth_percentage p;
     twelfth_percentage := twelfth_percentage p; cgpa := cgpa p |}.

Definition or_keep {A} (new old : option A) : option A :=
  match new with Some _ => new | None => old end.

(** The [profileData] written at signup. *)
Definition signup_profile (req : Request) (nm : string) (p : Profile)
  : Profile :=
  {| profile_id := profile_id p; profile_name := nm;
     profile_email := profile_email p;
     profile_department := department req;
     temp_password_used := false;
     tenth_percentage := or_keep (tenthPercentage req) (tenth_percentage p);
     twelfth_percentage :=
       or_keep (twelfthPercentage req) (twelfth_percentage p);
     cgpa := or_keep (cgpa_given req) (cgpa p) |}.

Definition set_password (pw : string) (u : AuthUser) : AuthUser :=
  {| user_id := user_id u; user_email := user_email u; password := pw;
     meta_name := meta_name u; meta_department := meta_department u |}.

(** [supabase.auth.admin.listUsers()]: the first page of the accounts,
    none when the call fails. *)
Definition listUsers (env : Env) (w : World) : list AuthUser :=
  if listError env then [] else firstn (perPage env) (auth_users w).

(** [users.find(u => u.email === email)]. *)
Definition find_user (users : list AuthUser) (email : string)
  : option AuthUser :=
  find (fun u => String.eqb (user_email u) email) users.

(** [users.some(u => u.email === email)]. *)
Definition some_user (users : list AuthUser) (email : string) : bool :=
  existsb (fun u => String.eqb (user_email u) email) users.

Definition no_otp_found : Response :=
  {| status := 404; body := Error "No OTP found for this email" None |}.

Definition otp_expired : Response :=
  {| status := 400; body := Error "OTP has expired" None |}.

Definition too_many_attempts : Response :=
  {| status := 400;
     body := Error "Too many failed attempts. Please request a new OTP" None |}.

Definition invalid_otp (remainingAttempts : Z) : Response :=
  {| status := 400;
     body :=
       Error (if remainingAttempts >? 0
              then "Invalid OTP. " ++ JS.toString remainingAttempts
                   ++ " attempts remaining. Please check your email for the most recent code."
              else "Too many failed attempts. Please request a new OTP.")
             None |}.

Definition verified_ok (env : Env) : Response :=
  {| status := 200;
     body := Ok "OTP verified successfully" (Some (tempPassword env)) |}.

(** The signup branch, entered with the name and role of the request. *)
Definition signup (env : Env) (req : Request) (otpRecord : OtpRow)
           (nm rl : string) (w : World) : Response * World :=
  if some_user (listUsers env w) (email req)
  then ({| status := 400;
           body := Error "A user with this email already exists. Please login instead."
                         None |}, w)
  else if signUpError env || some_user (auth_users w) (email req)
  (* [createUser] fails, as it does for an email that has an account *)
  then ({| status := 500; body := Error "Failed to create user account" None |},
        w)
  else
    (* the account, and the profile row its insertion trigger adds *)
    let u := {| user_id := new_user_id env; user_email := email req;
                password := tempPassword env; meta_name := Some nm;
                meta_department := department req |} in
    let p := {| profile_id := new_user_id env; profile_name := nm;
                profile_email := email req; profile_department := None;
                temp_password_used := false; tenth_percentage := None;
                twelfth_percentage := None; cgpa := None |} in
    let w1 := set_profiles (set_auth_users w (auth_users w ++ [u])%list)
                           (profiles w ++ [p])%list in
    let w2 := if roleError env then w1
              else set_user_roles w1
                     (user_roles w1
                      ++ [ {| role_user_id := new_user_id env;
                            user_role := rl |} ])%list in
    let w3 := if profileError env then w2
              else set_profiles w2
                     (update_profile (new_user_id env)
                                     (signup_profile req nm) (profiles w2)) in
    (verified_ok env, try_mark_verified env (otp_id otpRecord) w3).

(** The reset branch. *)
Definition reset (env : Env) (req : Request) (otpRecord : OtpRow)
           (w : World) : Response * World :=
  match find_user (listUsers env w) (email req) with
  | Some user =>
      if updateError env
      then ({| status := 500; body := Error "Failed to update password" None |},
            w)
      else
        let w1 := set_auth_users w
                    (map (fun u => if String.eqb (user_id u) (user_id user)
                                   then set_password (tempPassword env) u
                                   else u)
                         (auth_users w)) in
        let w2 := if flagError env then w1
                  else set_profiles w1
                         (update_profile (user_id user)
                                         clear_temp_password_used
                                         (profiles w1)) in
        (verified_ok env, try_mark_verified env (otp_id otpRecord) w2)
  | None => (verified_ok env, w)
  end.

Definition handler (env : Env) (req : Request) (w : World)
  : Response * World :=
  if String.eqb (email req) "" || String.eqb (otp_given req) "" then
    ({| status := 400; body := Error "Email and OTP are required" None |}, w)
  else if fetchError env then
    ({| status := 500; body := Error "Failed to verify OTP" None |}, w)
  else
    match find_otp w (email req) with
    | None => (no_otp_found, w)
    | Some otpRecord =>
        if expires_at otpRecord <? now env then (otp_expired, w)
        else if attempts otpRecord >=? 5 then (too_many_attempts, w)
        else
          let storedOtp := JS.trim (otp otpRecord) in
          let providedOtp := JS.trim (otp_given req) in
          if negb (String.eqb storedOtp providedOtp) then
            (invalid_otp (5 - (attempts otpRecord + 1)),
             if attemptsError env then w
             else set_otp_verifications w
                    (update_otp (otp_id otpRecord)
                                (set_attempts (attempts otpRecord + 1))
                                (otp_verifications w)))
          else
            let purpose :=
              match purpose req with Some p => p | None => "signup" end in
            if String.eqb purpose "signup" && present (name req)
               && present (role req)
            then signup env req otpRecord
                        (match name req with Some n => n | None => "" end)
                        (match role req with Some r => r | None => "" end)
                        w
            else if String.eqb purpose "reset"
            then reset env req otpRecord w
            else (verified_ok env, w)
    end.

End VerifyOtp.

(* ================================================================= *)
(** ** The notions the specification speaks in *)

Module Spec.

(** [a] occurs in [b]. *)
Definition substring (a b : string) : Prop :=
  exists pre post, b = pre ++ a ++ post.

(** [a] occurs in [b], letter case put aside. *)
Definition ci_substring (a b : string) : Prop :=
  substring (JS.toLowerCase a) (JS.toLowerCase b).

(** A required skill is matched by a candidate's skills: containment, in
    either direction, with one of them. *)
Definition matched (candidate_skills : list string) (required : string)
  : Prop :=
  exists c, In c candidate_skills
            /\ (ci_substring required c \/ ci_substring c required).

(** [n] is the integer nearest to [x] (the upper one of two). *)
Definition nearest_integer (n : Z) (x : Q) : Prop :=
  (x - (1 # 2) < inject_Z n /\ inject_Z n <= x + (1 # 2))%Q.

(** [n] is an integer nearest to [x], up to [eps]. *)
Definition nearest_within (eps : Q) (n : Z) (x : Q) : Prop :=
  (x - (1 # 2) - eps < inject_Z n /\ inject_Z n <= x + (1 # 2) + eps)%Q.

(** The composite score, [0.5 x skill + 0.25 x assessment + 0.25 x
    interview], in the arithmetic of the program. *)
Definition composite (skill_component assessment_average interview_average : Q)
  : Q :=
  JS.fadd (JS.fadd (JS.fmul (1 # 2) skill_component)
                   (JS.fmul (1 # 4) assessment_average))
          (JS.fmul (1 # 4) interview_average).

(** The same formula on the rationals. *)
Definition composite_exact
           (skill_component assessment_average interview_average : Q) : Q :=
  ((1 # 2) * skill_component + (1 # 4) * assessment_average
   + (1 # 4) * interview_average)%Q.

(** [matched / required x 100], in the arithmetic of the program. *)
Definition ratio (matched_count required_count : nat) : Q :=
  JS.fmul (JS.fdiv (inject_Z (Z.of_nat matched_count))
                   (inject_Z (Z.of_nat required_count)))
          100.

(** The character occurs in the string. *)
Definition contains (s : string) (c : ascii) : Prop :=
  In c (list_ascii_of_string s).

(** What the specification says of a raw skill that is to be discarded:
  not a text, empty, shorter than 2 or longer than 50 characters, or
  holding one of the five characters. *)
Definition must_discard (v : JS.value) : Prop :=
  match v with
  | JS.VStr s =>
      s = "" \/ JS.length s < 2 \/ 50 < JS.length s
      \/ contains s "[" \/ contains s "]" \/ contains s "{"
      \/ contains s "}" \/ contains s "="
  | _ => True
  end.

(** None of the three characters the filters look for. *)
Definition free_of_markers (s : string) : Prop :=
  ~ contains s "[" /\ ~ contains s "=" /\ ~ contains s "{".

(** A decimal digit, and the value of a string of digits. *)
Definition is_digit (c : ascii) : bool :=
  ((48 <=? N_of_ascii c) && (N_of_ascii c <=? 57))%N.

Fixpoint all_digits (s : string) : bool :=
  match s with
  | EmptyString => true
  | String c s' => is_digit c && all_digits s'
  end.

Fixpoint decimal_value_from (acc : Z) (s : string) : Z :=
  match s with
  | EmptyString => acc
  | String c s' =>
      decimal_value_from (acc * 10 + (Z.of_N (N_of_ascii c) - 48)) s'
  end.

Definition decimal_value (s : string) : Z := decimal_value_from 0 s.

(** The six decimal digits of a number below one million. *)
Definition decimal6 (n : Z) : string :=
  String (JS.digit_char (n / 100000 mod 10))
 (String (JS.digit_char (n / 10000 mod 10))
 (String (JS.digit_char (n / 1000 mod 10))
 (String (JS.digit_char (n / 100 mod 10))
 (String (JS.digit_char (n / 10 mod 10))
 (String (JS.digit_char (n mod 10)) ""))))).

End Spec.

(* ================================================================= *)
(** ** Sample data *)

Module Samples.
Import Recommender.

(** A candidate with one skill, one assessment of 80 and one interview of
  60, and one posting that asks for that skill. *)
Definition job_python : Job :=
mkJob "job-1" "Developer" "Acme" (Some ["python"]).

Definition req_85 : Request :=
{| authorization := Some "Bearer token";
   user := Some "student-1";
   profile := Some (Some [JS.VStr "Python"]);
   mockResults := Some [Some 80%Q];
   interviews := Some [Some 60%Q];
   offcampusJobs := Some [job_python];
   deleteError := false;
   insertError := false;
   error_message := "Unknown error" |}.

(** The same candidate with one assessment of 59 and no interview, and a
  posting none of whose skills the candidate has: the composite score is
  14.75. *)
Definition job_rust : Job :=
mkJob "job-4" "Engineer" "Hooli" (Some ["Rust"]).

Definition req_below_floor : Request :=
{| authorization := Some "Bearer token";
   user := Some "student-1";
   profile := Some (Some [JS.VStr "Python"]);
   mockResults := Some [Some 59%Q];
   interviews := None;
   offcampusJobs := Some [job_rust];
   deleteError := false;
   insertError := false;
   error_message := "Unknown error" |}.

Definition rec_85 : JobRecommendation :=
{| job_id := "job-1"; job_source := "offcampus";
   rec_company_name := "Acme"; rec_role := "Developer";
   match_score := 85; skill_match := 100; test_performance := 80;
   interview_performance := 60;
   reasons := ["Strong skill match"; "Excellent test performance"];
   rec_skills_required := ["python"] |}.

Definition row_85 : Row := to_row "student-1" rec_85.

(** The candidate and the posting of the specification's matching
  example. *)
Definition skills_python_react : option (list JS.value) :=
Some [JS.VStr "python"; JS.VStr "react"].

Definition job_python_sql : Job :=
mkJob "job-2" "Analyst" "Initech" (Some ["Python"; "SQL"]).

Definition job_open : Job :=
mkJob "job-3" "Trainee" "Globex" None.

(** A datastore with one pending code for a pre-registered student, and
  the environments and requests used against it. *)
Definition pending (expires tries : Z) : Store.OtpRow :=
Store.mkOtpRow "otp-1" "student@college.edu" "482913" 1000 expires false
               tries.

Definition old_verified : Store.OtpRow :=
Store.mkOtpRow "otp-0" "student@college.edu" "111111" 10 600010 true 0.

Definition world_of (rows : list Store.OtpRow) : Store.World :=
Store.mkWorld rows [] ["student@college.edu"] [] [] [] [].

Definition send_env : SendOtp.Env :=
{| SendOtp.now := 2000; SendOtp.db_now := 2003; SendOtp.random := 1 # 4;
   SendOtp.new_id := "otp-2"; SendOtp.preRegError := false;
   SendOtp.profileError := false; SendOtp.deleteError := false;
   SendOtp.insertError := false; SendOtp.sendError := None |}.

Definition send_req : SendOtp.Request :=
SendOtp.mkRequest "student@college.edu" (Some "Asha") None None.

Definition verify_env (clock : Z) : VerifyOtp.Env :=
{| VerifyOtp.now := clock; VerifyOtp.fetchError := false;
   VerifyOtp.tempPassword := "k3j9x0q2m5p1a8b7c6d4e2f0";
   VerifyOtp.new_user_id := "user-1";
   VerifyOtp.listError := false; VerifyOtp.perPage := 50%nat;
   VerifyOtp.signUpError := false; VerifyOtp.roleError := false;
   VerifyOtp.profileError := false; VerifyOtp.updateError := false;
   VerifyOtp.attemptsError := false; VerifyOtp.flagError := false;
   VerifyOtp.verifiedError := false |}.

Definition verify_req (code : string) (purpose : option string)
: VerifyOtp.Request :=
VerifyOtp.mkRequest "student@college.edu" code None None None purpose
                    None None None.

End Samples.

(* ================================================================= *)
(** ** parse-resume: the handler *)

Module ParseResumeHandler.

(** [aiData.choices?.[0]?.message?.tool_calls?.[0]] and the outcome of
    [JSON.parse] on its arguments. *)
Inductive ToolCall : Type :=
| NoToolCall
| Unparsable (message : string)
| Arguments (skills : option (list JS.value)).

Record Request : Type := mkRequest {
  resumeText : string;             (* the empty string when absent *)
  authorization : option string
}.

Record Env : Type := mkEnv {
  api_key : option string;         (* [LOVABLE_API_KEY] *)
  ai_ok : bool;                    (* [response.ok] *)
  ai_status : Z;                   (* [response.status] *)
  toolCall : ToolCall;
  user : option string;            (* [supabase.auth.getUser(token)] *)
  updateError : option string;     (* the message shown for a failed update *)
  now : Z
}.

(** The columns of [profiles] the handler writes. *)
Record Profile : Type := mkProfile {
  id : string;
  resume_skills : list string;
  resume_parsed_at : option Z
}.

Inductive Response : Type :=
| Parsed (skills : list string)
| Failed (status : Z) (error : string).

(** [args.skills || []], or no skills when there is no tool call. *)
Definition extracted (t : ToolCall) : list JS.value :=
  match t with
  | Arguments (Some skills) => skills
  | _ => []
  end.

(** [.update({ resume_skills, resume_parsed_at }).eq("id", uid)]. *)
Definition update_profile (uid : string) (skills : list string) (at_ : Z)
           (table : list Profile) : list Profile :=
  map (fun p => if String.eqb (id p) uid
                then {| id := id p; resume_skills := skills;
                        resume_parsed_at := Some at_ |}
                else p)
      table.

Definition handler (env : Env) (req : Request) (table : list Profile)
  : Response * list Profile :=
  if String.eqb (resumeText req) "" then
    (Failed 400 "Resume text is required", table)
  else
    match api_key env with
    | None => (Failed 500 "LOVABLE_API_KEY not configured", table)
    | Some _ =>
        if negb (ai_ok env) then
          if ai_status env =? 429 then
            (Failed 429 "Rate limit exceeded. Please try again later.", table)
          else if ai_status env =? 402 then
            (Failed 402 "Payment required. Please add credits to your workspace.",
             table)
          else
            (Failed 500 ("AI API error: " ++ JS.toString (ai_status env)),
             table)
        else
          match toolCall env with
          | Unparsable message => (Failed 500 message, table)
          | t =>
              let skills := ParseResume.clean_skills (extracted t) in
              match authorization req with
              | None => (Failed 500 "No authorization header", table)
              | Some _ =>
                  match user env with
                  | None => (Failed 500 "Unauthorized", table)
                  | Some uid =>
                      match updateError env with
                      | Some message => (Failed 500 message, table)
                      | None =>
                          (Parsed skills,
                           update_profile uid skills (now env) table)
                      end
                  end
              end
          end
    end.

End ParseResumeHandler.

(* ================================================================= *)
(** ** fetch-placement-resources *)

Module PlacementResources.

(** The columns of [online_resources] the handler writes. *)
Record Resource : Type := mkResource {
  title : string;
  source : string;
  url : string;
  description : string;
  company_name : string
}.

(** [s.replace(/\s+/g, '-')]: every run of white space becomes one
    hyphen; [in_run] says that the character before was white space. *)
Fixpoint replace_spaces (in_run : bool) (s : string) : string :=
  match s with
  | EmptyString => EmptyString
  | String c s' =>
      if JS.isWhiteSpace c
      then if in_run then replace_spaces true s'
           else String "-" (replace_spaces true s')
      else String c (replace_spaces false s')
  end.

(** [companyName.toLowerCase().replace(/\s+/g, '-')]. *)
Definition slug (companyName : string) : string :=
  replace_spaces false (JS.toLowerCase companyName).

(** The characters [encodeURIComponent] leaves as they are: letters,
    digits and [- _ . ! ~ * ' ( )]. *)
Definition unreserved (c : ascii) : bool :=
  let n := N_of_ascii c in
  (((48 <=? n) && (n <=? 57)) || ((65 <=? n) && (n <=? 90))
   || ((97 <=? n) && (n <=? 122))
   || (n =? 45) || (n =? 95) || (n =? 46) || (n =? 33) || (n =? 126)
   || (n =? 42) || (n =? 39) || (n =? 40) || (n =? 41))%N.

Definition hex_digit (d : N) : ascii :=
  if (d <? 10)%N then ascii_of_N (48 + d) else ascii_of_N (55 + d).

(** One byte as [%XX]. *)
Definition percent (b : N) : string :=
  String "%" (String (hex_digit (b / 16)) (String (hex_digit (b mod 16)) "")).

(** A code unit below 256 in UTF-8, percent-encoded: one byte below 128,
    two bytes from 128 on. *)
Definition encode_char (c : ascii) : string :=
  let n := N_of_ascii c in
  if unreserved c then String c EmptyString
  else if (n <? 128)%N then percent n
  else percent (192 + n / 64) ++ percent (128 + n mod 64).

Fixpoint encodeURIComponent (s : string) : string :=
  match s with
  | EmptyString => EmptyString
  | String c s' => encode_char c ++ encodeURIComponent s'
  end.

(** The five links generated for a company. *)
Definition generate (companyName : string) : list Resource :=
  [ {| title := companyName ++ " Interview Experience";
       source := "GeeksforGeeks";
       url := "https://www.geeksforgeeks.org/" ++ slug companyName
              ++ "-interview-experience/";
       description := "Collection of interview experiences and questions for "
                      ++ companyName;
       company_name := companyName |};
    {| title := companyName ++ " Coding Questions";
       source := "LeetCode";
       url := "https://leetcode.com/company/" ++ slug companyName ++ "/";
       description := "Practice coding problems frequently asked at "
                      ++ companyName;
       company_name := companyName |};
    {| title := companyName ++ " Interview Questions";
       source := "InterviewBit";
       url := "https://www.interviewbit.com/" ++ slug companyName
              ++ "-interview-questions/";
       description := "Comprehensive interview preparation guide for "
                      ++ companyName;
       company_name := companyName |};
    {| title := companyName ++ " Company Reviews";
       source := "Glassdoor";
       url := "https://www.glassdoor.com/Search/results.htm?keyword="
              ++ encodeURIComponent companyName;
       description := "Read employee reviews and salary information for "
                      ++ companyName;
       company_name := companyName |};
    {| title := companyName ++ " Technical Questions";
       source := "PrepInsta";
       url := "https://prepinsta.com/" ++ slug companyName
              ++ "-interview-questions/";
       description := "Practice technical questions commonly asked at "
                      ++ companyName;
       company_name := companyName |} ].

Inductive Response : Type :=
| Resources (resources : list Resource)
| Failed (status : Z) (error : string).

(** [.select('*').eq('company_name', companyName).limit(10)]. *)
Definition existing (companyName : string) (table : list Resource)
  : list Resource :=
  firstn 10 (filter (fun r => String.eqb (company_name r) companyName) table).

(** What the datastore does with the two calls: the select gives no data,
    the insert is refused. *)
Record Env : Type := mkEnv {
  selectError : bool;
  insertError : bool
}.

Definition handler (env : Env) (companyName : string)
           (table : list Resource) : Response * list Resource :=
  if String.eqb companyName "" then
    (Failed 400 "Company name is required", table)
  else
    match (if selectError env then [] else existing companyName table) with
    | r :: rs => (Resources (r :: rs), table)
    | [] =>
        let resources := generate companyName in
        (Resources resources,
         if insertError env then table else (table ++ resources)%list)
    end.

End PlacementResources.

(* ================================================================= *)
(** ** The announcement sheet: recipients and notifications *)

Module Announcements.

(** A row of the sheet: the cells by column name; a column that is absent
    reads as [VNull]. *)
Definition RowData : Type := list (string * JS.value).

Fixpoint get (row : RowData) (column : string) : JS.value :=
  match row with
  | [] => JS.VNull
  | (k, v) :: rest => if String.eqb k column then v else get rest column
  end.

(** [a || b]. *)
Definition or_else (a b : JS.value) : JS.value :=
  if JS.truthy a then a else b.

(** [set.add(x)] on a set kept in insertion order. *)
Definition add (x : string) (set : list string) : list string :=
  if existsb (String.eqb x) set then set else (set ++ [x])%list.

(** The email of a cell, if it is a non-empty text:
    [cell.trim().toLowerCase()]. *)
Definition email_of (cell : JS.value) : option string :=
  match JS.truthy cell, JS.as_string cell with
  | true, Some s => Some (JS.toLowerCase (JS.trim s))
  | _, _ => None
  end.

Definition student_cell (row : RowData) : JS.value :=
  or_else (get row "Email")
          (or_else (get row "email")
                   (or_else (get row "Student Email")
                            (get row "student_email"))).

Definition parent_cell (row : RowData) : JS.value :=
  or_else (get row "Parent Email")
          (or_else (get row "parent_email")
                   (or_else (get row "Guardian Email")
                            (get row "guardian_email"))).

(** The loop over the rows: the two sets after it. *)
Fixpoint collect (shortlisting : bool) (data : list RowData)
         (studentEmails parentEmails : list string)
  : list string * list string :=
  match data with
  | [] => (studentEmails, parentEmails)
  | row :: rest =>
      let studentEmails' :=
        match email_of (student_cell row) with
        | Some e => add e studentEmails
        | None => studentEmails
        end in
      let parentEmails' :=
        if shortlisting then
          match email_of (parent_cell row) with
          | Some e => add e parentEmails
          | None => parentEmails
          end
        else parentEmails in
      collect shortlisting rest studentEmails' parentEmails'
  end.

Record Profile : Type := mkProfile {
  id : string;
  email : string;
  name : string
}.

Record Recipient : Type := mkRecipient {
  announcement_id : string;
  student_id : string;
  notified : bool;
  notified_at : Z
}.

Record Notification : Type := mkNotification {
  user_id : string;
  notification_announcement_id : string;
  notification_title : string;
  message : string
}.

Record Mail : Type := mkMail {
  to : string;
  subject : string;
  body : string
}.

Record World : Type := mkWorld {
  profiles : list Profile;
  announcement_recipients : list Recipient;
  notifications : list Notification;
  outbox : list Mail
}.

Record Request : Type := mkRequest {
  file : bool;                     (* a file is attached *)
  announcementId : string;         (* the empty string when absent *)
  category : string;
  title : string;
  companyName : option string;
  data : list RowData              (* the rows of the first sheet *)
}.

Record Env : Type := mkEnv {
  studentsError : option string;   (* the message shown when the select fails *)
  recipientsError : bool;
  notificationsError : bool;
  delivers : Mail -> bool;         (* the send of this mail succeeds *)
  now : Z
}.

Inductive Response : Type :=
| Done (studentsNotified parentsNotified : Z)
| Failed (status : Z) (error : string).

Definition nl : string := String (ascii_of_nat 10) EmptyString.

(** [companyName ? yes : no]. *)
Definition company (req : Request) : option string :=
  match companyName req with
  | Some c => if String.eqb c "" then None else Some c
  | None => None
  end.

Definition student_mail (req : Request) (student : Profile) : Mail :=
  {| to := email student;
     subject := title req;
     body := "Dear " ++ name student ++ "," ++ nl ++ nl
             ++ (match company req with
                 | Some c => "Company: " ++ c ++ nl ++ nl
                 | None => ""
                 end)
             ++ "A new announcement has been posted:" ++ nl ++ nl
             ++ title req ++ nl ++ nl
             ++ "Please check your dashboard for more details." |}.

Definition parent_mail (req : Request) (parentEmail : string) : Mail :=
  {| to := parentEmail;
     subject := "Student Shortlisted - "
                ++ (match company req with Some c => c | None => title req end);
     body := "Dear Parent/Guardian," ++ nl ++ nl
             ++ "Your ward has been shortlisted for the next round by "
             ++ (match company req with Some c => c | None => "the company" end)
             ++ "." ++ nl ++ nl
             ++ "Please check with your ward for more details." ++ nl ++ nl
             ++ "Best regards," ++ nl ++ "Training & Placement Office" |}.

(** The mails of a loop of sends, a failed send being skipped. *)
Definition sent (env : Env) (mails : list Mail) : list Mail :=
  filter (delivers env) mails.

(** [.from('profiles').select(...).in('email', emails)]. *)
Definition students_of (emails : list string) (w : World) : list Profile :=
  filter (fun p => existsb (String.eqb (email p)) emails) (profiles w).

Definition handler (env : Env) (req : Request) (w : World)
  : Response * World :=
  if negb (file req) || String.eqb (announcementId req) "" then
    (Failed 500 "Missing required fields", w)
  else
    let shortlisting := String.eqb (category req) "shortlisting" in
    let (studentEmails, parentEmails) :=
      collect shortlisting (data req) [] [] in
    match studentsError env with
    | Some message => (Failed 500 message, w)
    | None =>
        let students := students_of studentEmails w in
        let recipients :=
          map (fun s => {| announcement_id := announcementId req;
                           student_id := id s; notified := true;
                           notified_at := now env |}) students in
        let notes :=
          map (fun s => {| user_id := id s;
                           notification_announcement_id := announcementId req;
                           notification_title := title req;
                           message :=
                             (match company req with
                              | Some c => c ++ " - "
                              | None => ""
                              end) ++ "New announcement posted" |})
              students in
        let parent_mails :=
          if shortlisting then map (parent_mail req) parentEmails else [] in
        (Done (Z.of_nat (List.length students))
              (Z.of_nat (List.length parentEmails)),
         {| profiles := profiles w;
            announcement_recipients :=
              if recipientsError env then announcement_recipients w
              else (announcement_recipients w ++ recipients)%list;
            notifications :=
              if notificationsError env then notifications w
              else (notifications w ++ notes)%list;
            outbox :=
              (outbox w ++ sent env (map (student_mail req) students)
               ++ sent env parent_mails)%list |})
    end.

End Announcements.

(* ================================================================= *)
(** ** Notions used for the further properties of the handlers *)

Module Props.
Import Recommender.

(** Highest score first. *)
Definition by_score_desc (a b : JobRecommendation) : Prop :=
  match_score b <= match_score a.

Definition by_row_score_desc (a b : Row) : Prop :=
  row_match_score b <= row_match_score a.

(** The recommendations of a given score, in the order of the list. *)
Definition of_score (k : Z) (l : list JobRecommendation)
  : list JobRecommendation :=
  filter (fun r => match_score r =? k) l.



(** The largest error of one rounding of a number up to 100: [2 ^ -47]. *)
Definition rounding_unit : Q := (1 # 2 ^ 47)%Q.

(** No character of the text is white space. *)
Definition no_space (lit : string) : bool :=
  forallb (fun x => negb (JS.isWhiteSpace x)) (list_ascii_of_string lit).

(** The purpose and the role of an issuance request, defaults filled in. *)
Definition send_purpose (req : SendOtp.Request) : string :=
  match SendOtp.purpose req with Some p => p | None => "signup" end.

Definition send_role (req : SendOtp.Request) : string :=
  match SendOtp.role req with Some r => r | None => "student" end.

(** The code rows of an email. *)
Definition rows_for (email : string) (table : list Store.OtpRow)
  : list Store.OtpRow :=
  filter (fun r => String.eqb (Store.otp_email r) email) table.

(** What verification never changes in a code row. *)
Definition otp_core (r : Store.OtpRow) : string * string * string * Z * Z :=
  (Store.otp_id r, Store.otp_email r, Store.otp r, Store.created_at r,
   Store.expires_at r).

(** A code row moves forward only: once verified it stays verified, and its
    attempts do not decrease. *)
Definition otp_progress (old new : Store.OtpRow) : Prop :=
  otp_core new = otp_core old
  /\ (Store.verified old = true -> Store.verified new = true)
  /\ Store.attempts old <= Store.attempts new.

(** The purpose of a verification request, default filled in. *)
Definition verify_purpose (req : VerifyOtp.Request) : string :=
  match VerifyOtp.purpose req with Some p => p | None => "signup" end.

(** A sequence of verification requests, each with its environment. *)
Fixpoint verify_all (steps : list (VerifyOtp.Env * VerifyOtp.Request))
         (w : Store.World) : Store.World :=
  match steps with
  | [] => w
  | (env, req) :: rest => verify_all rest (snd (VerifyOtp.handler env req w))
  end.

End Props.

(* ================================================================= *)
(** ** Further sample data *)

Module Samples2.
Import Recommender.


(** The request of [Samples.req_below_floor] with the delete failing, and
    a row an earlier run stored for the same posting. *)
Definition req_delete_failed : Request :=
  {| authorization := Some "Bearer token";
     user := Some "student-1";
     profile := Some (Some [JS.VStr "Python"]);
     mockResults := Some [Some 59%Q];
     interviews := None;
     offcampusJobs := Some [Samples.job_rust];
     deleteError := true;
     insertError := false;
     error_message := "Unknown error" |}.

Definition row_stale : Row :=
  mkRow "student-1" "job-4" "offcampus" 40 50 60 0 ["Good skill match"].

(** A posting that asks for three skills of which the candidate has one,
    with assessments of 20, 16 and 10: on the rationals the composite
    score is 20.5. *)
Definition job_three : Job :=
  mkJob "job-5" "Developer" "Umbrella" (Some ["Python"; "Go"; "Rust"]).

Definition req_half : Request :=
  {| authorization := Some "Bearer token";
     user := Some "student-1";
     profile := Some (Some [JS.VStr "Python"]);
     mockResults := Some [Some 20%Q; Some 16%Q; Some 10%Q];
     interviews := None;
     offcampusJobs := Some [job_three];
     deleteError := false;
     insertError := false;
     error_message := "Unknown error" |}.

(** A posting that asks for five skills of which the candidate has one,
    with assessments of 20, 19 and 10 and interviews of 6, 4 and 1: on the
    rationals the composite score is 15. *)
Definition job_five : Job :=
  mkJob "job-9" "Developer" "Stark"
        (Some ["Python"; "Go"; "Rust"; "Scala"; "Kotlin"]).

Definition req_fifteen : Request :=
  {| authorization := Some "Bearer token";
     user := Some "student-1";
     profile := Some (Some [JS.VStr "Python"]);
     mockResults := Some [Some 20%Q; Some 19%Q; Some 10%Q];
     interviews := Some [Some 6%Q; Some 4%Q; Some 1%Q];
     offcampusJobs := Some [job_five];
     deleteError := false;
     insertError := false;
     error_message := "Unknown error" |}.

(** A row of another student. *)
Definition row_other : Row :=
  mkRow "student-2" "job-1" "offcampus" 40 50 30 30 ["Good skill match"].

(** A pending code of the email stamped later than the datastore's clock
    of [Samples.send_env], as after a step back of that clock. *)
Definition pending_later : Store.OtpRow :=
  Store.mkOtpRow "otp-7" "student@college.edu" "482913" 5000 9000000 false 0.

(** A pending code of another email. *)
Definition pending_other : Store.OtpRow :=
  Store.mkOtpRow "otp-9" "other@college.edu" "735102" 1500 601500 false 1.

(** The environment of [Samples.send_env] with the insert refused. *)
Definition send_env_refused : SendOtp.Env :=
  {| SendOtp.now := 2000; SendOtp.db_now := 2003; SendOtp.random := 1 # 4;
     SendOtp.new_id := "otp-2"; SendOtp.preRegError := false;
     SendOtp.profileError := false; SendOtp.deleteError := false;
     SendOtp.insertError := true; SendOtp.sendError := None |}.

(** The environment of [Samples.send_env] with the delete failing. *)
Definition send_env_delete_failed : SendOtp.Env :=
  {| SendOtp.now := 2000; SendOtp.db_now := 2003; SendOtp.random := 1 # 4;
     SendOtp.new_id := "otp-2"; SendOtp.preRegError := false;
     SendOtp.profileError := false; SendOtp.deleteError := true;
     SendOtp.insertError := false; SendOtp.sendError := None |}.

(** The environment of [Samples.verify_env] with the update of the
    attempts failing. *)
Definition verify_env_lost_update (clock : Z) : VerifyOtp.Env :=
  {| VerifyOtp.now := clock; VerifyOtp.fetchError := false;
     VerifyOtp.tempPassword := "k3j9x0q2m5p1a8b7c6d4e2f0";
     VerifyOtp.new_user_id := "user-1";
     VerifyOtp.listError := false; VerifyOtp.perPage := 50%nat;
     VerifyOtp.signUpError := false; VerifyOtp.roleError := false;
     VerifyOtp.profileError := false; VerifyOtp.updateError := false;
     VerifyOtp.attemptsError := true; VerifyOtp.flagError := false;
     VerifyOtp.verifiedError := false |}.

(** Five submissions of wrong codes, the update of the third one lost. *)
Definition five_wrong_one_lost : list (VerifyOtp.Env * VerifyOtp.Request) :=
  [(Samples.verify_env 2000, Samples.verify_req "000000" None);
   (Samples.verify_env 2100, Samples.verify_req "111111" None);
   (verify_env_lost_update 2200, Samples.verify_req "222222" None);
   (Samples.verify_env 2300, Samples.verify_req "333333" None);
   (Samples.verify_env 2400, Samples.verify_req "444444" None)].

(** Five submissions of wrong codes, a second apart. *)
Definition five_wrong : list (VerifyOtp.Env * VerifyOtp.Request) :=
  [(Samples.verify_env 2000, Samples.verify_req "000000" None);
   (Samples.verify_env 2100, Samples.verify_req "111111" None);
   (Samples.verify_env 2200, Samples.verify_req "222222" None);
   (Samples.verify_env 2300, Samples.verify_req "333333" None);
   (Samples.verify_env 2400, Samples.verify_req "444444" None)].

(** A signup request with the pending code of [Samples.pending]. *)
Definition signup_req : VerifyOtp.Request :=
  VerifyOtp.mkRequest "student@college.edu" "482913" (Some "Asha")
                      (Some "CSE") (Some "student") None None None None.

(** An account of that email, and a datastore that holds it together with
    its profile and a pending code. *)
Definition account : Store.AuthUser :=
  Store.mkAuthUser "user-0" "student@college.edu" "old-password"
                   (Some "Asha") None.

Definition world_with_account : Store.World :=
  Store.mkWorld [Samples.pending 601000 0] [] ["student@college.edu"]
                [Store.mkProfile "user-0" "Asha" "student@college.edu" None
                                 true None None None]
                [account] [] [].

(** A signup request with the code issued under [Samples.send_env]. *)
Definition signup_req_issued : VerifyOtp.Request :=
  VerifyOtp.mkRequest "student@college.edu" "325000" (Some "Asha")
                      (Some "CSE") (Some "student") None None None None.

End Samples2.

Module Samples3.
Import ParseResumeHandler.

(** An extraction that returns three skills, one of them malformed, for a
    user who has a profile. *)
Definition parse_env : Env :=
  {| api_key := Some "key"; ai_ok := true; ai_status := 200;
     toolCall := Arguments (Some [JS.VStr " Python "; JS.VStr "{skills=";
                                  JS.VStr "React"]);
     user := Some "student-1"; updateError := None; now := 5000 |}.

Definition parse_env_limited : Env :=
  {| api_key := Some "key"; ai_ok := false; ai_status := 429;
     toolCall := NoToolCall;
     user := Some "student-1"; updateError := None; now := 5000 |}.

Definition parse_req : Request :=
  {| resumeText := "Python and React developer";
     authorization := Some "Bearer token" |}.

Definition parse_table : list Profile :=
  [mkProfile "student-1" [] None; mkProfile "student-2" ["Java"] (Some 40)].

Definition parsed_skills : list string := ["Python"; "React"].

End Samples3.

Module Samples4.
Import Announcements.

(** A sheet of three rows: the same student twice, in different case, and a
    row without email; one profile. *)
Definition sheet : list RowData :=
  [ [("Name", JS.VStr "Asha"); ("Email", JS.VStr " Asha@College.edu ");
     ("Parent Email", JS.VStr "parent@home.in")];
    [("email", JS.VStr "asha@college.edu")];
    [("Name", JS.VStr "Ravi"); ("Email", JS.VNull)] ].

Definition announce_req : Request :=
  {| file := true; announcementId := "ann-1"; category := "shortlisting";
     title := "Shortlist"; companyName := Some "Acme"; data := sheet |}.

Definition announce_env : Env :=
  {| studentsError := None; recipientsError := false;
     notificationsError := false; delivers := fun _ => true; now := 9000 |}.

Definition announce_world : World :=
  {| profiles := [mkProfile "student-1" "asha@college.edu" "Asha";
                  mkProfile "student-2" "Ravi@College.edu" "Ravi"];
     announcement_recipients := []; notifications := []; outbox := [] |}.

End Samples4.

(* ================================================================= *)
(** ** Facts about the JavaScript primitives *)

Section StringFacts.

Lemma startsWith_app (p t : string) : JS.startsWith (p ++ t) p = true.
Proof.
    induction p as [|a p IH]; simpl.
    - now destruct t.
    - now rewrite Ascii.eqb_refl, IH.
Qed.

Lemma startsWith_inv (s p : string) :
    JS.startsWith s p = true -> exists t, s = p ++ t.
Proof.
    revert s; induction p as [|a p IH]; intros s H.
    - exists s. reflexivity.
    - destruct s as [|b s]; simpl in H; [discriminate|].
      apply andb_true_iff in H as [Hab Hs].
      apply Ascii.eqb_eq in Hab. subst b.
      destruct (IH _ Hs) as [t ->].
      now exists t.
Qed.

Lemma append_assoc (a b c : string) : (a ++ b) ++ c = a ++ (b ++ c).
Proof. induction a as [|x a IH]; simpl; [reflexivity | now rewrite IH]. Qed.

Lemma append_nil_r (a : string) : a ++ "" = a.
Proof. induction a as [|x a IH]; simpl; [reflexivity | now rewrite IH]. Qed.

Lemma includes_cons (c : ascii) (s sub : string) :
    JS.includes (String c s) sub
    = JS.startsWith (String c s) sub || JS.includes s sub.
Proof. reflexivity. Qed.

Lemma includes_nil (sub : string) :
    JS.includes "" sub = JS.startsWith "" sub || false.
Proof. reflexivity. Qed.

(** [includes] decides occurrence. *)
Lemma includes_spec (s sub : string) :
    JS.includes s sub = true <-> Spec.substring sub s.
Proof.
    split.
    - induction s as [|c s IH]; intros H.
      + rewrite includes_nil, orb_false_r in H.
        destruct (startsWith_inv _ _ H) as [t Ht].
        now exists "", t.
      + rewrite includes_cons in H.
        apply orb_true_iff in H as [H | H].
        * destruct (startsWith_inv _ _ H) as [t Ht].
          exists "", t. exact Ht.
        * destruct (IH H) as (pre & post & ->).
          now exists (String c pre), post.
    - intros (pre & post & ->).
      induction pre as [|c pre IH].
      + change ("" ++ sub ++ post) with (sub ++ post).
        destruct (sub ++ post) as [|c u] eqn:E.
        * rewrite includes_nil, <- E, startsWith_app. reflexivity.
        * rewrite includes_cons, <- E, startsWith_app. reflexivity.
      + change (String c pre ++ sub ++ post)
          with (String c (pre ++ sub ++ post)).
        rewrite includes_cons, IH. apply orb_true_r.
Qed.

Lemma includes_char_cons (a c : ascii) (s : string) :
    JS.includes_char (String a s) c = Ascii.eqb c a || JS.includes_char s c.
Proof.
    unfold JS.includes_char. rewrite includes_cons. f_equal.
    simpl. destruct s; apply andb_true_r.
Qed.

Lemma includes_char_spec (s : string) (c : ascii) :
    JS.includes_char s c = true <-> Spec.contains s c.
Proof.
    unfold Spec.contains.
    induction s as [|a s IH].
    - simpl. split; [discriminate | intros []].
    - rewrite includes_char_cons, orb_true_iff, IH, Ascii.eqb_eq.
      simpl. split; intros [H | H]; auto.
Qed.

Lemma toLowerCase_char_idem (c : ascii) :
    JS.toLowerCase_char (JS.toLowerCase_char c) = JS.toLowerCase_char c.
Proof. destruct c as [[] [] [] [] [] [] [] []]; reflexivity. Qed.

Lemma isWhiteSpace_lower (c : ascii) :
    JS.isWhiteSpace (JS.toLowerCase_char c) = JS.isWhiteSpace c.
Proof. destruct c as [[] [] [] [] [] [] [] []]; reflexivity. Qed.

Lemma toLowerCase_idem (s : string) :
    JS.toLowerCase (JS.toLowerCase s) = JS.toLowerCase s.
Proof.
    induction s as [|c s IH]; simpl; [reflexivity|].
    now rewrite toLowerCase_char_idem, IH.
Qed.

Lemma toLowerCase_trimStart (s : string) :
    JS.toLowerCase (JS.trimStart s) = JS.trimStart (JS.toLowerCase s).
Proof.
    induction s as [|c s IH]; simpl; [reflexivity|].
    rewrite isWhiteSpace_lower.
    destruct (JS.isWhiteSpace c); [exact IH | reflexivity].
Qed.

Lemma toLowerCase_trimEnd (s : string) :
    JS.toLowerCase (JS.trimEnd s) = JS.trimEnd (JS.toLowerCase s).
Proof.
    induction s as [|c s IH]; simpl; [reflexivity|].
    rewrite <- IH, isWhiteSpace_lower.
    destruct (JS.trimEnd s) as [|a t]; simpl.
    - destruct (JS.isWhiteSpace c); reflexivity.
    - reflexivity.
Qed.

Lemma toLowerCase_trim (s : string) :
    JS.toLowerCase (JS.trim s) = JS.trim (JS.toLowerCase s).
Proof.
    unfold JS.trim. now rewrite toLowerCase_trimEnd, toLowerCase_trimStart.
Qed.

End StringFacts.

Section NumberFacts.
Open Scope Q_scope.

Lemma Math_round_nearest (x : Q) : Spec.nearest_integer (JS.Math_round x) x.
Proof.
    unfold Spec.nearest_integer, JS.Math_round.
    pose proof (Qfloor_le (x + (1 # 2))) as Hle.
    pose proof (Qlt_floor (x + (1 # 2))) as Hlt.
    rewrite inject_Z_plus in Hlt.
    split; [|exact Hle].
    apply Qplus_lt_l with (z := 1).
    eapply Qle_lt_trans; [|exact Hlt].
    ring_simplify. apply Qle_refl.
Qed.

Lemma Math_round_compat (x y : Q) : x == y -> JS.Math_round x = JS.Math_round y.
Proof. intros H. unfold JS.Math_round. now rewrite H. Qed.

Lemma Math_round_ge (x : Q) (n : Z) :
    inject_Z n <= x -> (n <= JS.Math_round x)%Z.
Proof.
    intros H. unfold JS.Math_round.
    rewrite <- (Qfloor_Z n).
    apply Qfloor_resp_le.
    eapply Qle_trans; [exact H|].
    rewrite <- (Qplus_0_r x) at 1.
    apply Qplus_le_r. discriminate.
Qed.

Lemma Math_round_le (x : Q) (n : Z) :
  x <= inject_Z n -> (JS.Math_round x <= n)%Z.
Proof.
  intros H. unfold JS.Math_round.
  assert (Hf : Qfloor (inject_Z n + (1 # 2)) = n).
  { apply Z.le_antisymm.
    - assert (Hlt : inject_Z (Qfloor (inject_Z n + (1 # 2)))
                    < inject_Z (n + 1)).
      { eapply Qle_lt_trans; [apply Qfloor_le|].
        rewrite inject_Z_plus. change (inject_Z 1) with 1. lra. }
      rewrite <- Zlt_Qlt in Hlt. lia.
    - rewrite <- (Qfloor_Z n) at 1. apply Qfloor_resp_le. lra. }
  rewrite <- Hf at 1. apply Qfloor_resp_le. lra.
Qed.

Lemma Math_round_le_100 (x : Q) : x <= 100 -> (JS.Math_round x <= 100)%Z.
Proof. intros H. now apply Math_round_le. Qed.

Lemma geq_spec (x y : Q) : JS.geq x y = true <-> y <= x.
Proof. unfold JS.geq. apply Qle_bool_iff. Qed.

End NumberFacts.

(** *** Binary64 rounding *)

Section RoundingFacts.
Open Scope Q_scope.

Lemma rne_floor_or_succ (q : Q) :
  JS.rne q = Qfloor q
  \/ (JS.rne q = (Qfloor q + 1)%Z /\ ~ q == inject_Z (Qfloor q)).
Proof.
  unfold JS.rne.
  destruct (Qcompare_spec (q - inject_Z (Qfloor q)) (1 # 2)) as [E | E | E].
  - destruct (Z.even (Qfloor q)); [now left|]. right. split; [reflexivity|].
    intros H.
    assert (X : q - inject_Z (Qfloor q) == 0) by (rewrite H at 1; ring).
    rewrite X in E. discriminate.
  - now left.
  - right. split; [reflexivity|]. intros H.
    assert (X : q - inject_Z (Qfloor q) == 0) by (rewrite H at 1; ring).
    rewrite X in E. discriminate.
Qed.

(** Rounding to an integer does not cross an integer. *)
Lemma rne_le_int (q : Q) (c : Z) : q <= inject_Z c -> (JS.rne q <= c)%Z.
Proof.
  intros H. pose proof (Qfloor_le q) as Hf.
  assert (Hfc : (Qfloor q <= c)%Z).
  { rewrite Zle_Qle. eapply Qle_trans; eauto. }
  destruct (rne_floor_or_succ q) as [-> | [-> Hne]]; [exact Hfc|].
  destruct (Z.eq_dec (Qfloor q) c) as [E | E]; [|lia].
  exfalso. apply Hne. apply Qle_antisym; [rewrite E; exact H | exact Hf].
Qed.

Lemma rne_ge_int (q : Q) (c : Z) : inject_Z c <= q -> (c <= JS.rne q)%Z.
Proof.
  intros H.
  assert (Hfc : (c <= Qfloor q)%Z).
  { rewrite <- (Qfloor_Z c). now apply Qfloor_resp_le. }
  destruct (rne_floor_or_succ q) as [-> | [-> _]]; lia.
Qed.

(** The integer chosen is at most one half away. *)
Lemma rne_near (q : Q) :
  q - (1 # 2) <= inject_Z (JS.rne q) /\ inject_Z (JS.rne q) <= q + (1 # 2).
Proof.
  pose proof (Qfloor_le q) as Hle.
  pose proof (Qlt_floor q) as Hlt.
  rewrite inject_Z_plus in Hlt. change (inject_Z 1) with 1 in Hlt.
  unfold JS.rne.
  destruct (Qcompare_spec (q - inject_Z (Qfloor q)) (1 # 2)) as [E | E | E].
  - destruct (Z.even (Qfloor q)).
    + split; lra.
    + rewrite inject_Z_plus. change (inject_Z 1) with 1. split; lra.
  - split; lra.
  - rewrite inject_Z_plus. change (inject_Z 1) with 1. split; lra.
Qed.

Lemma exponent_below (x : Q) (k : Z) :
  (0 < k)%Z -> 0 < x -> x < inject_Z (2 ^ k) -> (JS.exponent x < k)%Z.
Proof.
  intros Hk H0 H. unfold JS.exponent.
  destruct (Qle_bool 1 x) eqn:E.
  - apply Qle_bool_iff in E.
    assert (H1 : (1 <= Qfloor x)%Z).
    { rewrite <- (Qfloor_Z 1). now apply Qfloor_resp_le. }
    assert (H2 : (Qfloor x < 2 ^ k)%Z).
    { rewrite Zlt_Qlt. eapply Qle_lt_trans; [apply Qfloor_le | exact H]. }
    apply Z.log2_lt_pow2 in H2; lia.
  - pose proof (Z.log2_up_nonneg (Qceiling (/ x))). lia.
Qed.

Lemma fl_compat (x y : Q) : x == y -> JS.fl x = JS.fl y.
Proof. intros H. unfold JS.fl. now rewrite (Qred_complete _ _ H). Qed.

Lemma pow2_pos (k : Z) : (0 <= k -> 0 < 2 ^ k)%Z.
Proof. intros. apply Z.pow_pos_nonneg; lia. Qed.

(** Below [2 ^ 53] a positive number is rounded on a grid that holds the
    integers. *)
Lemma round_pos_grid (x : Q) :
  0 < x -> x < inject_Z (2 ^ 53) ->
  exists K, (0 <= K)%Z
            /\ JS.round_pos x
               = Qred (JS.rne (x * inject_Z (2 ^ K)) # Z.to_pos (2 ^ K)).
Proof.
  intros H0 Hx. unfold JS.round_pos.
  assert (He : (JS.exponent x < 53)%Z) by (apply exponent_below; [lia|auto..]).
  set (K := (52 - Z.max (JS.exponent x) (-1022))%Z).
  assert (HK : (0 <= K)%Z) by (unfold K; lia).
  exists K. split; [exact HK|].
  destruct (Z.leb_spec 0 K); [reflexivity|lia].
Qed.

Lemma round_pos_le_int (x : Q) (n : Z) :
  0 < x -> x <= inject_Z n -> (n < 2 ^ 53)%Z -> JS.round_pos x <= inject_Z n.
Proof.
  intros H0 Hn Hlt.
  assert (Hx : x < inject_Z (2 ^ 53)).
  { eapply Qle_lt_trans; [exact Hn|]. now rewrite <- Zlt_Qlt. }
  destruct (round_pos_grid x H0 Hx) as (K & HK & ->).
  rewrite Qred_correct.
  pose proof (pow2_pos K HK) as Hp.
  assert (Hr : (JS.rne (x * inject_Z (2 ^ K)) <= n * 2 ^ K)%Z).
  { apply rne_le_int. rewrite inject_Z_mult.
    apply Qmult_le_compat_r; [exact Hn|].
    change 0 with (inject_Z 0). rewrite <- Zle_Qle. lia. }
  change (inject_Z n) with (n # 1). unfold Qle. cbn [Qnum Qden].
  rewrite Z2Pos.id by exact Hp. lia.
Qed.

Lemma round_pos_ge_int (x : Q) (n : Z) :
  0 < x -> inject_Z n <= x -> x < inject_Z (2 ^ 53) ->
  inject_Z n <= JS.round_pos x.
Proof.
  intros H0 Hn Hx.
  destruct (round_pos_grid x H0 Hx) as (K & HK & ->).
  rewrite Qred_correct.
  pose proof (pow2_pos K HK) as Hp.
  assert (Hr : (n * 2 ^ K <= JS.rne (x * inject_Z (2 ^ K)))%Z).
  { apply rne_ge_int. rewrite inject_Z_mult.
    apply Qmult_le_compat_r; [exact Hn|].
    change 0 with (inject_Z 0). rewrite <- Zle_Qle. lia. }
  change (inject_Z n) with (n # 1). unfold Qle. cbn [Qnum Qden].
  rewrite Z2Pos.id by exact Hp. lia.
Qed.

Lemma Qnum_sign (x : Q) :
  match Qnum x with
  | 0%Z => x == 0
  | Z.pos _ => 0 < x
  | Z.neg _ => x < 0
  end.
Proof.
  destruct x as [n d]. destruct n; unfold Qeq, Qlt; cbn [Qnum Qden]; lia.
Qed.

(** A number between 0 and an integer below [2 ^ 53] is rounded to a
    number between them. *)
Lemma fl_le_int (x : Q) (n : Z) :
  0 <= x -> x <= inject_Z n -> (n < 2 ^ 53)%Z -> JS.fl x <= inject_Z n.
Proof.
  intros H0 Hn Hlt. unfold JS.fl.
  assert (Hr : Qred x == x) by apply Qred_correct.
  pose proof (Qnum_sign (Qred x)) as Hs.
  destruct (Qnum (Qred x)).
  - eapply Qle_trans; [exact H0 | exact Hn].
  - apply round_pos_le_int; try assumption. now rewrite Hr.
  - rewrite Hr in Hs. lra.
Qed.

Lemma fl_ge_int (x : Q) (n : Z) :
  (0 < n)%Z -> inject_Z n <= x -> x < inject_Z (2 ^ 53) ->
  inject_Z n <= JS.fl x.
Proof.
  intros H0 Hn Hlt. unfold JS.fl.
  assert (Hr : Qred x == x) by apply Qred_correct.
  assert (Hpos : 0 < x).
  { eapply Qlt_le_trans; [|exact Hn].
    change 0 with (inject_Z 0). now rewrite <- Zlt_Qlt. }
  pose proof (Qnum_sign (Qred x)) as Hs.
  destruct (Qnum (Qred x)).
  - rewrite Hr in Hs. lra.
  - apply round_pos_ge_int; try assumption; now rewrite Hr.
  - rewrite Hr in Hs. lra.
Qed.

(** Numbers below 128 are rounded by [2 ^ -47] at most. *)
Lemma round_pos_near (x : Q) :
  0 < x -> x < 128 ->
  x - (1 # 2 ^ 47) <= JS.round_pos x /\ JS.round_pos x <= x + (1 # 2 ^ 47).
Proof.
  intros H0 Hx.
  assert (He : (JS.exponent x < 7)%Z) by (apply exponent_below; [lia|auto..]).
  unfold JS.round_pos.
  set (K := (52 - Z.max (JS.exponent x) (-1022))%Z).
  assert (HK : (46 <= K)%Z) by (unfold K; lia).
  destruct (Z.leb_spec 0 K); [|lia].
  rewrite Qred_correct.
  assert (Hp : (2 ^ 46 <= 2 ^ K)%Z) by (apply Z.pow_le_mono_r; lia).
  destruct (rne_near (x * inject_Z (2 ^ K))) as [Hlo Hhi].
  set (r := JS.rne _) in *.
  set (P := (2 ^ K)%Z) in *.
  assert (HP : (0 < P)%Z) by lia.
  rewrite (Qmake_Qdiv r (Z.to_pos P)).
  rewrite Z2Pos.id by exact HP.
  assert (HP' : 0 < inject_Z P).
  { change 0 with (inject_Z 0). now rewrite <- Zlt_Qlt. }
  assert (Hu : (1 # 2) <= (1 # 2 ^ 47) * inject_Z P).
  { unfold Qle, Qmult, inject_Z. cbn [Qnum Qden].
    change (Z.pos (2 ^ 47 * 1)) with (2 * 2 ^ 46)%Z. lia. }
  split.
  - apply Qle_shift_div_l; [exact HP'|].
    setoid_replace ((x - (1 # 2 ^ 47)) * inject_Z P)
      with (x * inject_Z P - (1 # 2 ^ 47) * inject_Z P) by ring.
    lra.
  - apply Qle_shift_div_r; [exact HP'|].
    setoid_replace ((x + (1 # 2 ^ 47)) * inject_Z P)
      with (x * inject_Z P + (1 # 2 ^ 47) * inject_Z P) by ring.
    lra.
Qed.

Lemma fl_near (x : Q) :
  0 <= x -> x <= 100 ->
  x - Props.rounding_unit <= JS.fl x /\ JS.fl x <= x + Props.rounding_unit.
Proof.
  intros H0 Hx. unfold JS.fl, Props.rounding_unit.
  assert (Hr : Qred x == x) by apply Qred_correct.
  pose proof (Qnum_sign (Qred x)) as Hs.
  destruct (Qnum (Qred x)).
  - change (2 ^ 47)%positive with 140737488355328%positive. split; lra.
  - destruct (round_pos_near (Qred x)) as [A B]; [exact Hs | lra |].
    change (2 ^ 47)%positive with 140737488355328%positive in *.
    split; lra.
  - lra.
Qed.

Lemma fl_nonneg (x : Q) : 0 <= x -> 0 <= JS.fl x.
Proof.
  intros H0. unfold JS.fl.
  assert (Hr : Qred x == x) by apply Qred_correct.
  pose proof (Qnum_sign (Qred x)) as Hs.
  destruct (Qnum (Qred x)).
  - apply Qle_refl.
  - unfold JS.round_pos.
    assert (Hpos : 0 <= Qred x) by now rewrite Hr.
    destruct (0 <=? _)%Z; rewrite Qred_correct.
    + assert (0 <= JS.rne (Qred x * inject_Z
                             (2 ^ (52 - Z.max (JS.exponent (Qred x)) (-1022)))))%Z.
      { apply rne_ge_int. apply Qmult_le_0_compat; [exact Hpos|].
        change 0 with (inject_Z 0). rewrite <- Zle_Qle.
        apply Z.pow_nonneg. lia. }
      unfold Qle. cbn [Qnum Qden]. lia.
    + set (P := (2 ^ _)%Z).
      assert (HP : (0 <= P)%Z) by (apply Z.pow_nonneg; lia).
      assert (0 <= JS.rne (Qred x / inject_Z P))%Z.
      { apply rne_ge_int.
        destruct (Z.eq_dec P 0) as [HP0|HP0].
        - rewrite HP0. unfold Qdiv. change (/ inject_Z 0) with 0.
          rewrite Qmult_0_r. apply Qle_refl.
        - apply Qle_shift_div_l;
            [change 0 with (inject_Z 0); rewrite <- Zlt_Qlt; lia|].
          now rewrite Qmult_0_l. }
      change 0 with (inject_Z 0). rewrite <- Zle_Qle. nia.
  - rewrite Hr in Hs. lra.
Qed.

End RoundingFacts.

(* ================================================================= *)
(** ** The recommender *)

Section ListFacts.
Context {A B : Type}.

Lemma NoDup_map_inj (f : A -> B) (l : list A) (x y : A) :
  NoDup (map f l) -> In x l -> In y l -> f x = f y -> x = y.
Proof.
  induction l as [|a l IH]; simpl; intros Hnd Hx Hy Hf; [contradiction|].
  inversion Hnd as [|? ? Hnotin Hnd']; subst.
  destruct Hx as [-> | Hx], Hy as [-> | Hy]; auto.
  - exfalso. apply Hnotin. rewrite Hf. now apply in_map.
  - exfalso. apply Hnotin. rewrite <- Hf. now apply in_map.
Qed.

Lemma filter_none (p : A -> bool) (l : list A) :
  (forall x, In x l -> p x = false) -> filter p l = [].
Proof.
  induction l as [|a l IH]; simpl; intros H; [reflexivity|].
  rewrite (H a (or_introl eq_refl)). apply IH. auto.
Qed.

Lemma filter_all (p : A -> bool) (l : list A) :
  (forall x, In x l -> p x = true) -> filter p l = l.
Proof.
  induction l as [|a l IH]; simpl; intros H; [reflexivity|].
  rewrite (H a (or_introl eq_refl)). f_equal. apply IH. auto.
Qed.

End ListFacts.

Lemma In_firstn {A : Type} (n : nat) (l : list A) (y : A) :
  In y (firstn n l) -> In y l.
Proof.
  revert n. induction l as [|x l IH]; intros [|n]; simpl; try tauto.
  intros [H | H]; [now left | right; eauto].
Qed.

Section RecommenderFacts.
Import Recommender.

Lemma insert_by_score_perm (r : JobRecommendation) (l : list JobRecommendation) :
  Permutation (insert_by_score r l) (r :: l).
Proof.
  induction l as [|x l IH]; simpl.
  - apply Permutation_refl.
  - destruct (match_score x <=? match_score r).
    + apply Permutation_refl.
    + eapply Permutation_trans; [apply perm_skip, IH | apply perm_swap].
Qed.

Lemma sort_perm (l : list JobRecommendation) : Permutation (sort l) l.
Proof.
  induction l as [|r l IH]; simpl.
  - apply perm_nil.
  - eapply Permutation_trans; [apply insert_by_score_perm|].
    now apply perm_skip.
Qed.

Lemma sort_nil_inv (l : list JobRecommendation) : sort l = [] -> l = [].
Proof.
  intros H. apply Permutation_nil. rewrite <- H.
  apply sort_perm.
Qed.

(** The loop keeps, in order, the postings whose score passes the floor. *)
Lemma process_jobs_filter (ss : list string) (a i : Q) (jobs : list Job) :
  process_jobs ss a i jobs
  = map (recommendation_for ss a i)
        (filter (fun job => JS.geq (matchScore_job ss a i job) 15) jobs).
Proof.
  induction jobs as [|job jobs IH]; cbn [process_jobs filter map];
    [reflexivity|].
  unfold process_job.
  destruct (JS.geq (matchScore_job ss a i job) 15); cbn [map];
    now rewrite IH.
Qed.

Lemma rows_of_delete_student (uid : string) (table : list Row) :
  rows_of uid (delete_student uid table) = [].
Proof.
  unfold rows_of, delete_student. apply filter_none.
  intros r Hr. apply filter_In in Hr as [_ Hr].
  now apply negb_true_iff in Hr.
Qed.

Lemma rows_of_to_row (uid : string) (recs : list JobRecommendation) :
  rows_of uid (map (to_row uid) recs) = map (to_row uid) recs.
Proof.
  unfold rows_of. apply filter_all.
  intros r Hr. apply in_map_iff in Hr as (rec & <- & _).
  simpl. apply String.eqb_refl.
Qed.

Lemma rows_of_app (uid : string) (t1 t2 : list Row) :
  rows_of uid (t1 ++ t2) = (rows_of uid t1 ++ rows_of uid t2)%list.
Proof. unfold rows_of. apply filter_app. Qed.

(** What a successful run answers with, and the table it leaves: what
    the delete left, followed by the rows of this run. *)
Lemma handler_success (req : Request) (table table' : list Row)
      (n : Z) (recs : list JobRecommendation) :
  handler req table = (Success n recs, table') ->
  exists uid resume_skills,
    user req = Some uid /\ profile req = Some resume_skills
    /\ n = Z.of_nat (List.length (recommendations_of req resume_skills))
    /\ recs = firstn 10 (recommendations_of req resume_skills)
    /\ table'
       = (after_delete req uid table
          ++ map (to_row uid) (recommendations_of req resume_skills))%list.
Proof.
  unfold handler. intros H.
  destruct (authorization req); [|discriminate].
  destruct (user req) as [uid|]; [|discriminate].
  destruct (profile req) as [resume_skills|]; [|discriminate].
  exists uid, resume_skills.
  destruct (recommendations_of req resume_skills) as [|r recs0] eqn:E.
  - inversion H; subst. simpl. rewrite app_nil_r. auto.
  - destruct (insertError req || _); [discriminate|].
    inversion H; subst. auto.
Qed.

Lemma handler_success_at (req : Request) (table table' : list Row)
      (n : Z) (recs : list JobRecommendation) (uid : string)
      (resume_skills : option (list JS.value)) :
  handler req table = (Success n recs, table') ->
  user req = Some uid ->
  profile req = Some resume_skills ->
  n = Z.of_nat (List.length (recommendations_of req resume_skills))
  /\ recs = firstn 10 (recommendations_of req resume_skills)
  /\ table'
     = (after_delete req uid table
        ++ map (to_row uid) (recommendations_of req resume_skills))%list.
Proof.
  intros H Hu Hp.
  destruct (handler_success _ _ _ _ _ H) as (uid' & rs & Hu' & Hp' & Hrest).
  rewrite Hu in Hu'. rewrite Hp in Hp'.
  inversion Hu'; inversion Hp'; subst. exact Hrest.
Qed.

(** When the delete took effect the student's rows are those of the run. *)
Lemma rows_of_after_delete (req : Request) (uid : string) (table : list Row)
      (recs : list JobRecommendation) :
  deleteError req = false ->
  rows_of uid (after_delete req uid table ++ map (to_row uid) recs)
  = map (to_row uid) recs.
Proof.
  intros Hd. unfold after_delete. rewrite Hd.
  now rewrite rows_of_app, rows_of_delete_student, rows_of_to_row.
Qed.

Lemma recommendations_of_eq (req : Request) (rs : option (list JS.value)) :
  recommendations_of req rs
  = sort
      (map (recommendation_for (studentSkills_of rs) (average (mockResults req))
                               (average (interviews req)))
           (filter (fun job =>
                      JS.geq (matchScore_job (studentSkills_of rs)
                                             (average (mockResults req))
                                             (average (interviews req)) job) 15)
                   (jobs_of req))).
Proof.
  unfold recommendations_of, jobs_of.
  destruct (offcampusJobs req) as [jobs|].
  - now rewrite process_jobs_filter.
  - reflexivity.
Qed.

Lemma recommendations_of_perm (req : Request) (rs : option (list JS.value)) :
  Permutation
    (recommendations_of req rs)
    (map (recommendation_for (studentSkills_of rs) (average (mockResults req))
                             (average (interviews req)))
         (filter (fun job =>
                    JS.geq (matchScore_job (studentSkills_of rs)
                                           (average (mockResults req))
                                           (average (interviews req)) job) 15)
                 (jobs_of req))).
Proof. rewrite recommendations_of_eq. apply sort_perm. Qed.

(** Every row of a run comes from a posting that passed the floor. *)
Lemma inserted_row_inv (req : Request) (rs : option (list JS.value))
      (uid : string) (row : Row) :
  In row (map (to_row uid) (recommendations_of req rs)) ->
  exists job,
    In job (jobs_of req)
    /\ JS.geq (matchScore_job (studentSkills_of rs)
                              (average (mockResults req))
                              (average (interviews req)) job) 15 = true
    /\ row = to_row uid
               (recommendation_for (studentSkills_of rs)
                                   (average (mockResults req))
                                   (average (interviews req)) job).
Proof.
  intros Hin.
  apply in_map_iff in Hin as (rec & <- & Hrec).
  apply (Permutation_in _ (recommendations_of_perm req rs)) in Hrec.
  apply in_map_iff in Hrec as (job & <- & Hjob).
  apply filter_In in Hjob as [Hjob Hge].
  now exists job.
Qed.

End RecommenderFacts.

(** *** The numbers of the recommender *)

Section RecommenderNumbers.
Import Recommender Props.
Open Scope Q_scope.

Lemma inject_Z_pos (n : Z) : (0 < n)%Z -> 0 < inject_Z n.
Proof. intros H. change 0 with (inject_Z 0). now rewrite <- Zlt_Qlt. Qed.

Lemma inject_Z_nonneg (n : Z) : (0 <= n)%Z -> 0 <= inject_Z n.
Proof. intros H. change 0 with (inject_Z 0). now rewrite <- Zle_Qle. Qed.

Lemma fl_one : JS.fl 1 = 1.
Proof. reflexivity. Qed.

Lemma fl_hundred : JS.fl 100 = 100.
Proof. reflexivity. Qed.

Lemma count_matches_bounds (ss js : list string) :
  (0 <= count_matches ss js <= Z.of_nat (List.length js))%Z.
Proof.
  induction js as [|j js IH]; simpl count_matches; simpl List.length.
  - lia.
  - destruct (skill_matches ss j); lia.
Qed.

Lemma quotient_bounds (c n : Z) :
  (0 <= c <= n)%Z -> (0 < n)%Z ->
  0 <= inject_Z c / inject_Z n /\ inject_Z c / inject_Z n <= 1.
Proof.
  intros Hc Hn.
  pose proof (inject_Z_pos n Hn) as Hn'.
  assert (H0 : 0 <= inject_Z c) by (apply inject_Z_nonneg; lia).
  assert (H1 : inject_Z c <= inject_Z n) by (rewrite <- Zle_Qle; lia).
  split.
  - apply Qle_shift_div_l; [exact Hn'|]. now rewrite Qmult_0_l.
  - apply Qle_shift_div_r; [exact Hn'|]. now rewrite Qmult_1_l.
Qed.

(** The quotient [matches / length] and the percentage made of it, with
    the distance of the percentage from the exact one. *)
Lemma ratio_bounds (c n : Z) :
  (0 <= c <= n)%Z -> (0 < n)%Z ->
  let r := JS.fmul (JS.fdiv (inject_Z c) (inject_Z n)) 100 in
  0 <= r /\ r <= 100
  /\ inject_Z c / inject_Z n * 100 - 101 * rounding_unit <= r
  /\ r <= inject_Z c / inject_Z n * 100 + 101 * rounding_unit.
Proof.
  intros Hc Hn r. subst r. unfold JS.fmul, JS.fdiv.
  destruct (quotient_bounds c n Hc Hn) as [Hq0 Hq1].
  set (q := inject_Z c / inject_Z n) in *.
  pose proof (fl_nonneg q Hq0) as Hd0.
  assert (Hd1 : JS.fl q <= 1) by (apply (fl_le_int q 1); [assumption.. | lia]).
  destruct (fl_near q) as [Hn0 Hn1]; [lra | lra |].
  set (d := JS.fl q) in *.
  assert (Hp0 : 0 <= d * 100) by lra.
  assert (Hp1 : d * 100 <= 100) by lra.
  pose proof (fl_nonneg _ Hp0) as Hr0.
  assert (Hr1 : JS.fl (d * 100) <= 100)
    by (apply (fl_le_int _ 100); [assumption.. | lia]).
  destruct (fl_near (d * 100) Hp0 Hp1) as [Hm0 Hm1].
  repeat split; try assumption; lra.
Qed.

Lemma calculateSkillMatch_bounds (studentSkills jobSkills : list string) :
  0 <= calculateSkillMatch studentSkills jobSkills
  /\ calculateSkillMatch studentSkills jobSkills <= 100.
Proof.
  unfold calculateSkillMatch.
  destruct jobSkills as [|j js]; [split; discriminate|].
  destruct studentSkills as [|s ss]; [split; discriminate|].
  destruct (ratio_bounds (count_matches (s :: ss) (j :: js))
                         (Z.of_nat (List.length (j :: js))))
    as (H0 & H1 & _).
  - apply count_matches_bounds.
  - simpl List.length. lia.
  - split; assumption.
Qed.




Lemma matchScore_of_composite (skill a i : Q) :
  matchScore_of skill a i = Spec.composite skill a i.
Proof.
  unfold matchScore_of, Spec.composite, JS.fmul.
  rewrite (fl_compat _ _ (Qmult_comm skill (1 # 2))).
  rewrite (fl_compat _ _ (Qmult_comm a (1 # 4))).
  rewrite (fl_compat _ _ (Qmult_comm i (1 # 4))).
  reflexivity.
Qed.

(** The score of components between 0 and 100 lies between 0 and 100, at
    five roundings from the formula on the rationals. *)
Lemma matchScore_of_bounds (s a i : Q) :
  0 <= s <= 100 -> 0 <= a <= 100 -> 0 <= i <= 100 ->
  (0 <= matchScore_of s a i /\ matchScore_of s a i <= 100)
  /\ Spec.composite_exact s a i - 5 * rounding_unit <= matchScore_of s a i
  /\ matchScore_of s a i <= Spec.composite_exact s a i + 5 * rounding_unit.
Proof.
  intros [Hs0 Hs1] [Ha0 Ha1] [Hi0 Hi1].
  unfold matchScore_of, Spec.composite_exact, JS.fadd, JS.fmul.
  assert (B1 : 0 <= s * (1 # 2) /\ s * (1 # 2) <= 50) by (split; lra).
  assert (B2 : 0 <= a * (1 # 4) /\ a * (1 # 4) <= 25) by (split; lra).
  assert (B3 : 0 <= i * (1 # 4) /\ i * (1 # 4) <= 25) by (split; lra).
  pose proof (fl_nonneg _ (proj1 B1)) as P1.
  assert (Q1 : JS.fl (s * (1 # 2)) <= 50)
    by (apply (fl_le_int _ 50); [tauto | tauto | lia]).
  destruct (fl_near (s * (1 # 2))) as [N1 M1]; [lra | lra |].
  set (p1 := JS.fl (s * (1 # 2))) in *.
  pose proof (fl_nonneg _ (proj1 B2)) as P2.
  assert (Q2 : JS.fl (a * (1 # 4)) <= 25)
    by (apply (fl_le_int _ 25); [tauto | tauto | lia]).
  destruct (fl_near (a * (1 # 4))) as [N2 M2]; [lra | lra |].
  set (p2 := JS.fl (a * (1 # 4))) in *.
  pose proof (fl_nonneg _ (proj1 B3)) as P3.
  assert (Q3 : JS.fl (i * (1 # 4)) <= 25)
    by (apply (fl_le_int _ 25); [tauto | tauto | lia]).
  destruct (fl_near (i * (1 # 4))) as [N3 M3]; [lra | lra |].
  set (p3 := JS.fl (i * (1 # 4))) in *.
  assert (P4 : 0 <= JS.fl (p1 + p2)) by (apply fl_nonneg; lra).
  assert (Q4 : JS.fl (p1 + p2) <= 75)
    by (apply (fl_le_int _ 75); [lra | change (inject_Z 75) with 75; lra | lia]).
  destruct (fl_near (p1 + p2)) as [N4 M4]; [lra | lra |].
  set (t := JS.fl (p1 + p2)) in *.
  assert (P5 : 0 <= JS.fl (t + p3)) by (apply fl_nonneg; lra).
  assert (Q5 : JS.fl (t + p3) <= 100)
    by (apply (fl_le_int _ 100);
        [lra | change (inject_Z 100) with 100; lra | lia]).
  destruct (fl_near (t + p3)) as [N5 M5]; [lra | lra |].
  repeat split; try assumption; lra.
Qed.


(** The stored score is an integer nearest to the formula on the
    rationals, up to the five roundings. *)
Lemma Math_round_within (eps x y : Q) :
  y - eps <= x -> x <= y + eps ->
  Spec.nearest_within eps (JS.Math_round x) y.
Proof.
  intros H0 H1. destruct (Math_round_nearest x) as [A B].
  unfold Spec.nearest_within. split; lra.
Qed.

End RecommenderNumbers.

Section RecommenderClaims.
Import Recommender Props.

(** C1. The table a successful run leaves is what the delete left, followed
    by the rows of the run.  In every row of the run the stored
    [match_score] is the composite score 0.5 x skill component + 0.25 x
    assessment average + 0.25 x interview average, computed as the program
    computes it, rounded to the nearest integer, and the three components
    are stored rounded as well; for components between 0 and 100 the stored
    score is an integer nearest to the formula on the rationals up to five
    roundings of [2 ^ -47].  With a skill component of 100, an assessment
    average of 80 and an interview average of 60 the stored [match_score]
    is 85. *)
Theorem match_score_composite (req : Request) (table table' : list Row)
        (n : Z) (recs : list JobRecommendation) (uid : string)
        (resume_skills : option (list JS.value)) :
  handler req table = (Success n recs, table') ->
  user req = Some uid ->
  profile req = Some resume_skills ->
  let inserted := map (to_row uid) (recommendations_of req resume_skills) in
  let skill := skillMatch_job (studentSkills_of resume_skills) in
  let assessment := average (mockResults req) in
  let interview := average (interviews req) in
  table' = (after_delete req uid table ++ inserted)%list
  /\ (forall row, In row inserted ->
      exists job,
        In job (jobs_of req)
        /\ row_job_id row = id job
        /\ row_match_score row
           = JS.Math_round (Spec.composite (skill job) assessment interview)
        /\ Spec.nearest_integer
             (row_match_score row)
             (Spec.composite (skill job) assessment interview)
        /\ Spec.nearest_integer (row_skill_match row) (skill job)
        /\ Spec.nearest_integer (row_test_performance row) assessment
        /\ Spec.nearest_integer (row_interview_performance row) interview
        /\ ((0 <= assessment <= 100)%Q -> (0 <= interview <= 100)%Q ->
            Spec.nearest_within
              (5 * rounding_unit) (row_match_score row)
              (Spec.composite_exact (skill job) assessment interview)))
  /\ JS.Math_round (matchScore_of 100 80 60) = 85
  /\ JS.Math_round (Spec.composite 100 80 60) = 85.
Proof.
  intros H Hu Hp inserted skill assessment interview.
  destruct (handler_success_at _ _ _ _ _ _ _ H Hu Hp) as (_ & _ & Ht).
  split; [exact Ht|]. split; [|split; vm_compute; reflexivity].
  intros row Hrow.
  destruct (inserted_row_inv _ _ _ _ Hrow) as (job & Hjob & _ & ->).
  exists job. split; [exact Hjob|]. split; [reflexivity|].
  cbn [to_row recommendation_for row_match_score row_skill_match
       row_test_performance row_interview_performance match_score
       skill_match test_performance interview_performance].
  fold (skillMatch_job (studentSkills_of resume_skills) job).
  fold (skill job). fold assessment. fold interview.
  rewrite matchScore_of_composite.
  split; [reflexivity|].
  split; [apply Math_round_nearest|].
  split; [apply Math_round_nearest|].
  split; [apply Math_round_nearest|].
  split; [apply Math_round_nearest|].
  rewrite <- matchScore_of_composite.
  intros Ha Hi.
  destruct (matchScore_of_bounds (skill job) assessment interview)
    as (_ & H0 & H1); try assumption.
  - apply calculateSkillMatch_bounds.
  - now apply Math_round_within.
Qed.

Lemma match_score_composite_witness :
  In Samples.row_85
     (map (to_row "student-1")
          (recommendations_of Samples.req_85 (Some [JS.VStr "Python"])))
  /\ JS.Math_round (Spec.composite 100 80 60) = 85.
Proof.
  split.
  - vm_compute. left. reflexivity.
  - apply (match_score_composite Samples.req_85 [] [Samples.row_85] 1
                                 [Samples.rec_85] "student-1"
                                 (Some [JS.VStr "Python"])).
    + vm_compute. reflexivity.
    + reflexivity.
    + reflexivity.
Defined.

(** The composite score is rounded as the program computes it: with one of
    three required skills and assessments of 20, 16 and 10 the formula
    gives 20.5 on the rationals, the program computes a number just below
    it and stores 20. *)
Remark half_computed_below :
  (Spec.composite_exact (100 # 3) (46 # 3) 0 == 41 # 2)%Q
  /\ (matchScore_job ["python"] (average (mockResults Samples2.req_half)) 0
                     Samples2.job_three < 41 # 2)%Q
  /\ map row_match_score (snd (handler Samples2.req_half [])) = [20].
Proof. repeat split; vm_compute; reflexivity. Qed.

(** C2. Over postings with distinct identifiers (the primary key of the
    table), a posting has a row among those a successful run persists
    exactly when its composite score, 0.5 x skill + 0.25 x assessment +
    0.25 x interview as the program computes it and before it is rounded,
    is at least 15; every row the run persists has a
    [match_score] of at least 15; and the rows the run persists are the
    computed set with the postings below the floor removed.  The table the
    run leaves is what the delete left, followed by these rows; when the
    delete took effect they are all the rows of the candidate. *)
Theorem inclusion_threshold (req : Request) (table table' : list Row)
        (n : Z) (recs : list JobRecommendation) (uid : string)
        (resume_skills : option (list JS.value)) :
  handler req table = (Success n recs, table') ->
  user req = Some uid ->
  profile req = Some resume_skills ->
  NoDup (map id (jobs_of req)) ->
  let score :=
    matchScore_job (studentSkills_of resume_skills)
                   (average (mockResults req)) (average (interviews req)) in
  let computed :=
    recommendation_for (studentSkills_of resume_skills)
                       (average (mockResults req)) (average (interviews req)) in
  let inserted := map (to_row uid) (recommendations_of req resume_skills) in
  table' = (after_delete req uid table ++ inserted)%list
  /\ (deleteError req = false -> rows_of uid table' = inserted)
  /\ (forall job,
        score job
        = Spec.composite (skillMatch_job (studentSkills_of resume_skills) job)
                         (average (mockResults req))
                         (average (interviews req)))
  /\ (forall job, In job (jobs_of req) ->
        ((exists row, In row inserted /\ row_job_id row = id job)
         <-> (15 <= score job)%Q))
  /\ (forall row, In row inserted -> 15 <= row_match_score row)
  /\ Permutation
       inserted
       (map (fun job => to_row uid (computed job))
            (filter (fun job => Qle_bool 15 (score job)) (jobs_of req)))
  /\ inserted
     = map (to_row uid)
           (sort (map computed
                      (filter (fun job => Qle_bool 15 (score job))
                              (jobs_of req)))).
Proof.
  intros H Hu Hp Hnd score computed inserted.
  destruct (handler_success_at _ _ _ _ _ _ _ H Hu Hp) as (_ & _ & Ht).
  assert (Hperm : Permutation
            inserted
            (map (fun job => to_row uid (computed job))
                 (filter (fun job => Qle_bool 15 (score job)) (jobs_of req)))).
  { unfold inserted. rewrite <- (map_map computed (to_row uid)).
    apply Permutation_map, recommendations_of_perm. }
  split; [exact Ht|]. split.
  { intros Hd. rewrite Ht. now apply rows_of_after_delete. }
  split.
  { intros job. apply matchScore_of_composite. }
  repeat split.
  - intros (row & Hrow & Hid).
    apply (Permutation_in _ Hperm) in Hrow.
    apply in_map_iff in Hrow as (job' & <- & Hjob').
    apply filter_In in Hjob' as [Hjob' Hge].
    assert (job' = job) by (eapply NoDup_map_inj; eauto).
    subst job'. now apply Qle_bool_iff.
  - intros Hge.
    exists (to_row uid (computed job)). split; [|reflexivity].
    apply (Permutation_in _ (Permutation_sym Hperm)).
    apply in_map_iff. exists job. split; [reflexivity|].
    apply filter_In. split; [assumption | now apply Qle_bool_iff].
  - intros row Hrow.
    apply (Permutation_in _ Hperm) in Hrow.
    apply in_map_iff in Hrow as (job & <- & Hjob).
    apply filter_In in Hjob as [_ Hge].
    simpl. apply Math_round_ge. now apply Qle_bool_iff.
  - exact Hperm.
  - unfold inserted. f_equal. apply recommendations_of_eq.
Qed.

Lemma inclusion_threshold_witness :
  rows_of "student-1" (snd (handler Samples.req_85 [])) = [Samples.row_85]
  /\ 15 <= row_match_score Samples.row_85.
Proof.
  assert (E : handler Samples.req_85 []
              = (Success 1 [Samples.rec_85], [Samples.row_85]))
    by (vm_compute; reflexivity).
  pose proof (inclusion_threshold Samples.req_85 [] [Samples.row_85] 1
                                  [Samples.rec_85] "student-1"
                                  (Some [JS.VStr "Python"])
                                  E eq_refl eq_refl) as H.
  split; [rewrite E; reflexivity|].
  refine (proj1 (proj2 (proj2 (proj2 (proj2 (H _))))) Samples.row_85 _).
  - repeat constructor. simpl. tauto.
  - vm_compute. left. reflexivity.
Defined.

(** When the delete fails the rows of earlier runs stay beside those of
    the run: the run answers with success and the row an earlier run stored
    for a posting stays, though the posting is now below the floor and the
    run stores nothing for it. *)
Remark stale_row_below_floor :
  handler Samples2.req_delete_failed [Samples2.row_stale]
  = (Success 0 [], [Samples2.row_stale])
  /\ In Samples2.row_stale (rows_of "student-1" [Samples2.row_stale])
  /\ row_job_id Samples2.row_stale = id Samples.job_rust
  /\ In Samples.job_rust (jobs_of Samples2.req_delete_failed)
  /\ ~ (15 <= matchScore_job
                (studentSkills_of (Some [JS.VStr "Python"]))
                (average (mockResults Samples2.req_delete_failed))
                (average (interviews Samples2.req_delete_failed))
                Samples.job_rust)%Q.
Proof.
  split; [vm_compute; reflexivity|]. split; [left; reflexivity|].
  split; [reflexivity|]. split; [left; reflexivity|].
  intros H. apply Qle_bool_iff in H. vm_compute in H. discriminate H.
Qed.

Lemma keep_skill_string (v : JS.value) :
  keep_skill v = true -> exists s, v = JS.VStr s.
Proof.
  unfold keep_skill.
  destruct v as [|b|q|s|]; simpl; try discriminate.
  - destruct b; discriminate.
  - destruct (negb (Qeq_bool q 0)); discriminate.
  - now exists s.
Qed.

Lemma cleaned_skill_lower (rs : option (list JS.value)) (c : string) :
  In c (studentSkills_of rs) -> JS.toLowerCase c = c.
Proof.
  unfold studentSkills_of. intros H.
  apply in_map_iff in H as (v & <- & Hv).
  apply filter_In in Hv as [_ Hk].
  destruct (keep_skill_string _ Hk) as [s ->].
  change (clean_one (JS.VStr s)) with (JS.trim (JS.toLowerCase s)).
  now rewrite toLowerCase_trim, toLowerCase_idem.
Qed.

Lemma skill_matches_spec (ss : list string) (jobSkill : string) :
  skill_matches ss jobSkill = true
  <-> exists s, In s ss /\ (Spec.substring jobSkill s \/ Spec.substring s jobSkill).
Proof.
  unfold skill_matches. rewrite existsb_exists.
  split; intros (s & Hs & H); exists s; split; auto.
  - apply orb_true_iff in H. now rewrite !includes_spec in H.
  - apply orb_true_iff. now rewrite !includes_spec.
Qed.

Lemma count_matches_filter (ss rs : list string) :
  count_matches ss (map JS.toLowerCase rs)
  = Z.of_nat
      (List.length
         (filter (fun r => skill_matches ss (JS.toLowerCase r)) rs)).
Proof.
  induction rs as [|r rs IH]; simpl; [reflexivity|].
  rewrite IH.
  destruct (skill_matches ss (JS.toLowerCase r)); simpl List.length; lia.
Qed.

(** The floor is put to the score before it is rounded: a posting whose
    score of 14.75 would round to 15 is not persisted. *)
Remark floor_before_rounding :
  matchScore_job ["python"] 59 0 Samples.job_rust == 59 # 4
  /\ JS.Math_round (matchScore_job ["python"] 59 0 Samples.job_rust) = 15
  /\ handler Samples.req_below_floor [] = (Success 0 [], []).
Proof. repeat split; vm_compute; reflexivity. Qed.

(** The floor is put to the score as the program computes it: with one of
    five required skills, assessments of 20, 19 and 10 and interviews of 6,
    4 and 1 the formula gives 15 on the rationals, the program computes a
    number just below it and stores nothing. *)
Remark floor_on_computed_score :
  (Spec.composite_exact 20 (49 # 3) (11 # 3) == 15)%Q
  /\ (matchScore_job ["python"]
                     (average (mockResults Samples2.req_fifteen))
                     (average (interviews Samples2.req_fifteen))
                     Samples2.job_five < 15)%Q
  /\ handler Samples2.req_fifteen [] = (Success 0 [], []).
Proof. repeat split; vm_compute; reflexivity. Qed.

(** C3. With a non-empty required-skill set and a non-empty cleaned skill
    set, a required skill is counted exactly when it occurs in some
    candidate skill or some candidate skill occurs in it, letter case put
    aside, and the skill component is the number of counted skills divided
    by the number of required skills and multiplied by 100, as the program
    computes it: a number between 0 and 100, at 101 roundings of [2 ^ -47]
    from the ratio on the rationals at most.  The candidate with python and
    react has a skill component of 50 for the posting that requires Python
    and SQL. *)
Theorem skill_component_matching (resume_skills : option (list JS.value))
        (job : Job) :
  required_skills job <> [] ->
  studentSkills_of resume_skills <> [] ->
  let candidate := studentSkills_of resume_skills in
  let counted := fun r => skill_matches candidate (JS.toLowerCase r) in
  let matched_count := List.length (filter counted (required_skills job)) in
  let required_count := List.length (required_skills job) in
  (forall r, counted r = true <-> Spec.matched candidate r)
  /\ (matched_count <= required_count)%nat
  /\ skillMatch_job candidate job = Spec.ratio matched_count required_count
  /\ (inject_Z (Z.of_nat matched_count) / inject_Z (Z.of_nat required_count)
      * 100 - 101 * rounding_unit
      <= skillMatch_job candidate job
      <= inject_Z (Z.of_nat matched_count)
         / inject_Z (Z.of_nat required_count) * 100 + 101 * rounding_unit)%Q
  /\ skillMatch_job (studentSkills_of Samples.skills_python_react)
                    Samples.job_python_sql = 50%Q.
Proof.
  intros Hreq Hcand candidate counted matched_count required_count.
  assert (Heq : skillMatch_job candidate job
                = Spec.ratio matched_count required_count).
  { subst matched_count required_count counted candidate.
    unfold Spec.ratio. rewrite <- count_matches_filter.
    rewrite <- (length_map JS.toLowerCase (required_skills job)).
    unfold skillMatch_job, calculateSkillMatch, jobSkills_of.
    destruct (required_skills job) as [|r rs]; [congruence|].
    destruct (studentSkills_of resume_skills) as [|c cs]; [congruence|].
    reflexivity. }
  assert (Hle : (matched_count <= required_count)%nat)
    by apply filter_length_le.
  split; [|split; [exact Hle | split; [exact Heq | split]]].
  - intros r. unfold counted. rewrite skill_matches_spec.
    unfold Spec.matched, Spec.ci_substring.
    split; intros (c & Hc & H); exists c; split; auto.
    + now rewrite (cleaned_skill_lower _ _ Hc).
    + now rewrite (cleaned_skill_lower _ _ Hc) in H.
  - rewrite Heq. unfold Spec.ratio.
    destruct (ratio_bounds (Z.of_nat matched_count) (Z.of_nat required_count))
      as (_ & _ & H0 & H1).
    + lia.
    + unfold required_count.
      destruct (required_skills job); [congruence | simpl; lia].
    + split; assumption.
  - vm_compute. reflexivity.
Qed.

Lemma skill_component_matching_witness :
  skillMatch_job (studentSkills_of Samples.skills_python_react)
                 Samples.job_python_sql
  = Spec.ratio 1 2.
Proof.
  refine (proj1 (proj2 (proj2
            (skill_component_matching Samples.skills_python_react
                                      Samples.job_python_sql _ _)))).
  - simpl. discriminate.
  - vm_compute. discriminate.
Defined.

(** C4. A posting with an empty required-skill set, and likewise a
    candidate with an empty cleaned skill set, gets a skill component of
    exactly 50, whatever the skills on the other side. *)
Theorem skill_component_default (studentSkills : list string) (job : Job)
        (avgMockScore avgInterviewScore : Q) :
  required_skills job = [] \/ studentSkills = [] ->
  skillMatch_job studentSkills job = 50%Q
  /\ skill_match
       (recommendation_for studentSkills avgMockScore avgInterviewScore job)
     = 50.
Proof.
  assert (E : required_skills job = [] \/ studentSkills = [] ->
              skillMatch_job studentSkills job = 50%Q).
  { unfold skillMatch_job, calculateSkillMatch, jobSkills_of.
    intros [-> | ->]; simpl.
    - reflexivity.
    - now destruct (map JS.toLowerCase (required_skills job)). }
  intros H. split; [now apply E|].
  simpl. unfold skillMatch_job in E. now rewrite (E H).
Qed.

Lemma skill_component_default_witness :
  skillMatch_job ["python"; "react"] Samples.job_open = 50%Q
  /\ skillMatch_job [] Samples.job_python_sql = 50%Q.
Proof.
  split.
  - apply (skill_component_default ["python"; "react"] Samples.job_open 0 0).
    left. reflexivity.
  - apply (skill_component_default [] Samples.job_python_sql 0 0).
    right. reflexivity.
Defined.

End RecommenderClaims.

(* ================================================================= *)
(** ** The one-time code *)

Section OtpCodeFacts.

Lemma digits_step (fuel : nat) (n : Z) (acc : string) :
  JS.digits (S fuel) n acc
  = if n <? 10 then String (JS.digit_char (n mod 10)) acc
    else JS.digits fuel (n / 10) (String (JS.digit_char (n mod 10)) acc).
Proof. reflexivity. Qed.

Lemma digits_small (fuel : nat) (n : Z) (acc : string) :
  n < 10 -> JS.digits fuel n acc = String (JS.digit_char (n mod 10)) acc.
Proof.
  intros H. destruct fuel; [reflexivity|].
  rewrite digits_step. destruct (Z.ltb_spec n 10); [reflexivity | lia].
Qed.

Lemma digits_big (fuel : nat) (n : Z) (acc : string) :
  10 <= n ->
  JS.digits (S fuel) n acc
  = JS.digits fuel (n / 10) (String (JS.digit_char (n mod 10)) acc).
Proof.
  intros H. rewrite digits_step.
  destruct (Z.ltb_spec n 10); [lia | reflexivity].
Qed.

(** A number of six digits prints as its six digits. *)
Lemma toString_six (n : Z) :
  100000 <= n <= 999999 -> JS.toString n = Spec.decimal6 n.
Proof.
  intros H. unfold JS.toString.
  destruct (Z.ltb_spec n 0); [lia|].
  assert (Hlog : 16 <= Z.log2 n).
  { change 16 with (Z.log2 100000). apply Z.log2_le_mono. lia. }
  assert (Hf : exists k, Z.to_nat (Z.log2 n) = (5 + k)%nat).
  { exists (Z.to_nat (Z.log2 n) - 5)%nat. lia. }
  destruct Hf as [k ->]. simpl Nat.add.
  rewrite digits_big by lia.
  do 4 rewrite digits_big by (Z.div_mod_to_equations; lia).
  rewrite digits_small by (Z.div_mod_to_equations; lia).
  unfold Spec.decimal6.
  rewrite !Z.div_div by lia. reflexivity.
Qed.

Lemma digit_cases (d : Z) :
  0 <= d <= 9 ->
  d = 0 \/ d = 1 \/ d = 2 \/ d = 3 \/ d = 4 \/ d = 5 \/ d = 6 \/ d = 7
  \/ d = 8 \/ d = 9.
Proof. lia. Qed.

Lemma digit_char_value (d : Z) :
  0 <= d <= 9 -> Z.of_N (N_of_ascii (JS.digit_char d)) - 48 = d.
Proof.
  intros H. destruct (digit_cases d H)
    as [-> | [-> | [-> | [-> | [-> | [-> | [-> | [-> | [-> | ->]]]]]]]]];
    reflexivity.
Qed.

Lemma digit_char_is_digit (d : Z) :
  0 <= d <= 9 -> Spec.is_digit (JS.digit_char d) = true.
Proof.
  intros H. destruct (digit_cases d H)
    as [-> | [-> | [-> | [-> | [-> | [-> | [-> | [-> | [-> | ->]]]]]]]]];
    reflexivity.
Qed.

Lemma mod10_digit (n : Z) : 0 <= n mod 10 <= 9.
Proof. pose proof (Z.mod_pos_bound n 10). lia. Qed.

Lemma decimal6_value (n : Z) :
  0 <= n <= 999999 -> Spec.decimal_value (Spec.decimal6 n) = n.
Proof.
  intros H. unfold Spec.decimal_value, Spec.decimal6. simpl.
  rewrite !digit_char_value by apply mod10_digit.
  Z.div_mod_to_equations. lia.
Qed.

Lemma decimal6_digits (n : Z) : Spec.all_digits (Spec.decimal6 n) = true.
Proof.
  unfold Spec.decimal6. simpl.
  now rewrite !digit_char_is_digit by apply mod10_digit.
Qed.

Lemma generate_otp_range (r : Q) :
  (0 <= r)%Q -> (r < 1)%Q ->
  100000 <= JS.Math_floor (100000 + r * 900000)%Q <= 999999.
Proof.
  intros H0 H1. unfold JS.Math_floor. split.
  - rewrite <- (Qfloor_Z 100000). apply Qfloor_resp_le.
    rewrite <- (Qplus_0_r (inject_Z 100000)) at 1.
    apply Qplus_le_r. apply Qmult_le_0_compat; [assumption | discriminate].
  - assert (Hlt : (inject_Z (Qfloor (100000 + r * 900000))
                   < inject_Z 1000000)%Q).
    { eapply Qle_lt_trans; [apply Qfloor_le|].
      change (inject_Z 1000000) with (100000 + 1 * 900000)%Q.
      apply Qplus_lt_r. apply Qmult_lt_r; [reflexivity | assumption]. }
    rewrite <- Zlt_Qlt in Hlt. lia.
Qed.

End OtpCodeFacts.

Section SendOtpClaims.
Import Store SendOtp.

Lemma generate_otp_decimal6 (r : Q) :
  (0 <= r)%Q -> (r < 1)%Q ->
  generate_otp r = Spec.decimal6 (JS.Math_floor (100000 + r * 900000)%Q).
Proof.
  intros H0 H1. unfold generate_otp.
  apply toString_six. now apply generate_otp_range.
Qed.

(** Every number of six digits is the floor for some random value. *)
Lemma generate_otp_onto (n : Z) :
  100000 <= n <= 999999 ->
  exists r, (0 <= r)%Q /\ (r < 1)%Q /\ generate_otp r = JS.toString n.
Proof.
  intros H. exists ((n - 100000) # 900000). repeat split.
  - unfold Qle. simpl. lia.
  - unfold Qlt. simpl. lia.
  - unfold generate_otp, JS.Math_floor. f_equal.
    rewrite <- (Qfloor_Z n) at 2. apply Qfloor_comp.
    unfold Qeq, Qplus, Qmult, inject_Z. cbn [Qnum Qden]. lia.
Qed.

(** C9, as the code has it.  The code issued is the decimal string of
    floor(100000 + random x 900000): six decimal digits whose value lies
    between 100000 and 999999, so that the first digit is never 0; and every
    number in that range is issued for some random value. *)
Theorem otp_code_range (r : Q) (n : Z) :
  (0 <= r)%Q -> (r < 1)%Q -> 100000 <= n <= 999999 ->
  (String.length (generate_otp r) = 6%nat
   /\ Spec.all_digits (generate_otp r) = true
   /\ 100000 <= Spec.decimal_value (generate_otp r) <= 999999
   /\ generate_otp r = JS.toString (Spec.decimal_value (generate_otp r)))
  /\ (exists r', (0 <= r')%Q /\ (r' < 1)%Q /\ generate_otp r' = JS.toString n).
Proof.
  intros H0 H1 Hn. split; [|now apply generate_otp_onto].
  pose proof (generate_otp_range r H0 H1) as Hrange.
  rewrite (generate_otp_decimal6 r H0 H1).
  rewrite decimal6_value by lia.
  repeat split; try lia.
  - apply decimal6_digits.
  - symmetry. now apply toString_six.
Qed.

Lemma otp_code_range_witness :
  generate_otp (1 # 3) = "400000"
  /\ exists r', (0 <= r')%Q /\ (r' < 1)%Q /\ generate_otp r' = "123456".
Proof.
  split; [reflexivity|].
  apply (otp_code_range (1 # 3) 123456).
  - discriminate.
  - reflexivity.
  - lia.
Defined.

(** C9, as stated, fails: the string of six zeros is never issued. *)
Lemma otp_code_never_zeros :
  ~ exists r, (0 <= r)%Q /\ (r < 1)%Q /\ generate_otp r = "000000".
Proof.
  intros (r & H0 & H1 & H).
  pose proof (generate_otp_range r H0 H1) as Hrange.
  assert (Hv : Spec.decimal_value (generate_otp r) = 0) by now rewrite H.
  rewrite (generate_otp_decimal6 r H0 H1), decimal6_value in Hv by lia.
  lia.
Qed.

Lemma filter_unverified_deleted (e : string) (table : list OtpRow) :
  filter (unverified_for e) (delete_unverified e table) = [].
Proof.
  unfold delete_unverified. apply filter_none.
  intros r Hr. apply filter_In in Hr as [_ Hr].
  now apply negb_true_iff in Hr.
Qed.

Lemma filter_verified_deleted (e : string) (table : list OtpRow) :
  filter verified (delete_unverified e table) = filter verified table.
Proof.
  unfold delete_unverified.
  induction table as [|r table IH]; simpl; [reflexivity|].
  unfold unverified_for at 1.
  destruct (verified r) eqn:Ev; simpl.
  - rewrite andb_false_r. simpl. rewrite Ev. now f_equal.
  - destruct (negb _); simpl; [rewrite Ev|]; exact IH.
Qed.

Lemma filter_verified_after_delete (env : Env) (e : string)
      (table : list OtpRow) :
  filter verified (after_delete env e table) = filter verified table.
Proof.
  unfold after_delete. destruct (deleteError env); [reflexivity|].
  apply filter_verified_deleted.
Qed.

Lemma filter_unverified_new_row (env : Env) (e code : string) (t : Z) :
  filter (unverified_for e) [new_row env e code t] = [new_row env e code t].
Proof.
  simpl. unfold unverified_for. simpl. now rewrite String.eqb_refl.
Qed.

(** The code rows when the delete has been awaited. *)
Lemma otp_verifications_after_delete (env : Env) (e : string) (w : World) :
  otp_verifications
    (if deleteError env then w
     else set_otp_verifications w (delete_unverified e (otp_verifications w)))
  = after_delete env e (otp_verifications w).
Proof. unfold after_delete. now destruct (deleteError env). Qed.

(** What a successful issuance leaves in [otp_verifications]. *)
Lemma handler_success_table (env : Env) (req : Request) (w w' : World)
      (resp : Response) :
  handler env req w = (resp, w') ->
  status resp = 200 ->
  otp_verifications w'
  = (after_delete env (email req) (otp_verifications w)
     ++ [new_row env (email req) (generate_otp (random env))
                 (now env + 10 * 60 * 1000)])%list.
Proof.
  unfold handler. intros H Hs.
  destruct (String.eqb (email req) "");
    [inversion H; subst; discriminate Hs|].
  destruct (gate env req w) as [refusal|] eqn:Eg.
  - inversion H; subst. revert Eg. unfold gate.
    repeat match goal with
           | |- context [if ?b then _ else _] => destruct b
           end; intros Eg; inversion Eg; subst; discriminate Hs.
  - destruct (insertError env); [inversion H; subst; discriminate Hs|].
    destruct (sendError env); inversion H; subst; [discriminate Hs|].
    cbn [otp_verifications set_outbox set_otp_verifications].
    now rewrite otp_verifications_after_delete.
Qed.

(** C6, as the code has it.  A successful issuance leaves what the delete
    left of the code rows, followed by the new row.  When the delete took
    effect there is one unverified code row for the email, the new one,
    hence at most one; when it failed, which the handler does not look at,
    the rows that were unverified stay beside the new one.  The rows
    marked verified are as they were in every case. *)
Theorem single_unverified_row (env : Env) (req : Request) (w w' : World)
        (resp : Response) :
  handler env req w = (resp, w') ->
  status resp = 200 ->
  let issued := new_row env (email req) (generate_otp (random env))
                        (now env + 10 * 60 * 1000) in
  otp_verifications w'
  = (after_delete env (email req) (otp_verifications w) ++ [issued])%list
  /\ (deleteError env = false ->
      (List.length (filter (unverified_for (email req)) (otp_verifications w'))
       <= 1)%nat
      /\ filter (unverified_for (email req)) (otp_verifications w') = [issued])
  /\ (deleteError env = true ->
      filter (unverified_for (email req)) (otp_verifications w')
      = (filter (unverified_for (email req)) (otp_verifications w)
         ++ [issued])%list)
  /\ filter verified (otp_verifications w')
     = filter verified (otp_verifications w).
Proof.
  intros H Hs issued.
  pose proof (handler_success_table _ _ _ _ _ H Hs) as Ht.
  subst issued. split; [exact Ht|].
  rewrite Ht, !filter_app, filter_verified_after_delete.
  rewrite !filter_unverified_new_row. unfold after_delete.
  split; [|split].
  - intros ->. rewrite filter_unverified_deleted.
    split; [simpl; lia | reflexivity].
  - intros ->. reflexivity.
  - simpl. apply app_nil_r.
Qed.

Lemma single_unverified_row_witness :
  filter (unverified_for "student@college.edu")
         (otp_verifications
            (snd (handler Samples.send_env Samples.send_req
                          (Samples.world_of [Samples.pending 601000 2;
                                             Samples.old_verified;
                                             Samples.pending 700000 0]))))
  = [new_row Samples.send_env "student@college.edu" "325000" 602000]
  /\ filter verified
            (otp_verifications
               (snd (handler Samples.send_env Samples.send_req
                             (Samples.world_of [Samples.pending 601000 2;
                                                Samples.old_verified;
                                                Samples.pending 700000 0]))))
     = [Samples.old_verified].
Proof.
  pose proof (single_unverified_row
                Samples.send_env Samples.send_req
                (Samples.world_of [Samples.pending 601000 2;
                                   Samples.old_verified;
                                   Samples.pending 700000 0])
                _ _ eq_refl eq_refl) as H.
  split.
  - exact (proj2 (proj1 (proj2 H) eq_refl)).
  - exact (proj2 (proj2 (proj2 H))).
Defined.

(** C6, as stated, fails: an issuance whose delete fails answers with
    success and leaves two unverified code rows for the email. *)
Lemma two_unverified_rows_after_issuance :
  status (fst (handler Samples2.send_env_delete_failed Samples.send_req
                       (Samples.world_of [Samples.pending 601000 2])))
  = 200
  /\ List.length
       (filter (unverified_for "student@college.edu")
               (otp_verifications
                  (snd (handler Samples2.send_env_delete_failed
                                Samples.send_req
                                (Samples.world_of [Samples.pending 601000 2])))))
     = 2%nat.
Proof. split; reflexivity. Qed.

End SendOtpClaims.

(* ================================================================= *)
(** ** Skill cleaning *)

Section SkillCleaningClaims.

Lemma markers_spec (s : string) :
  JS.includes_char s "[" || JS.includes_char s "=" || JS.includes_char s "{"
  = false
  <-> Spec.free_of_markers s.
Proof.
  unfold Spec.free_of_markers.
  rewrite !orb_false_iff, <- !includes_char_spec, !not_true_iff_false.
  tauto.
Qed.

Lemma recommender_keep_spec (v : JS.value) :
  Recommender.keep_skill v = true
  <-> exists s, v = JS.VStr s /\ 2 <= JS.length s /\ Spec.free_of_markers s.
Proof.
  split.
  - intros H. destruct (keep_skill_string v H) as [s ->]. exists s.
    split; [reflexivity|]. unfold Recommender.keep_skill in H. simpl in H.
    destruct (negb (String.eqb s "")); [|discriminate].
    destruct (JS.includes_char s "[" || JS.includes_char s "="
              || JS.includes_char s "{") eqn:E; [discriminate|].
    apply markers_spec in E. split; [lia | assumption].
  - intros (s & -> & Hlen & Hfree).
    unfold Recommender.keep_skill. simpl.
    destruct s as [|c s]; [unfold JS.length in Hlen; simpl in Hlen; lia|].
    simpl negb. cbv iota.
    apply markers_spec in Hfree. rewrite Hfree. lia.
Qed.

Lemma parse_resume_keep_spec (v : JS.value) :
  ParseResume.keep_skill v = true
  <-> exists s, v = JS.VStr s /\ 2 <= JS.length s <= 50
                /\ Spec.free_of_markers s.
Proof.
  split.
  - unfold ParseResume.keep_skill.
    destruct v as [|b|q|s|]; simpl; try discriminate.
    + destruct b; discriminate.
    + destruct (negb (Qeq_bool q 0)); discriminate.
    + destruct (negb (String.eqb s "")); [|discriminate].
      destruct ((JS.length s <? 2) || (JS.length s >? 50)) eqn:El;
        [discriminate|].
      destruct (JS.includes_char s "[" || JS.includes_char s "="
                || JS.includes_char s "{") eqn:E; [discriminate|].
      intros _. exists s. apply markers_spec in E.
      apply orb_false_iff in El as [E1 E2].
      split; [reflexivity | split; [lia | exact E]].
  - intros (s & -> & Hlen & Hfree).
    unfold ParseResume.keep_skill. simpl.
    destruct s as [|c s]; [unfold JS.length in Hlen; simpl in Hlen; lia|].
    simpl negb. cbv iota.
    apply markers_spec in Hfree. rewrite Hfree.
    replace ((JS.length (String c s) <? 2) || (JS.length (String c s) >? 50))
      with false; [reflexivity|].
    symmetry. apply orb_false_iff. lia.
Qed.

(** C8, as the code has it.  The recommender keeps a raw skill exactly when
    it is a text of at least 2 characters with none of '[', '=', '{', and
    hands every kept skill, lower-cased and trimmed, to the matching;
    extraction cleaning keeps a raw skill exactly when it is such a text of
    at most 50 characters, and writes every kept skill, trimmed, unless
    nothing is left of it. *)
Theorem skill_cleaning (l : list JS.value) (v : JS.value) (c : string) :
  (Recommender.keep_skill v = true
   <-> exists s, v = JS.VStr s /\ 2 <= JS.length s /\ Spec.free_of_markers s)
  /\ (ParseResume.keep_skill v = true
      <-> exists s, v = JS.VStr s /\ 2 <= JS.length s <= 50
                    /\ Spec.free_of_markers s)
  /\ (In c (Recommender.studentSkills_of (Some l))
      <-> exists s, In (JS.VStr s) l
                    /\ Recommender.keep_skill (JS.VStr s) = true
                    /\ c = JS.trim (JS.toLowerCase s))
  /\ (In c (ParseResume.clean_skills l)
      <-> exists s, In (JS.VStr s) l
                    /\ ParseResume.keep_skill (JS.VStr s) = true
                    /\ c = JS.trim s /\ c <> "").
Proof.
  split; [apply recommender_keep_spec|].
  split; [apply parse_resume_keep_spec|].
  split.
  - unfold Recommender.studentSkills_of. rewrite in_map_iff. split.
    + intros (x & <- & Hx). apply filter_In in Hx as [Hin Hk].
      destruct (keep_skill_string x Hk) as [s ->]. now exists s.
    + intros (s & Hin & Hk & ->). exists (JS.VStr s).
      split; [reflexivity | now apply filter_In].
  - unfold ParseResume.clean_skills. rewrite filter_In, in_map_iff. split.
    + intros ((x & <- & Hx) & Hlen). apply filter_In in Hx as [Hin Hk].
      destruct (proj1 (parse_resume_keep_spec x) Hk) as (s & -> & _).
      exists s. repeat split; try assumption.
      intros E. rewrite E in Hlen. discriminate.
    + intros (s & Hin & Hk & -> & Hne). split.
      * exists (JS.VStr s). split; [reflexivity | now apply filter_In].
      * destruct (JS.trim s) as [|a t]; [congruence|].
        apply Z.gtb_lt. unfold JS.length.
        change (String.length (String a t)) with (S (String.length t)).
        lia.
Qed.

(** C8, as stated, fails: a skill holding a closing bracket is kept by both
    filters, and the recommender keeps a skill of 51 characters. *)
Lemma skill_with_closing_bracket_kept :
  Spec.must_discard (JS.VStr "a]")
  /\ ParseResume.clean_skills [JS.VStr "a]"] = ["a]"]
  /\ Recommender.studentSkills_of (Some [JS.VStr "a]"]) = ["a]"]
  /\ Spec.must_discard
       (JS.VStr "supercalifragilisticexpialidocious-and-then-some-xx")
  /\ Recommender.studentSkills_of
       (Some [JS.VStr "supercalifragilisticexpialidocious-and-then-some-xx"])
     = ["supercalifragilisticexpialidocious-and-then-some-xx"].
Proof.
  repeat split.
  - simpl. unfold Spec.contains. simpl. tauto.
  - simpl. right. right. left. reflexivity.
Qed.

End SkillCleaningClaims.

(* ================================================================= *)
(** ** Verification of a one-time code *)

Section VerifyOtpClaims.
Import Store VerifyOtp.

Lemma latest_In (rows : list OtpRow) (r : OtpRow) :
  latest rows = Some r -> In r rows.
Proof.
  revert r. induction rows as [|x rows IH]; simpl; intros r H; [discriminate|].
  destruct (latest rows) as [r'|].
  - destruct (created_at r' >? created_at x); inversion H; subst; auto.
  - inversion H; subst; auto.
Qed.

(** The record a verification works on is an unverified row of the
    table. *)
Lemma find_otp_unverified (w : World) (e : string) (r : OtpRow) :
  find_otp w e = Some r ->
  In r (otp_verifications w) /\ otp_email r = e /\ verified r = false.
Proof.
  unfold find_otp. intros H. apply latest_In in H.
  apply filter_In in H as [Hin Hu]. unfold unverified_for in Hu.
  apply andb_true_iff in Hu as [He Hv].
  apply String.eqb_eq in He. apply Bool.eqb_prop in Hv. auto.
Qed.

(** The accounts listed are accounts. *)
Lemma listUsers_In (env : Env) (w : World) (u : AuthUser) :
  In u (listUsers env w) -> In u (auth_users w).
Proof.
  unfold listUsers. destruct (listError env); [intros []|].
  apply In_firstn.
Qed.

Lemma present_fields (req : Request) :
  email req <> "" -> otp_given req <> "" ->
  String.eqb (email req) "" || String.eqb (otp_given req) "" = false.
Proof.
  intros He Ho. apply orb_false_iff.
  split; now apply String.eqb_neq.
Qed.

(** A record with five or more attempts is refused, whatever else the
    request holds. *)
Lemma handler_exhausted (env : Env) (req : Request) (w : World) (r : OtpRow) :
  find_otp w (email req) = Some r -> 5 <= attempts r ->
  handler env req w
  = (if String.eqb (email req) "" || String.eqb (otp_given req) ""
     then {| status := 400; body := Error "Email and OTP are required" None |}
     else if fetchError env
          then {| status := 500; body := Error "Failed to verify OTP" None |}
          else if expires_at r <? now env then otp_expired
               else too_many_attempts,
     w).
Proof.
  intros Hf Ha. unfold handler.
  destruct (String.eqb (email req) "" || String.eqb (otp_given req) "");
    [reflexivity|].
  destruct (fetchError env); [reflexivity|].
  rewrite Hf.
  destruct (expires_at r <? now env); [reflexivity|].
  destruct (Z.geb_spec (attempts r) 5); [reflexivity | lia].
Qed.

(** C5. When the record looked up for a verification request has 5 or more
    attempts, the request is refused whether or not the submitted code is
    the stored one: the response is an error, the datastore is left as it
    was (the record is not deleted), and the response is the same for every
    submitted code. *)
Theorem attempts_exhausted_rejects (env : Env) (req : Request) (w : World)
        (r : OtpRow) (code : string) :
  find_otp w (email req) = Some r ->
  5 <= attempts r ->
  status (fst (handler env req w)) <> 200
  /\ (exists msg c, body (fst (handler env req w)) = Error msg c)
  /\ snd (handler env req w) = w
  /\ In r (otp_verifications (snd (handler env req w)))
  /\ (otp_given req <> "" -> code <> "" ->
      handler env (with_otp req code) w = handler env req w).
Proof.
  intros Hf Ha.
  pose proof (handler_exhausted env req w r Hf Ha) as H.
  pose proof (handler_exhausted env (with_otp req code) w r Hf Ha) as H'.
  rewrite H. simpl fst. simpl snd.
  split; [|split; [|split; [reflexivity|split]]].
  - repeat match goal with
           | |- context [if ?b then _ else _] => destruct b
           end; discriminate.
  - repeat match goal with
           | |- context [if ?b then _ else _] => destruct b
           end; eexists; eexists; reflexivity.
  - now apply find_otp_unverified in Hf.
  - intros Ho Hc. rewrite H'. simpl email. simpl otp_given.
    apply String.eqb_neq in Ho, Hc. now rewrite Ho, Hc.
Qed.

Lemma attempts_exhausted_rejects_witness :
  handler (Samples.verify_env 2000) (Samples.verify_req "482913" None)
          (Samples.world_of [Samples.pending 601000 5])
  = (too_many_attempts, Samples.world_of [Samples.pending 601000 5])
  /\ status too_many_attempts <> 200.
Proof.
  split; [reflexivity|].
  apply (attempts_exhausted_rejects
           (Samples.verify_env 2000) (Samples.verify_req "482913" None)
           (Samples.world_of [Samples.pending 601000 5])
           (Samples.pending 601000 5) "000000").
  - reflexivity.
  - simpl. lia.
Defined.

(** C7, as the code has it.  Verification fails closed, leaving the
    datastore as it was, in each of the three situations, with a response of
    its own for each: 404 "No OTP found for this email" when the email has
    no unverified row, 400 "OTP has expired" when the latest one is expired,
    and 400 "Too many failed attempts. Please request a new OTP" when it is
    not expired and has 5 or more attempts. *)
Theorem verification_fails_closed (env : Env) (req : Request) (w : World) :
  email req <> "" -> otp_given req <> "" -> fetchError env = false ->
  match find_otp w (email req) with
  | None => handler env req w = (no_otp_found, w)
  | Some r =>
      (expires_at r < now env -> handler env req w = (otp_expired, w))
      /\ (now env <= expires_at r -> 5 <= attempts r ->
          handler env req w = (too_many_attempts, w))
  end
  /\ no_otp_found
     = {| status := 404; body := Error "No OTP found for this email" None |}
  /\ otp_expired = {| status := 400; body := Error "OTP has expired" None |}
  /\ too_many_attempts
     = {| status := 400;
          body := Error "Too many failed attempts. Please request a new OTP"
                        None |}.
Proof.
  intros He Ho Hf. split; [|repeat split].
  unfold handler. rewrite (present_fields req He Ho), Hf.
  destruct (find_otp w (email req)) as [r|]; [|reflexivity].
  split.
  - intros Hx. destruct (Z.ltb_spec (expires_at r) (now env)); [reflexivity|lia].
  - intros Hx Ha.
    destruct (Z.ltb_spec (expires_at r) (now env)); [lia|].
    destruct (Z.geb_spec (attempts r) 5); [reflexivity | lia].
Qed.

Lemma verification_fails_closed_witness :
  handler (Samples.verify_env 700000) (Samples.verify_req "482913" None)
          (Samples.world_of [Samples.pending 601000 0])
  = (otp_expired, Samples.world_of [Samples.pending 601000 0]).
Proof.
  refine (proj1 (proj1 (verification_fails_closed
                          (Samples.verify_env 700000)
                          (Samples.verify_req "482913" None)
                          (Samples.world_of [Samples.pending 601000 0])
                          _ _ eq_refl)) _).
  - discriminate.
  - discriminate.
  - simpl. lia.
Defined.

(** C7, as stated, fails: an expired record and an exhausted record are
    each answered with a message of their own, not with the one given when
    no record is found. *)
Lemma expired_and_exhausted_not_generic :
  fst (handler (Samples.verify_env 700000) (Samples.verify_req "482913" None)
               (Samples.world_of [Samples.pending 601000 0]))
  = otp_expired
  /\ otp_expired <> no_otp_found
  /\ fst (handler (Samples.verify_env 2000) (Samples.verify_req "482913" None)
                  (Samples.world_of [Samples.pending 601000 5]))
     = too_many_attempts
  /\ too_many_attempts <> no_otp_found
  /\ fst (handler (Samples.verify_env 2000) (Samples.verify_req "482913" None)
                  (Samples.world_of []))
     = no_otp_found.
Proof. repeat split; try reflexivity; discriminate. Qed.

(** C10. A reset request with the right code, not expired and with fewer
    than 5 attempts, for an email that has no account, is answered with
    success (status 200) and the generated temporary password; no password
    is updated and the code row stays unverified. *)
Theorem reset_without_account (env : Env) (req : Request) (w : World)
        (r : OtpRow) :
  purpose req = Some "reset" ->
  email req <> "" -> otp_given req <> "" -> fetchError env = false ->
  find_otp w (email req) = Some r ->
  now env <= expires_at r ->
  attempts r < 5 ->
  JS.trim (otp r) = JS.trim (otp_given req) ->
  (forall u, In u (auth_users w) -> user_email u <> email req) ->
  handler env req w
  = ({| status := 200;
        body := Ok "OTP verified successfully" (Some (tempPassword env)) |},
     w)
  /\ auth_users (snd (handler env req w)) = auth_users w
  /\ In r (otp_verifications (snd (handler env req w)))
  /\ verified r = false.
Proof.
  intros Hp He Ho Hf Hr Hx Ha Hc Hnone.
  assert (H : handler env req w = (verified_ok env, w)).
  { unfold handler.
    rewrite (present_fields req He Ho), Hf, Hr.
    destruct (Z.ltb_spec (expires_at r) (now env)); [lia|].
    destruct (Z.geb_spec (attempts r) 5); [lia|].
    rewrite Hc, String.eqb_refl, Hp. simpl.
    unfold reset, find_user.
    destruct (find _ (listUsers env w)) as [u|] eqn:Eu; [|reflexivity].
    apply find_some in Eu as [Hin Heq]. apply String.eqb_eq in Heq.
    apply listUsers_In in Hin.
    now destruct (Hnone u Hin). }
  rewrite H. simpl snd.
  destruct (find_otp_unverified _ _ _ Hr) as (Hin & _ & Hv).
  repeat split; assumption.
Qed.

Lemma reset_without_account_witness :
  handler (Samples.verify_env 2000)
          (Samples.verify_req "482913" (Some "reset"))
          (Samples.world_of [Samples.pending 601000 0])
  = ({| status := 200;
        body := Ok "OTP verified successfully"
                   (Some "k3j9x0q2m5p1a8b7c6d4e2f0") |},
     Samples.world_of [Samples.pending 601000 0]).
Proof.
  refine (proj1 (reset_without_account
                   (Samples.verify_env 2000)
                   (Samples.verify_req "482913" (Some "reset"))
                   (Samples.world_of [Samples.pending 601000 0])
                   (Samples.pending 601000 0)
                   eq_refl _ _ eq_refl eq_refl _ _ eq_refl _)).
  - discriminate.
  - discriminate.
  - simpl. lia.
  - simpl. lia.
  - intros u [].
Defined.

End VerifyOtpClaims.

(* ================================================================= *)
(** ** Further properties of the recommender *)

Section RecommenderOrder.
Import Recommender Props.

Lemma insert_by_score_In (r x : JobRecommendation) (l : list JobRecommendation) :
  In x (insert_by_score r l) -> x = r \/ In x l.
Proof.
  intros H. apply (Permutation_in _ (insert_by_score_perm r l)) in H.
  destruct H; auto.
Qed.

Lemma insert_by_score_sorted (r : JobRecommendation)
      (l : list JobRecommendation) :
  StronglySorted by_score_desc l ->
  StronglySorted by_score_desc (insert_by_score r l).
Proof.
  induction l as [|x l IH]; simpl; intros Hs.
  - repeat constructor.
  - inversion Hs as [|? ? Hl Hx]; subst.
    destruct (Z.leb_spec (match_score x) (match_score r)) as [Hle | Hgt].
    + constructor; [assumption|].
      constructor; [exact Hle|].
      eapply Forall_impl; [|exact Hx].
      unfold by_score_desc. intros; lia.
    + constructor; [now apply IH|].
      apply Forall_forall. intros y Hy.
      destruct (insert_by_score_In _ _ _ Hy) as [-> | Hy'].
      * unfold by_score_desc. lia.
      * rewrite Forall_forall in Hx. now apply Hx.
Qed.

Lemma sort_sorted (l : list JobRecommendation) :
  StronglySorted by_score_desc (sort l).
Proof.
  induction l as [|r l IH]; simpl; [constructor|].
  now apply insert_by_score_sorted.
Qed.

Lemma of_score_insert (k : Z) (r : JobRecommendation)
      (l : list JobRecommendation) :
  of_score k (insert_by_score r l) = of_score k (r :: l).
Proof.
  unfold of_score. induction l as [|x l IH]; simpl; [reflexivity|].
  destruct (Z.leb_spec (match_score x) (match_score r)) as [Hle | Hgt].
  - reflexivity.
  - simpl. rewrite IH. simpl.
    destruct (Z.eqb_spec (match_score x) k) as [Hx | Hx];
      destruct (Z.eqb_spec (match_score r) k) as [Hr | Hr];
      try reflexivity; lia.
Qed.

Lemma of_score_sort (k : Z) (l : list JobRecommendation) :
  of_score k (sort l) = of_score k l.
Proof.
  induction l as [|r l IH]; simpl; [reflexivity|].
  rewrite of_score_insert. unfold of_score in *. simpl. now rewrite IH.
Qed.

Lemma StronglySorted_firstn {A : Type} (R : A -> A -> Prop) (n : nat)
      (l : list A) :
  StronglySorted R l -> StronglySorted R (firstn n l).
Proof.
  revert n. induction l as [|x l IH]; intros [|n] Hs; simpl;
    try constructor.
  - inversion Hs; subst. now apply IH.
  - inversion Hs as [|? ? _ Hx]; subst.
    rewrite Forall_forall in *. intros y Hy.
    apply Hx. now apply (In_firstn n l).
Qed.

Lemma StronglySorted_map {A B : Type} (R : A -> A -> Prop)
      (S : B -> B -> Prop) (f : A -> B) (l : list A) :
  (forall a b, R a b -> S (f a) (f b)) ->
  StronglySorted R l -> StronglySorted S (map f l).
Proof.
  intros HRS. induction 1 as [|x l Hl IH Hx]; simpl; constructor; auto.
  rewrite Forall_forall in *. intros y Hy.
  apply in_map_iff in Hy as (a & <- & Ha). auto.
Qed.

(** The recommendations of a run are the ones the loop pushed, sorted. *)
Lemma recommendations_of_pushed (req : Request)
      (rs : option (list JS.value)) :
  recommendations_of req rs
  = sort (process_jobs (studentSkills_of rs) (average (mockResults req))
                       (average (interviews req)) (jobs_of req)).
Proof.
  unfold recommendations_of, jobs_of.
  now destruct (offcampusJobs req).
Qed.

(** X1. The recommendations a successful run answers with and the rows it
    inserts are in order of falling [match_score]; they are the
    recommendations the loop over the postings pushed, and those of equal
    score keep the order in which they were pushed. *)
Theorem recommendations_ranked (req : Request) (table table' : list Row)
        (n : Z) (recs : list JobRecommendation) (uid : string)
        (resume_skills : option (list JS.value)) (k : Z) :
  handler req table = (Success n recs, table') ->
  user req = Some uid ->
  profile req = Some resume_skills ->
  let pushed :=
    process_jobs (studentSkills_of resume_skills) (average (mockResults req))
                 (average (interviews req)) (jobs_of req) in
  let sorted := recommendations_of req resume_skills in
  table' = (after_delete req uid table ++ map (to_row uid) sorted)%list
  /\ recs = firstn 10 sorted
  /\ StronglySorted by_score_desc recs
  /\ StronglySorted by_row_score_desc (map (to_row uid) sorted)
  /\ Permutation sorted pushed
  /\ of_score k sorted = of_score k pushed.
Proof.
  intros H Hu Hp pushed sorted.
  destruct (handler_success_at _ _ _ _ _ _ _ H Hu Hp) as (_ & Hr & Ht).
  assert (Hs : sorted = sort pushed) by apply recommendations_of_pushed.
  split; [exact Ht|]. split; [exact Hr|].
  rewrite Hr. fold sorted. rewrite Hs.
  split; [|split; [|split]].
  - apply StronglySorted_firstn, sort_sorted.
  - apply (StronglySorted_map by_score_desc); [auto | apply sort_sorted].
  - apply sort_perm.
  - apply of_score_sort.
Qed.

Lemma recommendations_ranked_witness :
  StronglySorted by_score_desc [Samples.rec_85]
  /\ of_score 85 (recommendations_of Samples.req_85 (Some [JS.VStr "Python"]))
     = of_score 85 (process_jobs
                      (studentSkills_of (Some [JS.VStr "Python"]))
                      (average (mockResults Samples.req_85))
                      (average (interviews Samples.req_85))
                      (jobs_of Samples.req_85)).
Proof.
  assert (E : handler Samples.req_85 []
              = (Success 1 [Samples.rec_85], [Samples.row_85]))
    by (vm_compute; reflexivity).
  pose proof (recommendations_ranked
                Samples.req_85 [] [Samples.row_85] 1 [Samples.rec_85]
                "student-1" (Some [JS.VStr "Python"]) 85
                E eq_refl eq_refl) as H.
  split.
  - exact (proj1 (proj2 (proj2 H))).
  - exact (proj2 (proj2 (proj2 (proj2 (proj2 H))))).
Defined.

End RecommenderOrder.

Section RecommenderBounds.
Import Recommender Props.
Open Scope Q_scope.

(** X2. The skill component of a posting lies between 0 and 100, whatever
    the candidate's skills and the posting's required skills are, and so
    does the [skill_match] stored for it. *)
Theorem skill_component_bounds (studentSkills : list string) (job : Job)
        (avgMockScore avgInterviewScore : Q) :
  (0 <= skillMatch_job studentSkills job
   /\ skillMatch_job studentSkills job <= 100)
  /\ (0 <= skill_match (recommendation_for studentSkills avgMockScore
                                           avgInterviewScore job)
       <= 100)%Z.
Proof.
  destruct (calculateSkillMatch_bounds studentSkills (jobSkills_of job))
    as [H0 H1].
  split; [split; assumption|]. simpl. split.
  - now apply Math_round_ge.
  - apply Math_round_le_100. exact H1.
Qed.

Lemma includes_empty (s : string) : JS.includes s "" = true.
Proof.
  apply includes_spec. exists "", s. reflexivity.
Qed.

Lemma count_matches_all (ss js : list string) :
  In "" ss -> count_matches ss js = Z.of_nat (List.length js).
Proof.
  intros Hin. induction js as [|j js IH]; [reflexivity|].
  simpl count_matches. simpl List.length. rewrite IH.
  replace (skill_matches ss j) with true; [lia|].
  symmetry. unfold skill_matches. apply existsb_exists.
  exists "". split; [assumption|].
  rewrite (includes_empty j). apply orb_true_r.
Qed.

Lemma blank_skill_kept (s : string) :
  (2 <= JS.length s)%Z -> Spec.free_of_markers s -> JS.trim s = "" ->
  forall l, In (JS.VStr s) l -> In "" (studentSkills_of (Some l)).
Proof.
  intros Hlen Hfree Hblank l Hin.
  unfold studentSkills_of. apply in_map_iff.
  exists (JS.VStr s). split.
  - simpl. now rewrite <- toLowerCase_trim, Hblank.
  - apply filter_In. split; [assumption|].
    apply recommender_keep_spec. now exists s.
Qed.

(** All of a positive number of skills matched is 100. *)
Lemma ratio_all (n : Z) :
  (0 < n)%Z -> JS.fmul (JS.fdiv (inject_Z n) (inject_Z n)) 100 = 100.
Proof.
  intros Hn. unfold JS.fmul, JS.fdiv.
  assert (Hn' : ~ inject_Z n == 0).
  { intros E. unfold Qeq, inject_Z in E. cbn [Qnum Qden] in E. lia. }
  rewrite (fl_compat (inject_Z n / inject_Z n) 1), fl_one.
  - rewrite (fl_compat (1 * 100) 100) by reflexivity. apply fl_hundred.
  - unfold Qdiv. now apply Qmult_inv_r.
Qed.

(** X3. A stored skill of two or more white-space characters passes the
    recommender's filter and is trimmed to the empty string, which every
    required skill contains: such a candidate gets a skill component of 100
    for every posting that names a required skill. *)
Theorem blank_skill_matches_all (l : list JS.value) (s : string) (job : Job) :
  In (JS.VStr s) l ->
  (2 <= JS.length s)%Z -> Spec.free_of_markers s -> JS.trim s = "" ->
  required_skills job <> [] ->
  skillMatch_job (studentSkills_of (Some l)) job == 100.
Proof.
  intros Hin Hlen Hfree Hblank Hreq.
  pose proof (blank_skill_kept s Hlen Hfree Hblank l Hin) as Hempty.
  unfold skillMatch_job, calculateSkillMatch, jobSkills_of.
  destruct (required_skills job) as [|r rs]; [congruence|].
  destruct (studentSkills_of (Some l)) as [|c cs]; [contradiction|].
  simpl map. cbv iota.
  rewrite (count_matches_all _ _ Hempty).
  rewrite ratio_all; [apply Qeq_refl|].
  simpl List.length. lia.
Qed.

Lemma blank_skill_matches_all_witness :
  skillMatch_job (studentSkills_of (Some [JS.VStr "  "]))
                 Samples.job_python_sql == 100.
Proof.
  apply (blank_skill_matches_all [JS.VStr "  "] "  " Samples.job_python_sql).
  - left. reflexivity.
  - unfold JS.length. simpl. lia.
  - unfold Spec.free_of_markers, Spec.contains. simpl. intuition discriminate.
  - reflexivity.
  - discriminate.
Defined.

End RecommenderBounds.

Section RecommenderStore.
Import Recommender Props.

Lemma rows_of_other_delete (uid other : string) (table : list Row) :
  other <> uid ->
  rows_of other (delete_student uid table) = rows_of other table.
Proof.
  intros Hne. unfold rows_of, delete_student.
  induction table as [|r table IH]; simpl; [reflexivity|].
  destruct (String.eqb_spec (row_student_id r) uid) as [E | E]; simpl.
  - destruct (String.eqb_spec (row_student_id r) other) as [E' | E'];
      [congruence | exact IH].
  - destruct (String.eqb (row_student_id r) other); now rewrite IH.
Qed.

Lemma rows_of_other_after_delete (req : Request) (uid other : string)
      (table : list Row) :
  other <> uid ->
  rows_of other (after_delete req uid table) = rows_of other table.
Proof.
  intros Hne. unfold after_delete.
  destruct (deleteError req); [reflexivity|].
  now apply rows_of_other_delete.
Qed.

Lemma rows_of_other_to_row (uid other : string)
      (recs : list JobRecommendation) :
  other <> uid -> rows_of other (map (to_row uid) recs) = [].
Proof.
  intros Hne. unfold rows_of. apply filter_none.
  intros r Hr. apply in_map_iff in Hr as (rec & <- & _). simpl.
  apply String.eqb_neq. congruence.
Qed.

Lemma delete_student_idem (uid : string) (table : list Row) :
  delete_student uid (delete_student uid table) = delete_student uid table.
Proof.
  unfold delete_student. apply filter_all.
  intros r Hr. now apply filter_In in Hr.
Qed.

Lemma delete_student_to_row (uid : string) (recs : list JobRecommendation) :
  delete_student uid (map (to_row uid) recs) = [].
Proof.
  unfold delete_student. apply filter_none.
  intros r Hr. apply in_map_iff in Hr as (rec & <- & _). simpl.
  now rewrite String.eqb_refl.
Qed.

Lemma delete_student_app (uid : string) (t1 t2 : list Row) :
  delete_student uid (t1 ++ t2)
  = (delete_student uid t1 ++ delete_student uid t2)%list.
Proof. unfold delete_student. apply filter_app. Qed.

(** The table a run leaves, path by path. *)
Lemma handler_table (req : Request) (table : list Row) :
  snd (handler req table)
  = match authorization req, user req, profile req with
    | Some _, Some uid, Some rs =>
        if insertError req
           || negb (forallb check_row
                            (map (to_row uid) (recommendations_of req rs)))
        then after_delete req uid table
        else (after_delete req uid table
              ++ map (to_row uid) (recommendations_of req rs))%list
    | _, _, _ => table
    end.
Proof.
  unfold handler.
  destruct (authorization req); [|reflexivity].
  destruct (user req) as [uid|]; [|reflexivity].
  destruct (profile req) as [rs|]; [|reflexivity].
  destruct (recommendations_of req rs) as [|r recs] eqn:E.
  - simpl. destruct (insertError req); simpl; now rewrite ?app_nil_r.
  - destruct (insertError req || _); reflexivity.
Qed.

(** The answer of a run does not depend on the table. *)
Lemma handler_response (req : Request) (t1 t2 : list Row) :
  fst (handler req t1) = fst (handler req t2).
Proof.
  unfold handler.
  destruct (authorization req); [|reflexivity].
  destruct (user req) as [uid|]; [|reflexivity].
  destruct (profile req) as [rs|]; [|reflexivity].
  destruct (recommendations_of req rs) as [|r recs]; [reflexivity|].
  destruct (insertError req || _); reflexivity.
Qed.



(** X5. A run touches the rows of no other student, whatever its outcome. *)
Theorem other_students_untouched (req : Request) (table : list Row)
        (other : string) :
  user req <> Some other ->
  rows_of other (snd (handler req table)) = rows_of other table.
Proof.
  intros Hne. rewrite handler_table.
  destruct (authorization req); [|reflexivity].
  destruct (user req) as [uid|]; [|reflexivity].
  destruct (profile req) as [rs|]; [|reflexivity].
  assert (Hneq : other <> uid) by congruence.
  destruct (insertError req || _).
  - now apply rows_of_other_after_delete.
  - rewrite rows_of_app, rows_of_other_to_row by assumption.
    rewrite app_nil_r. now apply rows_of_other_after_delete.
Qed.

Lemma other_students_untouched_witness :
  rows_of "student-2"
          (snd (handler Samples.req_85 [Samples2.row_other; Samples.row_85]))
  = [Samples2.row_other].
Proof.
  apply (other_students_untouched
           Samples.req_85 [Samples2.row_other; Samples.row_85] "student-2").
  discriminate.
Defined.

(** X6. A second run of the same request on the table the first run left
    answers as the first did; when the delete takes effect it leaves the
    same table as well, whether the first run succeeded or failed. *)
Theorem generation_idempotent (req : Request) (table : list Row) :
  fst (handler req (snd (handler req table))) = fst (handler req table)
  /\ (deleteError req = false ->
      handler req (snd (handler req table)) = handler req table).
Proof.
  split; [apply handler_response|]. intros Hdel.
  pose proof (handler_table req table) as HT.
  destruct (authorization req) as [a|] eqn:Ha.
  2:{ rewrite HT. reflexivity. }
  destruct (user req) as [uid|] eqn:Hu.
  2:{ rewrite HT. reflexivity. }
  destruct (profile req) as [rs|] eqn:Hp.
  2:{ rewrite HT. reflexivity. }
  assert (Hd : after_delete req uid (snd (handler req table))
               = after_delete req uid table).
  { rewrite HT. unfold after_delete. rewrite Hdel.
    destruct (insertError req || _).
    - apply delete_student_idem.
    - rewrite delete_student_app, delete_student_idem, delete_student_to_row.
      apply app_nil_r. }
  unfold handler at 1 3. rewrite Ha, Hu, Hp, Hd. reflexivity.
Qed.

Lemma generation_idempotent_witness :
  handler Samples.req_85 (snd (handler Samples.req_85 [Samples2.row_other]))
  = handler Samples.req_85 [Samples2.row_other].
Proof.
  exact (proj2 (generation_idempotent Samples.req_85 [Samples2.row_other])
               eq_refl).
Defined.

(** X7. A successful run reports as [count] the number of rows it inserted
    and answers with the first ten of them at most, in the same order; when
    the delete took effect these are the rows the student has. *)
Theorem response_count (req : Request) (table table' : list Row)
        (n : Z) (recs : list JobRecommendation) (uid : string)
        (resume_skills : option (list JS.value)) :
  handler req table = (Success n recs, table') ->
  user req = Some uid ->
  profile req = Some resume_skills ->
  let inserted := map (to_row uid) (recommendations_of req resume_skills) in
  table' = (after_delete req uid table ++ inserted)%list
  /\ n = Z.of_nat (List.length inserted)
  /\ (List.length recs <= 10)%nat
  /\ map (to_row uid) recs = firstn 10 inserted
  /\ (deleteError req = false ->
      n = Z.of_nat (List.length (rows_of uid table'))
      /\ map (to_row uid) recs = firstn 10 (rows_of uid table')).
Proof.
  intros H Hu Hp inserted.
  destruct (handler_success_at _ _ _ _ _ _ _ H Hu Hp) as (-> & -> & ->).
  assert (Hn : Z.of_nat (List.length (recommendations_of req resume_skills))
               = Z.of_nat (List.length inserted))
    by (unfold inserted; now rewrite length_map).
  assert (Hf : map (to_row uid) (firstn 10 (recommendations_of req resume_skills))
               = firstn 10 inserted)
    by (symmetry; apply firstn_map).
  split; [reflexivity|]. split; [exact Hn|]. split; [apply firstn_le_length|].
  split; [exact Hf|].
  intros Hd. rewrite (rows_of_after_delete _ _ _ _ Hd). fold inserted.
  split; assumption.
Qed.

Lemma response_count_witness :
  1 = Z.of_nat (List.length (rows_of "student-1" [Samples.row_85])).
Proof.
  assert (E : handler Samples.req_85 []
              = (Success 1 [Samples.rec_85], [Samples.row_85]))
    by (vm_compute; reflexivity).
  exact (proj1 (proj2 (proj2 (proj2 (proj2
           (response_count Samples.req_85 [] [Samples.row_85] 1
                           [Samples.rec_85] "student-1"
                           (Some [JS.VStr "Python"]) E eq_refl eq_refl))))
           eq_refl)).
Defined.

End RecommenderStore.

Section RecommenderConstraint.
Import Recommender Props.
Open Scope Q_scope.



End RecommenderConstraint.

(* ================================================================= *)
(** ** Further properties of the skill cleaning *)

Section TrimFacts.

Lemma trimEnd_idem (s : string) : JS.trimEnd (JS.trimEnd s) = JS.trimEnd s.
Proof.
  induction s as [|c s IH]; [reflexivity|].
  simpl. destruct (JS.trimEnd s) as [|a t] eqn:E.
  - destruct (JS.isWhiteSpace c) eqn:W; [reflexivity|].
    simpl. now rewrite W.
  - change (JS.trimEnd (String c (String a t)))
      with (match JS.trimEnd (String a t) with
            | EmptyString => if JS.isWhiteSpace c then EmptyString
                             else String c EmptyString
            | u => String c u
            end).
    now rewrite IH.
Qed.

Lemma trimStart_head (s : string) :
  match JS.trimStart s with
  | EmptyString => True
  | String c _ => JS.isWhiteSpace c = false
  end.
Proof.
  induction s as [|c s IH]; simpl; [exact I|].
  destruct (JS.isWhiteSpace c) eqn:W; [exact IH | exact W].
Qed.

Lemma trimStart_trimEnd (t : string) :
  match t with
  | EmptyString => True
  | String c _ => JS.isWhiteSpace c = false
  end ->
  JS.trimStart (JS.trimEnd t) = JS.trimEnd t.
Proof.
  destruct t as [|c s]; [reflexivity|]. intros W. simpl.
  destruct (JS.trimEnd s); rewrite ?W; simpl; now rewrite W.
Qed.

Lemma trim_idem (s : string) : JS.trim (JS.trim s) = JS.trim s.
Proof.
  unfold JS.trim.
  rewrite (trimStart_trimEnd _ (trimStart_head s)).
  apply trimEnd_idem.
Qed.

Lemma trimStart_contains (s : string) (c : ascii) :
  Spec.contains (JS.trimStart s) c -> Spec.contains s c.
Proof.
  unfold Spec.contains. induction s as [|a s IH]; simpl; [tauto|].
  destruct (JS.isWhiteSpace a); simpl; tauto.
Qed.

Lemma trimEnd_contains (s : string) (c : ascii) :
  Spec.contains (JS.trimEnd s) c -> Spec.contains s c.
Proof.
  unfold Spec.contains. induction s as [|a s IH]; simpl; [tauto|].
  destruct (JS.trimEnd s) as [|b t].
  - destruct (JS.isWhiteSpace a); simpl; tauto.
  - simpl in *. tauto.
Qed.

Lemma trim_contains (s : string) (c : ascii) :
  Spec.contains (JS.trim s) c -> Spec.contains s c.
Proof.
  intros H. now apply trimStart_contains, trimEnd_contains.
Qed.

Lemma trimStart_length (s : string) :
  (String.length (JS.trimStart s) <= String.length s)%nat.
Proof.
  induction s as [|a s IH]; simpl; [lia|].
  destruct (JS.isWhiteSpace a); simpl; lia.
Qed.

Lemma trimEnd_length (s : string) :
  (String.length (JS.trimEnd s) <= String.length s)%nat.
Proof.
  induction s as [|a s IH]; simpl; [lia|].
  destruct (JS.trimEnd s) as [|b t].
  - destruct (JS.isWhiteSpace a); simpl; lia.
  - simpl in *. lia.
Qed.

Lemma trim_length (s : string) : JS.length (JS.trim s) <= JS.length s.
Proof.
  unfold JS.length, JS.trim.
  pose proof (trimEnd_length (JS.trimStart s)).
  pose proof (trimStart_length s). lia.
Qed.

End TrimFacts.

Section CleaningMore.

Lemma free_of_markers_trim (s : string) :
  Spec.free_of_markers s -> Spec.free_of_markers (JS.trim s).
Proof.
  unfold Spec.free_of_markers. intros (H1 & H2 & H3).
  repeat split; intros H; apply trim_contains in H; contradiction.
Qed.

Lemma clean_skills_In (skills : list JS.value) (c : string) :
  In c (ParseResume.clean_skills skills) ->
  exists s, 2 <= JS.length s <= 50 /\ Spec.free_of_markers s
            /\ c = JS.trim s /\ c <> "".
Proof.
  unfold ParseResume.clean_skills. intros H.
  apply filter_In in H as [H Hlen].
  apply in_map_iff in H as (x & Hc & Hx). apply filter_In in Hx as [_ Hk].
  apply parse_resume_keep_spec in Hk as (s & Hs & Hl & Hfree).
  subst x c. exists s. simpl in Hlen |- *.
  split; [exact Hl|]. split; [exact Hfree|]. split; [reflexivity|].
  intros E. rewrite E in Hlen. discriminate.
Qed.

Lemma clean_skills_trimmed (skills : list JS.value) (c : string) :
  In c (ParseResume.clean_skills skills) -> JS.trim c = c.
Proof.
  intros H. destruct (clean_skills_In _ _ H) as (s & _ & _ & -> & _).
  apply trim_idem.
Qed.

Lemma clean_skills_length (skills : list JS.value) (c : string) :
  In c (ParseResume.clean_skills skills) -> 1 <= JS.length c <= 50.
Proof.
  intros H. destruct (clean_skills_In _ _ H) as (s & Hl & _ & -> & Hne).
  pose proof (trim_length s). split; [|lia].
  destruct (JS.trim s); [congruence|].
  unfold JS.length. simpl String.length. lia.
Qed.

Lemma clean_skills_markers (skills : list JS.value) (c : string) :
  In c (ParseResume.clean_skills skills) -> Spec.free_of_markers c.
Proof.
  intros H. destruct (clean_skills_In _ _ H) as (s & _ & Hfree & -> & _).
  now apply free_of_markers_trim.
Qed.

(** X9. Every skill that extraction cleaning writes is a non-empty text of
    at most 50 characters, with no white space around it and none of the
    characters '[', '=', '{'. *)
Theorem cleaned_skills_wellformed (skills : list JS.value) (c : string) :
  In c (ParseResume.clean_skills skills) ->
  c <> "" /\ JS.trim c = c /\ 1 <= JS.length c <= 50
  /\ Spec.free_of_markers c.
Proof.
  intros H. split.
  - destruct (clean_skills_In _ _ H) as (s & _ & _ & _ & Hne). exact Hne.
  - split; [now apply (clean_skills_trimmed skills)|].
    split; [now apply (clean_skills_length skills)|].
    now apply (clean_skills_markers skills).
Qed.

Lemma cleaned_skills_wellformed_witness :
  JS.trim "React" = "React" /\ 1 <= JS.length "React" <= 50.
Proof.
  pose proof (cleaned_skills_wellformed
                [JS.VStr "  React "; JS.VNull; JS.VStr "{x"] "React"
                (or_introl eq_refl)) as H.
  split; [exact (proj1 (proj2 H)) | exact (proj1 (proj2 (proj2 H)))].
Defined.

Lemma filter_map_VStr (p : string -> bool) (l : list string) :
  (forall s, In s l -> Recommender.keep_skill (JS.VStr s) = p s) ->
  filter Recommender.keep_skill (map JS.VStr l) = map JS.VStr (filter p l).
Proof.
  induction l as [|s l IH]; simpl; intros H; [reflexivity|].
  rewrite (H s (or_introl eq_refl)), IH by auto.
  now destruct (p s).
Qed.

(** X10. When the skills that extraction cleaning wrote are read back by the
    recommender, the skills of two or more characters pass its filter, each
    as its lower-case form, and the one-character skills are dropped. *)
Theorem cleaned_skills_into_matching (skills : list JS.value) :
  Recommender.studentSkills_of
    (Some (map JS.VStr (ParseResume.clean_skills skills)))
  = map JS.toLowerCase
        (filter (fun s => JS.length s >? 1) (ParseResume.clean_skills skills)).
Proof.
  unfold Recommender.studentSkills_of.
  rewrite (filter_map_VStr (fun s => JS.length s >? 1)).
  - rewrite map_map. apply map_ext_in. intros s Hs.
    apply filter_In in Hs as [Hs _].
    simpl. now rewrite <- toLowerCase_trim, (clean_skills_trimmed _ _ Hs).
  - intros s Hs.
    pose proof (clean_skills_markers _ _ Hs) as Hfree.
    destruct (Z.gtb_spec (JS.length s) 1) as [Hgt | Hle].
    + apply recommender_keep_spec. exists s.
      split; [reflexivity | split; [lia | assumption]].
    + apply not_true_iff_false. intros Hk.
      apply recommender_keep_spec in Hk as (s' & E & Hlen' & _).
      inversion E; subst. lia.
Qed.

End CleaningMore.

(* ================================================================= *)
(** ** Further properties of the issuance *)

Section SendOtpMore.
Import Store SendOtp Props.

Lemma gate_refusal_status (env : Env) (req : Request) (w : World)
      (refusal : Response) :
  gate env req w = Some refusal -> status refusal = 403 \/ status refusal = 404.
Proof.
  unfold gate.
  repeat match goal with
         | |- context [if ?b then _ else _] => destruct b
         end; intros E; inversion E; subst; simpl; auto.
Qed.

(** The handler once the email is present and the gate is passed. *)
Lemma handler_after_gate (env : Env) (req : Request) (w : World) :
  email req <> "" -> gate env req w = None ->
  handler env req w
  = let otp := generate_otp (random env) in
    let w1 := if deleteError env then w
              else set_otp_verifications w
                     (delete_unverified (email req) (otp_verifications w)) in
    if insertError env
    then ({| status := 500; body := Error "Failed to generate OTP" None |}, w1)
    else
      let w2 := set_otp_verifications w1
                  (otp_verifications w1
                   ++ [new_row env (email req) otp (now env + 10 * 60 * 1000)])
      in
      match sendError env with
      | Some msg => ({| status := 500; body := Error msg None |}, w2)
      | None =>
          ({| status := 200; body := Ok "OTP sent successfully" None |},
           set_outbox w2
             (outbox w2
              ++ [ {| mail_to := email req;
                      mail_subject :=
                        if String.eqb (send_purpose req) "reset"
                        then "Password Reset Code"
                        else "Your Verification Code";
                      mail_code := otp |} ]))
      end.
Proof.
  intros He Hg. unfold handler.
  apply String.eqb_neq in He. rewrite He, Hg. reflexivity.
Qed.

Lemma handler_before_gate (env : Env) (req : Request) (w : World) :
  email req = "" \/ gate env req w <> None ->
  snd (handler env req w) = w
  /\ (status (fst (handler env req w)) = 400
      \/ status (fst (handler env req w)) = 403
      \/ status (fst (handler env req w)) = 404).
Proof.
  unfold handler. intros H.
  destruct (String.eqb_spec (email req) "") as [E | E]; [simpl; auto|].
  destruct (gate env req w) as [refusal|] eqn:Hg.
  - simpl. split; [reflexivity|]. right. now apply (gate_refusal_status env req w).
  - destruct H; congruence.
Qed.

Lemma handler_gate_cases (env : Env) (req : Request) (w : World) :
  (email req = "" \/ gate env req w <> None)
  \/ (email req <> "" /\ gate env req w = None).
Proof.
  destruct (String.eqb_spec (email req) ""); [auto|].
  destruct (gate env req w); [left; right; discriminate | auto].
Qed.

(** X11. An issuance request answered with status 400, 403 or 404 (no
    email, not pre-registered, no profile for a reset) changes nothing: no
    code row is deleted or inserted and no mail is sent. *)
Theorem refused_issuance_changes_nothing (env : Env) (req : Request)
        (w w' : World) (resp : Response) :
  handler env req w = (resp, w') ->
  status resp = 400 \/ status resp = 403 \/ status resp = 404 ->
  w' = w.
Proof.
  intros H Hs.
  destruct (handler_gate_cases env req w) as [Hb | [He Hg]].
  - destruct (handler_before_gate env req w Hb) as [Hw _].
    rewrite H in Hw. exact Hw.
  - rewrite (handler_after_gate env req w He Hg) in H. exfalso. revert H.
    cbv zeta. destruct (insertError env).
    + intros H; inversion H; subst. simpl in Hs. lia.
    + destruct (sendError env); intros H; inversion H; subst; simpl in Hs; lia.
Qed.

Lemma refused_issuance_changes_nothing_witness :
  snd (handler Samples.send_env
               (mkRequest "stranger@college.edu" None None None)
               (Samples.world_of [Samples.pending 601000 0]))
  = Samples.world_of [Samples.pending 601000 0].
Proof.
  apply (refused_issuance_changes_nothing
           Samples.send_env (mkRequest "stranger@college.edu" None None None)
           (Samples.world_of [Samples.pending 601000 0]) _
           SendOtp.not_preregistered eq_refl).
  right. left. reflexivity.
Defined.

Lemma has_email_In (table : list string) (e : string) :
  has_email table e = true <-> In e table.
Proof.
  unfold has_email. rewrite existsb_exists. split.
  - intros (x & Hx & E). apply String.eqb_eq in E. now subst.
  - intros H. exists e. split; [assumption | apply String.eqb_refl].
Qed.

(** X12. A code row is stored, and a mail sent, only for an email that
    passes the gate of its purpose: for a signup the email is in the
    teachers' allow-list when the role is "teacher" and in the students'
    allow-list for every other role, and for a reset a profile has the
    email. *)
Theorem issuance_is_gated (env : Env) (req : Request) (w w' : World)
        (resp : Response) :
  handler env req w = (resp, w') ->
  w' <> w ->
  email req <> ""
  /\ (send_purpose req = "signup" -> send_role req = "teacher" ->
      In (email req) (pre_registered_teachers w))
  /\ (send_purpose req = "signup" -> send_role req <> "teacher" ->
      In (email req) (pre_registered_students w))
  /\ (send_purpose req = "reset" ->
      In (email req) (map profile_email (profiles w))).
Proof.
  intros H Hw.
  destruct (handler_gate_cases env req w) as [Hb | [He Hg]].
  - destruct (handler_before_gate env req w Hb) as [Hw' _].
    rewrite H in Hw'. contradiction.
  - split; [exact He|]. revert Hg. unfold gate, send_purpose, send_role.
    destruct (String.eqb_spec
                (match purpose req with Some p => p | None => "signup" end)
                "signup") as [Ep | Ep].
    + rewrite Ep.
      destruct (String.eqb_spec
                  (match role req with Some r => r | None => "student" end)
                  "teacher") as [Er | Er].
      * destruct (preRegError env || _) eqn:E; [discriminate|]. intros _.
        apply orb_false_iff in E as [_ E]. apply negb_false_iff in E.
        apply has_email_In in E.
        repeat split; congruence.
      * destruct (preRegError env || _) eqn:E; [discriminate|]. intros _.
        apply orb_false_iff in E as [_ E]. apply negb_false_iff in E.
        apply has_email_In in E.
        repeat split; congruence.
    + destruct (String.eqb_spec
                  (match purpose req with Some p => p | None => "signup" end)
                  "reset") as [Er | Er].
      * destruct (profileError env || _) eqn:E; [discriminate|]. intros _.
        apply orb_false_iff in E as [_ E]. apply negb_false_iff in E.
        apply has_email_In in E.
        repeat split; try congruence.
      * intros _. repeat split; congruence.
Qed.

Lemma issuance_is_gated_witness :
  In "student@college.edu"
     (pre_registered_students (Samples.world_of [])).
Proof.
  refine (proj1 (proj2 (proj2 (issuance_is_gated
            Samples.send_env Samples.send_req (Samples.world_of []) _ _
            eq_refl _))) eq_refl _).
  - discriminate.
  - discriminate.
Defined.

End SendOtpMore.

Section SendOtpEffects.
Import Store SendOtp Props.

Lemma rows_for_other_deleted (e other : string) (table : list OtpRow) :
  other <> e ->
  rows_for other (delete_unverified e table) = rows_for other table.
Proof.
  intros Hne. unfold rows_for, delete_unverified.
  induction table as [|r table IH]; simpl; [reflexivity|].
  unfold unverified_for at 1.
  destruct (String.eqb_spec (otp_email r) e) as [E | E]; simpl.
  - destruct (Bool.eqb (verified r) false); simpl.
    + destruct (String.eqb_spec (otp_email r) other); [congruence | exact IH].
    + destruct (String.eqb (otp_email r) other); now rewrite IH.
  - destruct (String.eqb (otp_email r) other); now rewrite IH.
Qed.

Lemma rows_for_other_after_delete (env : Env) (e other : string)
      (table : list OtpRow) :
  other <> e ->
  rows_for other (after_delete env e table) = rows_for other table.
Proof.
  intros Hne. unfold after_delete.
  destruct (deleteError env); [reflexivity|].
  now apply rows_for_other_deleted.
Qed.

(** The delete changes the code rows only. *)
Lemma after_delete_fields (env : Env) (e : string) (w : World) :
  let w1 := if deleteError env then w
            else set_otp_verifications w
                   (delete_unverified e (otp_verifications w)) in
  pre_registered_teachers w1 = pre_registered_teachers w
  /\ pre_registered_students w1 = pre_registered_students w
  /\ profiles w1 = profiles w
  /\ auth_users w1 = auth_users w
  /\ user_roles w1 = user_roles w
  /\ outbox w1 = outbox w.
Proof. destruct (deleteError env); repeat split. Qed.

Lemma handler_table_cases (env : Env) (req : Request) (w : World) :
  otp_verifications (snd (handler env req w)) = otp_verifications w
  \/ otp_verifications (snd (handler env req w))
     = after_delete env (email req) (otp_verifications w)
  \/ otp_verifications (snd (handler env req w))
     = (after_delete env (email req) (otp_verifications w)
        ++ [new_row env (email req) (generate_otp (random env))
                    (now env + 10 * 60 * 1000)])%list.
Proof.
  destruct (handler_gate_cases env req w) as [Hb | [He Hg]].
  - left. now rewrite (proj1 (handler_before_gate env req w Hb)).
  - right. rewrite (handler_after_gate env req w He Hg). cbv zeta.
    destruct (insertError env).
    + left. cbn [snd]. apply otp_verifications_after_delete.
    + right.
      destruct (sendError env);
        cbn [snd otp_verifications set_outbox set_otp_verifications];
        now rewrite otp_verifications_after_delete.
Qed.

(** X13. A successful issuance leaves what the delete left of the code
    rows, followed by one new row: a row of the email, unverified, with no
    attempts, created at the time of the datastore and expiring ten minutes
    (600000 ms) after the time of the handler; when the delete took effect
    it is the only unverified row of the email.  One mail is added,
    addressed to the email, and it carries the code of that row; the
    allow-lists, profiles and accounts are as they were. *)
Theorem issued_row_and_mail (env : Env) (req : Request) (w w' : World)
        (resp : Response) :
  handler env req w = (resp, w') ->
  status resp = 200 ->
  exists row mail,
    otp_verifications w'
    = (after_delete env (email req) (otp_verifications w) ++ [row])%list
    /\ otp_email row = email req
    /\ verified row = false
    /\ attempts row = 0
    /\ created_at row = db_now env
    /\ expires_at row = now env + 600000
    /\ (deleteError env = false ->
        rows_for (email req) (filter (fun r => negb (verified r))
                                     (otp_verifications w')) = [row])
    /\ outbox w' = (outbox w ++ [mail])%list
    /\ mail_to mail = email req
    /\ mail_code mail = otp row
    /\ pre_registered_teachers w' = pre_registered_teachers w
    /\ pre_registered_students w' = pre_registered_students w
    /\ profiles w' = profiles w
    /\ auth_users w' = auth_users w
    /\ user_roles w' = user_roles w.
Proof.
  intros H Hs.
  pose proof (handler_success_table _ _ _ _ _ H Hs) as Ht.
  destruct (handler_gate_cases env req w) as [Hb | [He Hg]].
  - destruct (handler_before_gate env req w Hb) as [_ Hst].
    rewrite H in Hst. simpl in Hst. lia.
  - rewrite (handler_after_gate env req w He Hg) in H. cbv zeta in H.
    destruct (after_delete_fields env (email req) w)
      as (F1 & F2 & F3 & F4 & F5 & F6).
    destruct (insertError env); [inversion H; subst; discriminate Hs|].
    destruct (sendError env); inversion H; subst; [discriminate Hs|].
    exists (new_row env (email req) (generate_otp (random env))
                    (now env + 10 * 60 * 1000)).
    exists {| mail_to := email req;
              mail_subject :=
                if String.eqb (send_purpose req) "reset"
                then "Password Reset Code" else "Your Verification Code";
              mail_code := generate_otp (random env) |}.
    split; [exact Ht|].
    cbn [otp_email verified attempts created_at expires_at otp new_row
         mail_to mail_code].
    do 5 (split; [reflexivity|]).
    split.
    { intros Hd. rewrite Ht. unfold after_delete. rewrite Hd.
      unfold rows_for. rewrite !filter_app. simpl.
      rewrite String.eqb_refl.
      replace (filter _ (filter _ (delete_unverified _ _))) with (@nil OtpRow);
        [reflexivity|].
      symmetry. apply filter_none. intros r Hr.
      apply filter_In in Hr as [Hr Hv]. unfold delete_unverified in Hr.
      apply filter_In in Hr as [_ Hr]. unfold unverified_for in Hr.
      destruct (String.eqb (otp_email r) (email req)); [|reflexivity].
      destruct (verified r); discriminate. }
    cbn [outbox pre_registered_teachers pre_registered_students profiles
         auth_users user_roles set_outbox set_otp_verifications].
    rewrite F1, F2, F3, F4, F5, F6.
    repeat split; reflexivity.
Qed.

Lemma issued_row_and_mail_witness :
  exists row mail,
    rows_for "student@college.edu"
             (filter (fun r => negb (verified r))
                     (otp_verifications
                        (snd (handler Samples.send_env Samples.send_req
                                (Samples.world_of [Samples.old_verified])))))
    = [row]
    /\ created_at row = 2003
    /\ expires_at row = 602000
    /\ mail_code mail = otp row.
Proof.
  destruct (issued_row_and_mail
              Samples.send_env Samples.send_req
              (Samples.world_of [Samples.old_verified]) _ _ eq_refl eq_refl)
    as (row & mail & _ & _ & _ & _ & H3 & H4 & H1 & _ & _ & H2 & _).
  exists row, mail. repeat split; try assumption. exact (H1 eq_refl).
Defined.

(** X14. Whatever its outcome, an issuance request leaves the code rows of
    every other email as they were. *)
Theorem other_emails_untouched (env : Env) (req : Request) (w : World)
        (other : string) :
  other <> email req ->
  rows_for other (otp_verifications (snd (handler env req w)))
  = rows_for other (otp_verifications w).
Proof.
  intros Hne.
  destruct (handler_table_cases env req w) as [E | [E | E]]; rewrite E.
  - reflexivity.
  - now apply rows_for_other_after_delete.
  - unfold rows_for at 1. rewrite filter_app. simpl.
    destruct (String.eqb_spec (email req) other) as [E' | E'];
      [congruence|].
    rewrite app_nil_r. now apply rows_for_other_after_delete.
Qed.

Lemma other_emails_untouched_witness :
  rows_for "other@college.edu"
           (otp_verifications
              (snd (handler Samples.send_env Samples.send_req
                            (Samples.world_of [Samples2.pending_other]))))
  = [Samples2.pending_other].
Proof.
  apply (other_emails_untouched
           Samples.send_env Samples.send_req
           (Samples.world_of [Samples2.pending_other]) "other@college.edu").
  discriminate.
Defined.

(** X15. When the insert of the new row is refused, the request is answered
    with status 500 and no mail is sent; the code rows are what the delete
    left: the email has no pending code when the delete took effect, and
    the datastore is as it was when the delete failed too.  When the mail
    cannot be sent, the answer is status 500 with the mailer's message
    although the new row is stored. *)
Theorem issuance_failures (env : Env) (req : Request) (w : World) :
  email req <> "" -> gate env req w = None ->
  (insertError env = true ->
   fst (handler env req w)
   = {| status := 500; body := Error "Failed to generate OTP" None |}
   /\ otp_verifications (snd (handler env req w))
      = after_delete env (email req) (otp_verifications w)
   /\ (deleteError env = false ->
       filter (unverified_for (email req))
              (otp_verifications (snd (handler env req w))) = [])
   /\ (deleteError env = true -> snd (handler env req w) = w)
   /\ outbox (snd (handler env req w)) = outbox w)
  /\ (forall msg, insertError env = false -> sendError env = Some msg ->
      fst (handler env req w) = {| status := 500; body := Error msg None |}
      /\ otp_verifications (snd (handler env req w))
         = (after_delete env (email req) (otp_verifications w)
            ++ [new_row env (email req) (generate_otp (random env))
                        (now env + 600000)])%list
      /\ (deleteError env = false ->
          filter (unverified_for (email req))
                 (otp_verifications (snd (handler env req w)))
          = [new_row env (email req) (generate_otp (random env))
                     (now env + 600000)])
      /\ outbox (snd (handler env req w)) = outbox w).
Proof.
  intros He Hg. rewrite (handler_after_gate env req w He Hg). cbv zeta.
  destruct (after_delete_fields env (email req) w)
    as (_ & _ & _ & _ & _ & F6).
  pose proof (otp_verifications_after_delete env (email req) w) as Ht.
  split.
  - intros Hi. rewrite Hi. cbn [fst snd].
    split; [reflexivity|]. split; [exact Ht|]. split; [|split].
    + intros Hd. rewrite Ht. unfold after_delete. rewrite Hd.
      apply filter_unverified_deleted.
    + intros Hd. now rewrite Hd.
    + exact F6.
  - intros msg Hi Hm. rewrite Hi, Hm.
    cbn [fst snd otp_verifications outbox set_otp_verifications].
    rewrite Ht.
    split; [reflexivity|]. split; [reflexivity|]. split.
    + intros Hd. unfold after_delete. rewrite Hd.
      rewrite filter_app, filter_unverified_deleted.
      apply filter_unverified_new_row.
    + exact F6.
Qed.

Lemma issuance_failures_witness :
  filter (unverified_for "student@college.edu")
         (otp_verifications
            (snd (handler Samples2.send_env_refused Samples.send_req
                          (Samples.world_of [Samples.pending 601000 0]))))
  = [].
Proof.
  refine (proj1 (proj2 (proj2 (proj1 (issuance_failures
            Samples2.send_env_refused Samples.send_req
            (Samples.world_of [Samples.pending 601000 0]) _ eq_refl)
            eq_refl))) eq_refl).
  discriminate.
Defined.

End SendOtpEffects.

(* ================================================================= *)
(** ** Further properties of the verification *)

Section VerifyOtpSteps.
Import Store VerifyOtp Props.

(** The handler once the request is complete, the record is found, not
    expired and not exhausted: the comparison of the codes and what
    follows. *)
Lemma handler_compared (env : Env) (req : Request) (w : World) (r : OtpRow) :
  email req <> "" -> otp_given req <> "" -> fetchError env = false ->
  find_otp w (email req) = Some r ->
  now env <= expires_at r -> attempts r < 5 ->
  handler env req w
  = if negb (String.eqb (JS.trim (otp r)) (JS.trim (otp_given req)))
    then (invalid_otp (5 - (attempts r + 1)),
          if attemptsError env then w
          else set_otp_verifications w
                 (update_otp (otp_id r) (set_attempts (attempts r + 1))
                             (otp_verifications w)))
    else if String.eqb (verify_purpose req) "signup" && present (name req)
            && present (role req)
         then signup env req r
                     (match name req with Some n => n | None => "" end)
                     (match role req with Some x => x | None => "" end) w
         else if String.eqb (verify_purpose req) "reset"
              then reset env req r w
              else (verified_ok env, w).
Proof.
  intros He Ho Hf Hr Hx Ha. unfold handler.
  rewrite (present_fields req He Ho), Hf, Hr.
  destruct (Z.ltb_spec (expires_at r) (now env)); [lia|].
  destruct (Z.geb_spec (attempts r) 5); [lia|].
  reflexivity.
Qed.

Lemma filter_map_commute {A : Type} (p : A -> bool) (g : A -> A)
      (l : list A) :
  (forall x, p (g x) = p x) -> filter p (map g l) = map g (filter p l).
Proof.
  intros H. induction l as [|x l IH]; simpl; [reflexivity|].
  rewrite H. destruct (p x); simpl; now rewrite IH.
Qed.

Lemma latest_map (g : OtpRow -> OtpRow) (rows : list OtpRow) :
  (forall x, created_at (g x) = created_at x) ->
  latest (map g rows) = option_map g (latest rows).
Proof.
  intros H. induction rows as [|x rows IH]; simpl; [reflexivity|].
  rewrite IH. destruct (latest rows) as [r'|]; simpl; [|reflexivity].
  rewrite !H. now destruct (created_at r' >? created_at x).
Qed.

(** Updating the attempts of the record leaves it the record of the
    email. *)
Lemma find_otp_set_attempts (w : World) (e : string) (r : OtpRow) (n : Z) :
  find_otp w e = Some r ->
  find_otp (set_otp_verifications w
              (update_otp (otp_id r) (set_attempts n) (otp_verifications w)))
           e
  = Some (set_attempts n r).
Proof.
  unfold find_otp, update_otp. simpl. intros H.
  rewrite filter_map_commute.
  - rewrite latest_map.
    + rewrite H. simpl. now rewrite String.eqb_refl.
    + intros x. now destruct (String.eqb (otp_id x) (otp_id r)).
  - intros x. now destruct (String.eqb (otp_id x) (otp_id r)).
Qed.

Lemma update_otp_other (id : string) (g : OtpRow -> OtpRow)
      (table : list OtpRow) (x : OtpRow) :
  In x table -> otp_id x <> id -> In x (update_otp id g table).
Proof.
  intros Hin Hne. unfold update_otp. apply in_map_iff.
  exists x. split; [|assumption].
  apply String.eqb_neq in Hne. now rewrite Hne.
Qed.

(** X17. A wrong code for a record that is not expired and has fewer than 5
    attempts is answered with status 400 and the number of attempts left (4
    minus the attempts so far; "too many failed attempts" when none is
    left), whether or not the update of the attempts takes effect.  When it
    does, the attempts of the record go up by one and it stays the record
    of the email; when it fails, which the handler does not look at, the
    datastore is as it was.  Rows with another key are as they were, and no
    account, role or profile is touched. *)
Theorem wrong_code_counted (env : Env) (req : Request) (w : World)
        (r : OtpRow) :
  email req <> "" -> otp_given req <> "" -> fetchError env = false ->
  find_otp w (email req) = Some r ->
  now env <= expires_at r -> attempts r < 5 ->
  JS.trim (otp r) <> JS.trim (otp_given req) ->
  let w' := snd (handler env req w) in
  fst (handler env req w) = invalid_otp (4 - attempts r)
  /\ status (fst (handler env req w)) = 400
  /\ (attempts r < 4 ->
      body (fst (handler env req w))
      = Error ("Invalid OTP. " ++ JS.toString (4 - attempts r)
               ++ " attempts remaining. Please check your email for the most recent code.")
              None)
  /\ (attemptsError env = false ->
      find_otp w' (email req) = Some (set_attempts (attempts r + 1) r))
  /\ (attemptsError env = true -> w' = w)
  /\ (forall x, In x (otp_verifications w) -> otp_id x <> otp_id r ->
                In x (otp_verifications w'))
  /\ auth_users w' = auth_users w
  /\ user_roles w' = user_roles w
  /\ profiles w' = profiles w.
Proof.
  intros He Ho Hf Hr Hx Ha Hne w'. subst w'.
  rewrite (handler_compared env req w r He Ho Hf Hr Hx Ha).
  apply String.eqb_neq in Hne. rewrite Hne. cbn [negb fst snd].
  replace (5 - (attempts r + 1)) with (4 - attempts r) by lia.
  split; [reflexivity|]. split; [reflexivity|]. split.
  { intros Hlt. unfold invalid_otp. cbn [body].
    destruct (Z.gtb_spec (4 - attempts r) 0); [reflexivity | lia]. }
  destruct (attemptsError env).
  - split; [discriminate|]. split; [reflexivity|]. repeat split. auto.
  - split; [intros _; now apply find_otp_set_attempts|].
    split; [discriminate|].
    split; [|repeat split].
    intros x Hin Hid. cbn [otp_verifications set_otp_verifications].
    now apply update_otp_other.
Qed.

Lemma wrong_code_counted_witness :
  fst (handler (Samples.verify_env 2000) (Samples.verify_req "000000" None)
               (Samples.world_of [Samples.pending 601000 1]))
  = invalid_otp 3
  /\ find_otp (snd (handler (Samples.verify_env 2000)
                            (Samples.verify_req "000000" None)
                            (Samples.world_of [Samples.pending 601000 1])))
              "student@college.edu"
     = Some (Samples.pending 601000 2).
Proof.
  pose proof (wrong_code_counted
                (Samples.verify_env 2000) (Samples.verify_req "000000" None)
                (Samples.world_of [Samples.pending 601000 1])
                (Samples.pending 601000 1)) as H.
  simpl in H.
  assert (E1 : "student@college.edu" <> "") by discriminate.
  assert (E2 : "000000" <> "") by discriminate.
  assert (E3 : 2000 <= 601000) by lia.
  assert (E4 : 1 < 5) by lia.
  assert (E5 : "482913" <> "000000") by discriminate.
  destruct (H E1 E2 eq_refl eq_refl E3 E4 E5) as (H1 & _ & _ & H2 & _).
  split; [exact H1 | exact (H2 eq_refl)].
Defined.

End VerifyOtpSteps.

Section VerifyOtpInvariant.
Import Store VerifyOtp Props.

Lemma signup_otp_table (env : Env) (req : Request) (r : OtpRow)
      (nm rl : string) (w : World) :
  otp_verifications (snd (signup env req r nm rl w)) = otp_verifications w
  \/ otp_verifications (snd (signup env req r nm rl w))
     = update_otp (otp_id r) set_verified (otp_verifications w).
Proof.
  unfold signup, try_mark_verified.
  destruct (some_user (listUsers env w) (email req)); [left; reflexivity|].
  destruct (signUpError env || _); [left; reflexivity|].
  destruct (verifiedError env);
    [left | right]; destruct (roleError env), (profileError env); reflexivity.
Qed.

Lemma reset_otp_table (env : Env) (req : Request) (r : OtpRow) (w : World) :
  otp_verifications (snd (reset env req r w)) = otp_verifications w
  \/ otp_verifications (snd (reset env req r w))
     = update_otp (otp_id r) set_verified (otp_verifications w).
Proof.
  unfold reset, try_mark_verified.
  destruct (find_user (listUsers env w) (email req)); [|left; reflexivity].
  destruct (updateError env); [left; reflexivity|].
  destruct (verifiedError env);
    [left | right]; destruct (flagError env); reflexivity.
Qed.

(** The code table a verification leaves. *)
Lemma handler_otp_cases (env : Env) (req : Request) (w : World) :
  otp_verifications (snd (handler env req w)) = otp_verifications w
  \/ exists r, find_otp w (email req) = Some r
               /\ (otp_verifications (snd (handler env req w))
                   = update_otp (otp_id r) (set_attempts (attempts r + 1))
                                (otp_verifications w)
                   \/ otp_verifications (snd (handler env req w))
                      = update_otp (otp_id r) set_verified
                                   (otp_verifications w)).
Proof.
  unfold handler.
  destruct (String.eqb (email req) "" || String.eqb (otp_given req) "");
    [left; reflexivity|].
  destruct (fetchError env); [left; reflexivity|].
  destruct (find_otp w (email req)) as [r|] eqn:Hr; [|left; reflexivity].
  destruct (expires_at r <? now env); [left; reflexivity|].
  destruct (attempts r >=? 5); [left; reflexivity|].
  destruct (negb _).
  - destruct (attemptsError env); [left; reflexivity|].
    right. exists r. split; [reflexivity | left; reflexivity].
  - destruct (_ && present (role req)).
    + destruct (signup_otp_table env req r
                  (match name req with Some n => n | None => "" end)
                  (match role req with Some r0 => r0 | None => "" end) w)
        as [E | E]; [left; exact E|].
      right. exists r. split; [reflexivity | right; exact E].
    + destruct (String.eqb _ "reset"); [|left; reflexivity].
      destruct (reset_otp_table env req r w) as [E | E]; [left; exact E|].
      right. exists r. split; [reflexivity | right; exact E].
Qed.

Lemma otp_progress_refl (r : OtpRow) : otp_progress r r.
Proof. unfold otp_progress. repeat split; auto. lia. Qed.

Lemma Forall2_map_update (P : OtpRow -> OtpRow -> Prop)
      (g : OtpRow -> OtpRow) (l : list OtpRow) :
  (forall x, In x l -> P x (g x)) -> Forall2 P l (map g l).
Proof.
  induction l as [|x l IH]; simpl; intros H; constructor; auto.
Qed.

(** X16. Verification never adds or deletes a code row and never alters the
    key, email, code, creation or expiry time of one; provided the keys are
    distinct, a verified row stays verified and the attempts of a row never
    decrease, whatever the request and its outcome. *)
Theorem verification_progress (env : Env) (req : Request) (w : World) :
  NoDup (map otp_id (otp_verifications w)) ->
  Forall2 otp_progress (otp_verifications w)
          (otp_verifications (snd (handler env req w))).
Proof.
  intros Hnd.
  destruct (handler_otp_cases env req w) as [E | (r & Hr & [E | E])];
    rewrite E.
  - rewrite <- (map_id (otp_verifications w)) at 2.
    apply Forall2_map_update. intros x _. apply otp_progress_refl.
  - apply Forall2_map_update. intros x Hx.
    destruct (String.eqb_spec (otp_id x) (otp_id r)) as [Hid | Hid];
      [|apply otp_progress_refl].
    assert (x = r).
    { apply find_otp_unverified in Hr as [Hin _].
      eapply NoDup_map_inj; eauto. }
    subst x. unfold otp_progress. simpl. repeat split; auto. lia.
  - apply Forall2_map_update. intros x Hx.
    destruct (String.eqb (otp_id x) (otp_id r)); [|apply otp_progress_refl].
    unfold otp_progress. simpl. repeat split; auto. lia.
Qed.

Lemma verification_progress_witness :
  Forall2 otp_progress
          [Samples.pending 601000 1; Samples.old_verified]
          (otp_verifications
             (snd (handler (Samples.verify_env 2000)
                           (Samples.verify_req "000000" None)
                           (Samples.world_of [Samples.pending 601000 1;
                                              Samples.old_verified])))).
Proof.
  apply (verification_progress
           (Samples.verify_env 2000) (Samples.verify_req "000000" None)
           (Samples.world_of [Samples.pending 601000 1; Samples.old_verified])).
  simpl. repeat constructor; simpl; intuition discriminate.
Defined.

Lemma set_attempts_same (r : OtpRow) : set_attempts (attempts r) r = r.
Proof. now destruct r. Qed.

Lemma set_attempts_twice (m n : Z) (r : OtpRow) :
  set_attempts n (set_attempts m r) = set_attempts n r.
Proof. reflexivity. Qed.

(** The effect of a run of wrong codes on the record of the email. *)
Lemma wrong_codes_counted (e code : string) (expires : Z)
      (steps : list (Env * Request)) :
  Forall (fun step =>
            email (snd step) = e /\ otp_given (snd step) <> ""
            /\ fetchError (fst step) = false
            /\ attemptsError (fst step) = false
            /\ now (fst step) <= expires
            /\ JS.trim code <> JS.trim (otp_given (snd step))) steps ->
  forall (w : World) (r : OtpRow),
    e <> "" ->
    find_otp w e = Some r -> expires_at r = expires -> otp r = code ->
    attempts r + Z.of_nat (List.length steps) <= 5 ->
    find_otp (verify_all steps w) e
    = Some (set_attempts (attempts r + Z.of_nat (List.length steps)) r).
Proof.
  induction 1 as [|[env req] steps Hstep _ IH]; intros w r He Hr Hx Hc Hlen.
  - simpl. now rewrite Z.add_0_r, set_attempts_same.
  - simpl in Hstep. destruct Hstep as (Hreq & Ho & Hf & Hup & Hnow & Hne).
    simpl List.length in *. simpl verify_all.
    assert (Hstep : find_otp (snd (handler env req w)) e
                    = Some (set_attempts (attempts r + 1) r)).
    { subst e. rewrite (handler_compared env req w r) by (auto; lia).
      rewrite Hc. apply String.eqb_neq in Hne. rewrite Hne, Hup.
      cbn [negb snd]. now apply find_otp_set_attempts. }
    rewrite (IH _ _ He Hstep) by (simpl; auto; lia).
    simpl attempts. rewrite set_attempts_twice. f_equal. f_equal. lia.
Qed.

(** X18. Five wrong codes in a row exhaust a fresh code, provided each
    update of the attempts takes effect: when the wrong submissions bring
    the attempts of the record to 5, every later request for the email, the
    one with the right code included, is refused with an error and changes
    nothing. *)
Theorem five_wrong_codes_lock (e : string) (steps : list (Env * Request))
        (w : World) (r : OtpRow) (env : Env) (req : Request) :
  e <> "" ->
  find_otp w e = Some r ->
  Forall (fun step =>
            email (snd step) = e /\ otp_given (snd step) <> ""
            /\ fetchError (fst step) = false
            /\ attemptsError (fst step) = false
            /\ now (fst step) <= expires_at r
            /\ JS.trim (otp r) <> JS.trim (otp_given (snd step))) steps ->
  attempts r + Z.of_nat (List.length steps) = 5 ->
  email req = e ->
  status (fst (handler env req (verify_all steps w))) <> 200
  /\ (exists msg c,
         body (fst (handler env req (verify_all steps w))) = Error msg c)
  /\ snd (handler env req (verify_all steps w)) = verify_all steps w.
Proof.
  intros He Hr Hsteps Hlen Hreq.
  pose proof (wrong_codes_counted e (otp r) (expires_at r) steps Hsteps
                                  w r He Hr eq_refl eq_refl) as Hfind.
  rewrite Hlen in Hfind. specialize (Hfind (Z.le_refl 5)).
  rewrite <- Hreq in Hfind.
  rewrite (handler_exhausted env req _ _ Hfind) by (simpl; lia).
  cbn [fst snd]. split; [|split; [|reflexivity]].
  - repeat match goal with
           | |- context [if ?b then _ else _] => destruct b
           end; discriminate.
  - repeat match goal with
           | |- context [if ?b then _ else _] => destruct b
           end; eexists; eexists; reflexivity.
Qed.

(** When one of the updates is lost the record stays below 5 attempts and
    the right code is still accepted. *)
Remark lost_update_leaves_code_open :
  fst (handler (Samples.verify_env 3000) (Samples.verify_req "482913" None)
               (verify_all Samples2.five_wrong_one_lost
                           (Samples.world_of [Samples.pending 601000 0])))
  = verified_ok (Samples.verify_env 3000).
Proof. reflexivity. Qed.

Lemma five_wrong_codes_lock_witness :
  fst (handler (Samples.verify_env 3000) (Samples.verify_req "482913" None)
               (verify_all Samples2.five_wrong
                           (Samples.world_of [Samples.pending 601000 0])))
  = too_many_attempts.
Proof.
  destruct (five_wrong_codes_lock
              "student@college.edu" Samples2.five_wrong
              (Samples.world_of [Samples.pending 601000 0])
              (Samples.pending 601000 0)
              (Samples.verify_env 3000) (Samples.verify_req "482913" None))
    as (_ & _ & _).
  - discriminate.
  - reflexivity.
  - unfold Samples2.five_wrong.
    repeat constructor; simpl; try discriminate; lia.
  - reflexivity.
  - reflexivity.
  - reflexivity.
Defined.

End VerifyOtpInvariant.

Section VerifyOtpAccounts.
Import Store VerifyOtp Props.

Lemma present_some (x : option string) (s : string) :
  x = Some s -> s <> "" -> present x = true.
Proof.
  intros -> Hs. simpl. apply negb_true_iff. now apply String.eqb_neq.
Qed.

Lemma no_account_some_user (users : list AuthUser) (e : string) :
  (forall u, In u users -> user_email u <> e) ->
  some_user users e = false.
Proof.
  intros H. apply not_true_iff_false. intros E.
  apply existsb_exists in E as (u & Hu & Heq).
  apply String.eqb_eq in Heq. now apply (H u).
Qed.

Lemma account_some_user (users : list AuthUser) (e : string) (u : AuthUser) :
  In u users -> user_email u = e -> some_user users e = true.
Proof.
  intros Hin He. apply existsb_exists. exists u. split; [assumption|].
  now apply String.eqb_eq.
Qed.

Lemma no_account_listed (env : Env) (w : World) (e : string) :
  (forall u, In u (auth_users w) -> user_email u <> e) ->
  some_user (listUsers env w) e = false.
Proof.
  intros H. apply no_account_some_user.
  intros u Hu. apply H. now apply (listUsers_In env).
Qed.

Lemma update_otp_In (id : string) (g : OtpRow -> OtpRow)
      (table : list OtpRow) (r : OtpRow) :
  In r table -> otp_id r = id -> In (g r) (update_otp id g table).
Proof.
  intros Hin Hid. unfold update_otp. apply in_map_iff.
  exists r. split; [|assumption]. subst id. now rewrite String.eqb_refl.
Qed.

(** The update that marks the record verified changes the code rows only,
    and those only when it takes effect. *)
Lemma try_mark_verified_fields (env : Env) (id : string) (w : World) :
  auth_users (try_mark_verified env id w) = auth_users w
  /\ user_roles (try_mark_verified env id w) = user_roles w
  /\ profiles (try_mark_verified env id w) = profiles w
  /\ otp_verifications (try_mark_verified env id w)
     = (if verifiedError env then otp_verifications w
        else update_otp id set_verified (otp_verifications w)).
Proof.
  unfold try_mark_verified. destruct (verifiedError env); repeat split.
Qed.

(** The signup branch when the account is created. *)
Lemma signup_created (env : Env) (req : Request) (r : OtpRow)
      (nm rl : string) (w : World) :
  (forall u, In u (auth_users w) -> user_email u <> email req) ->
  signUpError env = false ->
  fst (signup env req r nm rl w) = verified_ok env
  /\ auth_users (snd (signup env req r nm rl w))
     = (auth_users w
        ++ [ {| user_id := new_user_id env; user_email := email req;
                password := tempPassword env; meta_name := Some nm;
                meta_department := department req |} ])%list
  /\ user_roles (snd (signup env req r nm rl w))
     = (if roleError env then user_roles w
        else (user_roles w
              ++ [ {| role_user_id := new_user_id env; user_role := rl |} ])%list)
  /\ otp_verifications (snd (signup env req r nm rl w))
     = (if verifiedError env then otp_verifications w
        else update_otp (otp_id r) set_verified (otp_verifications w))
  /\ exists p, In p (profiles (snd (signup env req r nm rl w)))
               /\ profile_id p = new_user_id env
               /\ profile_email p = email req
               /\ profile_name p = nm
               /\ temp_password_used p = false.
Proof.
  intros Hnone Hs. unfold signup.
  rewrite (no_account_listed env w (email req) Hnone), Hs.
  rewrite (no_account_some_user _ _ Hnone).
  cbn [fst snd orb]. split; [reflexivity|].
  match goal with
  | |- context [try_mark_verified env ?i ?x] =>
      destruct (try_mark_verified_fields env i x) as (-> & -> & -> & ->)
  end.
  destruct (roleError env), (profileError env);
    cbn [auth_users user_roles otp_verifications profiles
         set_otp_verifications set_profiles set_user_roles set_auth_users];
    (split; [reflexivity|]); (split; [reflexivity|]);
    (split; [reflexivity|]).
  - eexists. split; [apply in_or_app; right; left; reflexivity|].
    repeat split.
  - eexists. split.
    + unfold update_profile. apply in_map_iff. eexists. split; [reflexivity|].
      apply in_or_app. right. left. reflexivity.
    + cbn [profile_id]. rewrite String.eqb_refl. repeat split.
  - eexists. split; [apply in_or_app; right; left; reflexivity|].
    repeat split.
  - eexists. split.
    + unfold update_profile. apply in_map_iff. eexists. split; [reflexivity|].
      apply in_or_app. right. left. reflexivity.
    + cbn [profile_id]. rewrite String.eqb_refl. repeat split.
Qed.

(** X19. A signup request with the right code for a record that is not
    expired nor exhausted, for an email without account, is answered with
    status 200 and the temporary password; one account is added, with that
    email and that password; one role row is added for it unless the role
    insert fails, which does not fail the request; a profile of the new
    account exists; and the record is marked verified when the update that
    marks it takes effect, the code rows staying as they were when it
    fails. *)
Theorem signup_creates_account (env : Env) (req : Request) (w : World)
        (r : OtpRow) (nm rl : string) :
  email req <> "" -> otp_given req <> "" -> fetchError env = false ->
  find_otp w (email req) = Some r ->
  now env <= expires_at r -> attempts r < 5 ->
  JS.trim (otp r) = JS.trim (otp_given req) ->
  verify_purpose req = "signup" ->
  name req = Some nm -> nm <> "" -> role req = Some rl -> rl <> "" ->
  (forall u, In u (auth_users w) -> user_email u <> email req) ->
  signUpError env = false ->
  let w' := snd (handler env req w) in
  fst (handler env req w)
  = {| status := 200;
       body := Ok "OTP verified successfully" (Some (tempPassword env)) |}
  /\ auth_users w'
     = (auth_users w
        ++ [ {| user_id := new_user_id env; user_email := email req;
                password := tempPassword env; meta_name := Some nm;
                meta_department := department req |} ])%list
  /\ user_roles w'
     = (if roleError env then user_roles w
        else (user_roles w
              ++ [ {| role_user_id := new_user_id env; user_role := rl |} ])%list)
  /\ (verifiedError env = false -> In (set_verified r) (otp_verifications w'))
  /\ (verifiedError env = true -> otp_verifications w' = otp_verifications w)
  /\ exists p, In p (profiles w')
               /\ profile_id p = new_user_id env
               /\ profile_email p = email req
               /\ profile_name p = nm
               /\ temp_password_used p = false.
Proof.
  intros He Ho Hf Hr Hx Ha Hc Hp Hn Hnm Hrl Hrl' Hnone Hs w'. subst w'.
  rewrite (handler_compared env req w r He Ho Hf Hr Hx Ha).
  rewrite Hc, String.eqb_refl, Hp.
  rewrite (present_some _ _ Hn Hnm), (present_some _ _ Hrl Hrl').
  change (("signup" =? "signup")%string) with true.
  cbn [negb andb]. rewrite Hn, Hrl.
  destruct (signup_created env req r nm rl w Hnone Hs)
    as (H1 & H2 & H3 & H4 & H5).
  split; [exact H1|]. split; [exact H2|]. split; [exact H3|].
  split; [|split; [|exact H5]].
  - intros Hv. rewrite H4, Hv. apply update_otp_In; [|reflexivity].
    now apply find_otp_unverified in Hr.
  - intros Hv. now rewrite H4, Hv.
Qed.

Lemma signup_creates_account_witness :
  fst (handler (Samples.verify_env 2000) Samples2.signup_req
               (Samples.world_of [Samples.pending 601000 0]))
  = {| status := 200;
       body := Ok "OTP verified successfully"
                  (Some "k3j9x0q2m5p1a8b7c6d4e2f0") |}.
Proof.
  refine (proj1 (signup_creates_account
                   (Samples.verify_env 2000) Samples2.signup_req
                   (Samples.world_of [Samples.pending 601000 0])
                   (Samples.pending 601000 0) "Asha" "student"
                   _ _ eq_refl eq_refl _ _ eq_refl eq_refl eq_refl _
                   eq_refl _ _ eq_refl)).
  - discriminate.
  - discriminate.
  - simpl. lia.
  - simpl. lia.
  - discriminate.
  - discriminate.
  - intros u [].
Defined.

(** X20. A signup request with the right code for an email that already has
    an account changes nothing: no account is added and the record stays
    unverified, with its attempts as they were.  It is refused with status
    400 when the account is among those the listing returns, and with
    status 500 "Failed to create user account" when the listing fails or
    does not hold an account of the email, the creation being tried and
    refused. *)
Theorem signup_refuses_existing (env : Env) (req : Request) (w : World)
        (r : OtpRow) (nm rl : string) (u : AuthUser) :
  email req <> "" -> otp_given req <> "" -> fetchError env = false ->
  find_otp w (email req) = Some r ->
  now env <= expires_at r -> attempts r < 5 ->
  JS.trim (otp r) = JS.trim (otp_given req) ->
  verify_purpose req = "signup" ->
  name req = Some nm -> nm <> "" -> role req = Some rl -> rl <> "" ->
  In u (auth_users w) -> user_email u = email req ->
  snd (handler env req w) = w
  /\ (In u (listUsers env w) ->
      handler env req w
      = ({| status := 400;
            body := Error "A user with this email already exists. Please login instead."
                          None |},
         w))
  /\ ((forall x, In x (listUsers env w) -> user_email x <> email req) ->
      handler env req w
      = ({| status := 500;
            body := Error "Failed to create user account" None |},
         w)).
Proof.
  intros He Ho Hf Hr Hx Ha Hc Hp Hn Hnm Hrl Hrl' Hu Hue.
  rewrite (handler_compared env req w r He Ho Hf Hr Hx Ha).
  rewrite Hc, String.eqb_refl, Hp.
  rewrite (present_some _ _ Hn Hnm), (present_some _ _ Hrl Hrl').
  change (("signup" =? "signup")%string) with true.
  cbn [negb andb]. unfold signup.
  rewrite (account_some_user (auth_users w) _ u Hu Hue), orb_true_r.
  split; [|split].
  - now destruct (some_user (listUsers env w) (email req)).
  - intros Hl. now rewrite (account_some_user _ _ u Hl Hue).
  - intros Hl. now rewrite (no_account_some_user _ _ Hl).
Qed.

Lemma signup_refuses_existing_witness :
  handler (Samples.verify_env 2000) Samples2.signup_req
          Samples2.world_with_account
  = ({| status := 400;
        body := Error "A user with this email already exists. Please login instead."
                      None |},
     Samples2.world_with_account).
Proof.
  refine (proj1 (proj2 (signup_refuses_existing
                   (Samples.verify_env 2000) Samples2.signup_req
                   Samples2.world_with_account
                   (Samples.pending 601000 0) "Asha" "student"
                   Samples2.account
                   _ _ eq_refl eq_refl _ _ eq_refl eq_refl eq_refl _
                   eq_refl _ _ eq_refl)) _).
  - discriminate.
  - discriminate.
  - simpl. lia.
  - simpl. lia.
  - discriminate.
  - discriminate.
  - left. reflexivity.
  - left. reflexivity.
Defined.

End VerifyOtpAccounts.

Section VerifyOtpReset.
Import Store VerifyOtp Props.

Lemma find_user_In (users : list AuthUser) (e : string) (u : AuthUser) :
  find_user users e = Some u -> In u users /\ user_email u = e.
Proof.
  unfold find_user. intros H. apply find_some in H as [Hin He].
  now apply String.eqb_eq in He.
Qed.

(** The handler on a reset request with the right code. *)
Lemma handler_reset (env : Env) (req : Request) (w : World) (r : OtpRow) :
  email req <> "" -> otp_given req <> "" -> fetchError env = false ->
  find_otp w (email req) = Some r ->
  now env <= expires_at r -> attempts r < 5 ->
  JS.trim (otp r) = JS.trim (otp_given req) ->
  verify_purpose req = "reset" ->
  handler env req w = reset env req r w.
Proof.
  intros He Ho Hf Hr Hx Ha Hc Hp.
  rewrite (handler_compared env req w r He Ho Hf Hr Hx Ha).
  rewrite Hc, String.eqb_refl, Hp.
  change (("reset" =? "signup")%string) with false.
  change (("reset" =? "reset")%string) with true.
  reflexivity.
Qed.

(** X21. A reset request with the right code, for an email whose account
    is found in the listing of the accounts, replaces the password of that
    account by the temporary password it answers with and leaves the emails
    of the accounts, the accounts with another key and the roles as they
    were; it clears the "temporary password used" flag of the profile and
    marks the record verified when these two updates, whose outcome the
    handler does not look at, take effect, and leaves the profiles and the
    code rows as they were when they fail.  When the password update fails
    it answers with status 500 and changes nothing; when the listing fails
    or does not hold an account of the email it answers with status 200 and
    a temporary password, and changes nothing. *)
Theorem reset_replaces_password (env : Env) (req : Request) (w : World)
        (r : OtpRow) :
  email req <> "" -> otp_given req <> "" -> fetchError env = false ->
  find_otp w (email req) = Some r ->
  now env <= expires_at r -> attempts r < 5 ->
  JS.trim (otp r) = JS.trim (otp_given req) ->
  verify_purpose req = "reset" ->
  let w' := snd (handler env req w) in
  (forall u, find_user (listUsers env w) (email req) = Some u ->
     In u (auth_users w) /\ user_email u = email req
     /\ (updateError env = true ->
         handler env req w
         = ({| status := 500;
               body := Error "Failed to update password" None |}, w))
     /\ (updateError env = false ->
         fst (handler env req w)
         = {| status := 200;
              body := Ok "OTP verified successfully"
                         (Some (tempPassword env)) |}
         /\ In (set_password (tempPassword env) u) (auth_users w')
         /\ (forall x, In x (auth_users w) -> user_id x <> user_id u ->
                       In x (auth_users w'))
         /\ map user_email (auth_users w') = map user_email (auth_users w)
         /\ (flagError env = false ->
             forall p, In p (profiles w') -> profile_id p = user_id u ->
                       temp_password_used p = false)
         /\ (flagError env = true -> profiles w' = profiles w)
         /\ (verifiedError env = false ->
             In (set_verified r) (otp_verifications w'))
         /\ (verifiedError env = true ->
             otp_verifications w' = otp_verifications w)
         /\ user_roles w' = user_roles w))
  /\ (find_user (listUsers env w) (email req) = None ->
      handler env req w
      = ({| status := 200;
            body := Ok "OTP verified successfully"
                       (Some (tempPassword env)) |}, w)).
Proof.
  intros He Ho Hf Hr Hx Ha Hc Hp w'. subst w'.
  rewrite (handler_reset env req w r He Ho Hf Hr Hx Ha Hc Hp).
  unfold reset. split.
  2:{ intros ->. reflexivity. }
  intros u Hu. rewrite Hu.
  destruct (find_user_In _ _ _ Hu) as [Hin Hue].
  apply listUsers_In in Hin.
  split; [exact Hin|]. split; [exact Hue|].
  split; intros He'; rewrite He'; [reflexivity|].
  cbn [fst snd].
  match goal with
  | |- context [try_mark_verified env ?i ?x] =>
      destruct (try_mark_verified_fields env i x) as (-> & -> & -> & ->)
  end.
  split; [reflexivity|]. split.
  { destruct (flagError env);
      cbn [auth_users set_profiles set_auth_users];
      apply in_map_iff; exists u; (split; [|assumption]);
      now rewrite String.eqb_refl. }
  split.
  { intros x Hx' Hid.
    destruct (flagError env);
      cbn [auth_users set_profiles set_auth_users];
      apply in_map_iff; exists x; (split; [|assumption]);
      apply String.eqb_neq in Hid; now rewrite Hid. }
  split.
  { destruct (flagError env);
      cbn [auth_users set_profiles set_auth_users];
      rewrite map_map; apply map_ext; intros x;
      now destruct (String.eqb (user_id x) (user_id u)). }
  split.
  { intros -> p Hp' Hid.
    cbn [profiles set_profiles set_auth_users] in Hp'.
    unfold update_profile in Hp'.
    apply in_map_iff in Hp' as (q & <- & _).
    destruct (String.eqb_spec (profile_id q) (user_id u)) as [E | E];
      [reflexivity|].
    exfalso. apply E. revert Hid.
    destruct (String.eqb_spec (profile_id q) (user_id u)); congruence. }
  split.
  { intros ->. reflexivity. }
  split.
  { intros ->. destruct (flagError env);
      cbn [otp_verifications set_profiles set_auth_users];
      (apply update_otp_In; [|reflexivity]);
      now apply find_otp_unverified in Hr. }
  split.
  { intros ->. now destruct (flagError env). }
  now destruct (flagError env).
Qed.

Lemma reset_replaces_password_witness :
  In (set_password "k3j9x0q2m5p1a8b7c6d4e2f0" Samples2.account)
     (auth_users
        (snd (handler (Samples.verify_env 2000)
                      (Samples.verify_req "482913" (Some "reset"))
                      Samples2.world_with_account))).
Proof.
  refine (proj1 (proj2 (proj2 (proj2 (proj2 (proj1 (reset_replaces_password
            (Samples.verify_env 2000)
            (Samples.verify_req "482913" (Some "reset"))
            Samples2.world_with_account (Samples.pending 601000 0)
            _ _ eq_refl eq_refl _ _ eq_refl eq_refl)
            Samples2.account eq_refl))) eq_refl))).
  - discriminate.
  - discriminate.
  - simpl. lia.
  - simpl. lia.
Defined.

(** X22. A verification request whose purpose is "signup" but which names
    no name or no role, and one whose purpose is neither "signup" nor
    "reset", is answered with status 200 and a temporary password when the
    code is right, although no account is created or changed and the record
    stays unverified. *)
Theorem success_without_effect (env : Env) (req : Request) (w : World)
        (r : OtpRow) :
  email req <> "" -> otp_given req <> "" -> fetchError env = false ->
  find_otp w (email req) = Some r ->
  now env <= expires_at r -> attempts r < 5 ->
  JS.trim (otp r) = JS.trim (otp_given req) ->
  verify_purpose req <> "reset" ->
  verify_purpose req <> "signup" \/ present (name req) = false
  \/ present (role req) = false ->
  handler env req w
  = ({| status := 200;
        body := Ok "OTP verified successfully" (Some (tempPassword env)) |},
     w).
Proof.
  intros He Ho Hf Hr Hx Ha Hc Hp Hmiss.
  rewrite (handler_compared env req w r He Ho Hf Hr Hx Ha).
  rewrite Hc, String.eqb_refl. cbn [negb].
  apply String.eqb_neq in Hp. rewrite Hp.
  replace (String.eqb (verify_purpose req) "signup" && present (name req)
           && present (role req)) with false; [reflexivity|].
  symmetry. destruct Hmiss as [H | [H | H]].
  - apply String.eqb_neq in H. now rewrite H.
  - rewrite H. now rewrite andb_false_r.
  - rewrite H. apply andb_false_r.
Qed.

Lemma success_without_effect_witness :
  handler (Samples.verify_env 2000) (Samples.verify_req "482913" None)
          (Samples.world_of [Samples.pending 601000 0])
  = ({| status := 200;
        body := Ok "OTP verified successfully"
                   (Some "k3j9x0q2m5p1a8b7c6d4e2f0") |},
     Samples.world_of [Samples.pending 601000 0]).
Proof.
  refine (success_without_effect
            (Samples.verify_env 2000) (Samples.verify_req "482913" None)
            (Samples.world_of [Samples.pending 601000 0])
            (Samples.pending 601000 0)
            _ _ eq_refl eq_refl _ _ eq_refl _ _).
  - discriminate.
  - discriminate.
  - simpl. lia.
  - simpl. lia.
  - discriminate.
  - right. left. reflexivity.
Defined.

End VerifyOtpReset.

(* ================================================================= *)
(** ** Issuance followed by verification *)

Section IssueThenVerify.
Import Store Props.

Lemma digits_nonempty (fuel : nat) (n : Z) (acc : string) :
  JS.digits fuel n acc <> "".
Proof.
  revert n acc. induction fuel as [|fuel IH]; intros n acc.
  - simpl. discriminate.
  - rewrite digits_step. destruct (n <? 10); [discriminate | apply IH].
Qed.

Lemma toString_nonempty (n : Z) : JS.toString n <> "".
Proof.
  unfold JS.toString. destruct (n <? 0); [discriminate|].
  apply digits_nonempty.
Qed.

(** A row created after all the others is the latest. *)
Lemma latest_newest (rows : list OtpRow) (r : OtpRow) :
  (forall x, In x rows -> created_at x < created_at r) ->
  VerifyOtp.latest (rows ++ [r]) = Some r.
Proof.
  induction rows as [|x rows IH]; intros H; simpl; [reflexivity|].
  rewrite IH by (intros y Hy; apply H; now right).
  destruct (Z.gtb_spec (created_at r) (created_at x)); [reflexivity|].
  specialize (H x (or_introl eq_refl)). lia.
Qed.

(** After a successful issuance the record of the email is the new row,
    provided the unverified rows the delete left, if any, were created
    before it. *)
Lemma find_otp_issued (env : SendOtp.Env) (req : SendOtp.Request)
      (w w' : World) (resp : Response) :
  SendOtp.handler env req w = (resp, w') ->
  status resp = 200 ->
  (forall x, In x (SendOtp.after_delete env (SendOtp.email req)
                                        (otp_verifications w)) ->
             unverified_for (SendOtp.email req) x = true ->
             created_at x < SendOtp.db_now env) ->
  VerifyOtp.find_otp w' (SendOtp.email req)
  = Some (SendOtp.new_row env (SendOtp.email req)
                          (SendOtp.generate_otp (SendOtp.random env))
                          (SendOtp.now env + 10 * 60 * 1000))
  /\ auth_users w' = auth_users w
  /\ SendOtp.email req <> "".
Proof.
  intros H Hs Hold. unfold VerifyOtp.find_otp.
  rewrite (handler_success_table _ _ _ _ _ H Hs).
  rewrite filter_app, filter_unverified_new_row.
  split.
  { apply latest_newest. intros x Hx. apply filter_In in Hx as [Hin Hu].
    cbn [created_at SendOtp.new_row]. now apply Hold. }
  destruct (handler_gate_cases env req w) as [Hb | [He Hg]].
  - destruct (handler_before_gate env req w Hb) as [_ Hst].
    rewrite H in Hst. simpl in Hst. lia.
  - split; [|exact He].
    rewrite (handler_after_gate env req w He Hg) in H. cbv zeta in H.
    destruct (after_delete_fields env (SendOtp.email req) w)
      as (_ & _ & _ & F4 & _).
    destruct (SendOtp.insertError env); [inversion H; subst; discriminate Hs|].
    destruct (SendOtp.sendError env); inversion H; subst; exact F4.
Qed.

(** When the delete took effect no unverified row of the email is left. *)
Lemma after_delete_none (env : SendOtp.Env) (e : string)
      (table : list OtpRow) (x : OtpRow) :
  SendOtp.deleteError env = false ->
  In x (SendOtp.after_delete env e table) -> unverified_for e x = true ->
  False.
Proof.
  intros Hd Hin Hu. unfold SendOtp.after_delete in Hin. rewrite Hd in Hin.
  assert (Hx : In x (filter (unverified_for e)
                            (SendOtp.delete_unverified e table)))
    by now apply filter_In.
  now rewrite filter_unverified_deleted in Hx.
Qed.

(** Once the only unverified row of an email is marked verified the email
    has no record. *)
Lemma find_otp_after_verified (w : World) (e : string) (r : OtpRow) :
  filter (unverified_for e) (otp_verifications w) = [r] ->
  forall w', otp_verifications w'
             = VerifyOtp.update_otp (otp_id r) VerifyOtp.set_verified
                                    (otp_verifications w) ->
  VerifyOtp.find_otp w' e = None.
Proof.
  intros Hone w' Hw'. unfold VerifyOtp.find_otp. rewrite Hw'.
  replace (filter _ _) with (@nil OtpRow); [reflexivity|].
  symmetry. apply filter_none. intros x Hx.
  unfold VerifyOtp.update_otp in Hx.
  apply in_map_iff in Hx as (y & <- & Hy).
  destruct (String.eqb_spec (otp_id y) (otp_id r)) as [E | E].
  - unfold unverified_for. simpl. apply andb_false_r.
  - apply not_true_iff_false. intros Hu.
    assert (Hin : In y (filter (unverified_for e) (otp_verifications w)))
      by now apply filter_In.
    rewrite Hone in Hin. destruct Hin as [-> | []]. congruence.
Qed.

(** X23. The code of a successful signup issuance works once, provided the
    delete of the issuance and the update that marks the record verified
    take effect.  A signup verification with the mailed code, not later
    than ten minutes after the issuance, for an email without account, is
    answered with status 200 and creates the account; the same request sent
    again finds no code and is answered with status 404. *)
Theorem issued_code_works_once
        (senv : SendOtp.Env) (sreq : SendOtp.Request) (w w1 : World)
        (resp : Response) (venv venv' : VerifyOtp.Env)
        (vreq : VerifyOtp.Request) (nm rl : string) :
  SendOtp.handler senv sreq w = (resp, w1) ->
  status resp = 200 ->
  SendOtp.deleteError senv = false ->
  VerifyOtp.email vreq = SendOtp.email sreq ->
  VerifyOtp.otp_given vreq = SendOtp.generate_otp (SendOtp.random senv) ->
  verify_purpose vreq = "signup" ->
  VerifyOtp.name vreq = Some nm -> nm <> "" ->
  VerifyOtp.role vreq = Some rl -> rl <> "" ->
  VerifyOtp.fetchError venv = false ->
  VerifyOtp.signUpError venv = false ->
  VerifyOtp.verifiedError venv = false ->
  VerifyOtp.now venv <= SendOtp.now senv + 600000 ->
  (forall u, In u (auth_users w) -> user_email u <> SendOtp.email sreq) ->
  VerifyOtp.fetchError venv' = false ->
  let w2 := snd (VerifyOtp.handler venv vreq w1) in
  fst (VerifyOtp.handler venv vreq w1) = VerifyOtp.verified_ok venv
  /\ (exists u, In u (auth_users w2)
                /\ user_email u = SendOtp.email sreq
                /\ password u = VerifyOtp.tempPassword venv)
  /\ VerifyOtp.handler venv' vreq w2 = (VerifyOtp.no_otp_found, w2).
Proof.
  intros H Hs Hd Hve Hvo Hp Hn Hnm Hrl Hrl' Hf Hsu Hvf Hnow Hnone Hf' w2.
  destruct (find_otp_issued _ _ _ _ _ H Hs) as (Hfind & Hau & He).
  { intros x Hx Hu. exfalso. exact (after_delete_none _ _ _ _ Hd Hx Hu). }
  set (row := SendOtp.new_row _ _ _ _) in Hfind.
  assert (He' : VerifyOtp.email vreq <> "") by congruence.
  assert (Ho : VerifyOtp.otp_given vreq <> "").
  { rewrite Hvo. apply toString_nonempty. }
  rewrite <- Hve in Hfind.
  assert (Hcmp : VerifyOtp.handler venv vreq w1
                 = VerifyOtp.signup venv vreq row nm rl w1).
  { rewrite (handler_compared venv vreq w1 row He' Ho Hf Hfind)
      by (simpl; lia).
    replace (otp row) with (VerifyOtp.otp_given vreq) by exact Hvo.
    rewrite String.eqb_refl, Hp.
    rewrite (present_some _ _ Hn Hnm), (present_some _ _ Hrl Hrl').
    change (("signup" =? "signup")%string) with true.
    cbn [negb andb]. now rewrite Hn, Hrl. }
  assert (Hnone1 : forall u, In u (auth_users w1) ->
                             user_email u <> VerifyOtp.email vreq).
  { rewrite Hau, Hve. exact Hnone. }
  destruct (signup_created venv vreq row nm rl w1 Hnone1 Hsu)
    as (H1 & H2 & _ & H4 & _).
  rewrite Hvf in H4.
  subst w2. rewrite Hcmp.
  split; [exact H1|]. split.
  - eexists. split; [rewrite H2; apply in_or_app; right; left; reflexivity|].
    simpl. auto.
  - assert (Hgone : VerifyOtp.find_otp
                      (snd (VerifyOtp.signup venv vreq row nm rl w1))
                      (VerifyOtp.email vreq) = None).
    { apply (find_otp_after_verified w1 _ row); [|exact H4].
      rewrite Hve, (handler_success_table _ _ _ _ _ H Hs).
      unfold SendOtp.after_delete. rewrite Hd.
      rewrite filter_app, filter_unverified_deleted.
      apply filter_unverified_new_row. }
    unfold VerifyOtp.handler at 1.
    now rewrite (present_fields vreq He' Ho), Hf', Hgone.
Qed.

Lemma issued_code_works_once_witness :
  VerifyOtp.handler
    (Samples.verify_env 5000) Samples2.signup_req_issued
    (snd (VerifyOtp.handler
            (Samples.verify_env 3000) Samples2.signup_req_issued
            (snd (SendOtp.handler Samples.send_env Samples.send_req
                                  (Samples.world_of [])))))
  = (VerifyOtp.no_otp_found,
     snd (VerifyOtp.handler
            (Samples.verify_env 3000) Samples2.signup_req_issued
            (snd (SendOtp.handler Samples.send_env Samples.send_req
                                  (Samples.world_of []))))).
Proof.
  refine (proj2 (proj2 (issued_code_works_once
            Samples.send_env Samples.send_req (Samples.world_of []) _ _
            (Samples.verify_env 3000) (Samples.verify_env 5000)
            Samples2.signup_req_issued "Asha" "student"
            eq_refl eq_refl eq_refl eq_refl eq_refl eq_refl eq_refl _
            eq_refl _ eq_refl eq_refl eq_refl _ _ eq_refl))).
  - discriminate.
  - discriminate.
  - simpl. lia.
  - intros u [].
Defined.

(** X24. A code is good for ten minutes: after a successful issuance, a
    verification request for the email that arrives more than 600000 ms
    after the issuance is answered "OTP has expired" with status 400,
    whatever code it carries, and changes nothing.  The unverified rows of
    the email that the delete of the issuance left, none when it took
    effect, are taken to be created before the new row, as rows stamped by
    the clock of the datastore are. *)
Theorem issued_code_expires
        (senv : SendOtp.Env) (sreq : SendOtp.Request) (w w1 : World)
        (resp : Response) (venv : VerifyOtp.Env) (vreq : VerifyOtp.Request) :
  SendOtp.handler senv sreq w = (resp, w1) ->
  status resp = 200 ->
  (forall x, In x (SendOtp.after_delete senv (SendOtp.email sreq)
                                        (otp_verifications w)) ->
             unverified_for (SendOtp.email sreq) x = true ->
             created_at x < SendOtp.db_now senv) ->
  VerifyOtp.email vreq = SendOtp.email sreq ->
  VerifyOtp.otp_given vreq <> "" ->
  VerifyOtp.fetchError venv = false ->
  SendOtp.now senv + 600000 < VerifyOtp.now venv ->
  VerifyOtp.handler venv vreq w1
  = ({| status := 400; body := Error "OTP has expired" None |}, w1).
Proof.
  intros H Hs Hold Hve Ho Hf Hnow.
  destruct (find_otp_issued _ _ _ _ _ H Hs Hold) as (Hfind & _ & He).
  rewrite <- Hve in Hfind, He.
  unfold VerifyOtp.handler.
  rewrite (present_fields vreq He Ho), Hf, Hfind.
  cbn [expires_at SendOtp.new_row].
  destruct (Z.ltb_spec (SendOtp.now senv + 10 * 60 * 1000)
                       (VerifyOtp.now venv)); [reflexivity | lia].
Qed.

(** A stale row stamped later than the new one is the record found: the
    request is then answered on that row, here with a mismatch. *)
Remark later_stamped_row_found :
  fst (VerifyOtp.handler
         (Samples.verify_env 700000) Samples2.signup_req_issued
         (snd (SendOtp.handler Samples2.send_env_delete_failed
                               Samples.send_req
                               (Samples.world_of [Samples2.pending_later]))))
  = VerifyOtp.invalid_otp 4.
Proof. reflexivity. Qed.

Lemma issued_code_expires_witness :
  fst (VerifyOtp.handler
         (Samples.verify_env 700000) Samples2.signup_req_issued
         (snd (SendOtp.handler Samples2.send_env_delete_failed
                               Samples.send_req
                               (Samples.world_of
                                  [Samples.pending 9000000 0]))))
  = VerifyOtp.otp_expired.
Proof.
  refine (f_equal fst (issued_code_expires
            Samples2.send_env_delete_failed Samples.send_req
            (Samples.world_of [Samples.pending 9000000 0]) _ _
            (Samples.verify_env 700000) Samples2.signup_req_issued
            eq_refl eq_refl _ eq_refl _ eq_refl _)).
  - intros x [<- | []] _. simpl. lia.
  - discriminate.
  - simpl. lia.
Defined.

End IssueThenVerify.

(* ================================================================= *)
(** ** The parse-resume handler *)

Section ParseResumeHandlerFacts.
Import ParseResumeHandler.

Lemma handler_parsed_inv (env : Env) (req : Request) (table table' : list Profile)
      (skills : list string) :
  handler env req table = (Parsed skills, table') ->
  skills = ParseResume.clean_skills (extracted (toolCall env))
  /\ exists uid, user env = Some uid
                 /\ table' = update_profile uid skills (now env) table.
Proof.
  unfold handler.
  destruct (String.eqb (resumeText req) ""); [discriminate|].
  destruct (api_key env); [|discriminate].
  destruct (negb (ai_ok env)).
  { destruct (ai_status env =? 429); [discriminate|].
    destruct (ai_status env =? 402); discriminate. }
  destruct (toolCall env) as [| msg | sk]; try discriminate;
    (destruct (authorization req); [|discriminate]);
    (destruct (user env) as [uid|]; [|discriminate]);
    (destruct (updateError env); [discriminate|]);
    intros H; inversion H; subst; (split; [reflexivity|]);
    exists uid; split; reflexivity.
Qed.

(** X25. When parse-resume answers with success, the skills it answers with
    are the cleaned skills of the extraction and are what the profile of the
    authenticated user now holds; the profiles of the other users are as
    they were and no profile is added or removed. *)
Theorem parsed_skills_stored (env : Env) (req : Request)
        (table table' : list Profile) (skills : list string) :
  handler env req table = (Parsed skills, table') ->
  skills = ParseResume.clean_skills (extracted (toolCall env))
  /\ exists uid,
       user env = Some uid
       /\ (forall p, In p table' -> id p = uid -> resume_skills p = skills)
       /\ (forall p, In p table -> id p <> uid -> In p table')
       /\ map id table' = map id table.
Proof.
  intros H.
  destruct (handler_parsed_inv _ _ _ _ _ H) as (Hs & uid & Hu & ->).
  split; [exact Hs|]. exists uid. split; [exact Hu|].
  unfold update_profile. repeat split.
  - intros p Hp Hid. apply in_map_iff in Hp as (q & <- & _).
    destruct (String.eqb_spec (id q) uid) as [E | E]; [reflexivity|].
    revert Hid. destruct (String.eqb_spec (id q) uid); congruence.
  - intros p Hp Hid. apply in_map_iff. exists p. split; [|assumption].
    apply String.eqb_neq in Hid. now rewrite Hid.
  - rewrite map_map. apply map_ext. intros p.
    now destruct (String.eqb (id p) uid).
Qed.

Lemma parsed_skills_stored_witness :
  Samples3.parsed_skills
  = ParseResume.clean_skills (extracted (toolCall Samples3.parse_env)).
Proof.
  exact (proj1 (parsed_skills_stored
                  Samples3.parse_env Samples3.parse_req
                  Samples3.parse_table _ Samples3.parsed_skills eq_refl)).
Defined.

(** X26. Every failure of parse-resume leaves the profiles as they were, and
    its status is 400 (no resume text), 429 or 402 (handed on from the
    extraction service) or 500. *)
Theorem parse_failure_changes_nothing (env : Env) (req : Request)
        (table table' : list Profile) (st : Z) (msg : string) :
  handler env req table = (Failed st msg, table') ->
  table' = table
  /\ (st = 400 \/ st = 429 \/ st = 402 \/ st = 500)
  /\ (st = 400 <-> resumeText req = "")
  /\ (st = 429 \/ st = 402 -> ai_ok env = false /\ ai_status env = st).
Proof.
  unfold handler.
  destruct (String.eqb_spec (resumeText req) "") as [Et | Et].
  { intros H; inversion H; subst. repeat split; auto; lia. }
  destruct (api_key env).
  2:{ intros H; inversion H; subst. repeat split; auto; try lia; congruence. }
  destruct (ai_ok env); simpl negb; cbv iota.
  - destruct (toolCall env) as [| m | sk];
      try (intros H; inversion H; subst; repeat split; auto; try lia;
           congruence);
      (destruct (authorization req);
       [|intros H; inversion H; subst; repeat split; auto; try lia;
         congruence]);
      (destruct (user env);
       [|intros H; inversion H; subst; repeat split; auto; try lia;
         congruence]);
      (destruct (updateError env); [|discriminate]);
      intros H; inversion H; subst; repeat split; auto; try lia; congruence.
  - destruct (Z.eqb_spec (ai_status env) 429) as [E1 | E1].
    { intros H; inversion H; subst. repeat split; auto; try lia; congruence. }
    destruct (Z.eqb_spec (ai_status env) 402) as [E2 | E2].
    { intros H; inversion H; subst. repeat split; auto; try lia; congruence. }
    intros H; inversion H; subst. repeat split; auto; try lia; congruence.
Qed.

Lemma parse_failure_changes_nothing_witness :
  snd (handler Samples3.parse_env_limited Samples3.parse_req
               Samples3.parse_table)
  = Samples3.parse_table.
Proof.
  exact (proj1 (parse_failure_changes_nothing
                  Samples3.parse_env_limited Samples3.parse_req
                  Samples3.parse_table _ 429
                  "Rate limit exceeded. Please try again later." eq_refl)).
Defined.

End ParseResumeHandlerFacts.

(* ================================================================= *)
(** ** Placement resources *)

Section PlacementResourcesFacts.
Import PlacementResources Props.

Lemma generate_company (companyName : string) (r : Resource) :
  In r (generate companyName) -> company_name r = companyName.
Proof.
  unfold generate. simpl.
  intros [<- | [<- | [<- | [<- | [<- | []]]]]]; reflexivity.
Qed.

Lemma filter_generate (companyName : string) :
  filter (fun r => String.eqb (company_name r) companyName)
         (generate companyName)
  = generate companyName.
Proof.
  apply filter_all. intros r Hr.
  rewrite (generate_company _ _ Hr). apply String.eqb_refl.
Qed.

Lemma existing_after_insert (companyName : string) (table : list Resource) :
  existing companyName table = [] ->
  existing companyName (table ++ generate companyName)
  = generate companyName.
Proof.
  unfold existing. intros H. rewrite filter_app, filter_generate.
  assert (Hnil : filter (fun r => String.eqb (company_name r) companyName)
                        table = []).
  { destruct (filter _ table); [reflexivity | discriminate H]. }
  rewrite Hnil. reflexivity.
Qed.

(** X27. For a company with no stored resources the handler answers with
    five generated links, each stored under the company's name; when the
    insert succeeds, asking again answers with the same five links, now read
    from the table, and adds nothing; when the insert is refused the links
    are answered all the same and the table is as it was. *)
Theorem resources_generated_once (env env' : Env) (companyName : string)
        (table : list Resource) :
  companyName <> "" ->
  existing companyName table = [] ->
  selectError env' = false ->
  let table' := snd (handler env companyName table) in
  fst (handler env companyName table) = Resources (generate companyName)
  /\ List.length (generate companyName) = 5%nat
  /\ (forall r, In r (generate companyName) -> company_name r = companyName)
  /\ (insertError env = true -> table' = table)
  /\ (insertError env = false ->
      table' = (table ++ generate companyName)%list
      /\ handler env' companyName table'
         = (Resources (generate companyName), table')).
Proof.
  intros Hne Hex Hsel table'. subst table'.
  assert (H : handler env companyName table
              = (Resources (generate companyName),
                 if insertError env then table
                 else (table ++ generate companyName)%list)).
  { unfold handler. apply String.eqb_neq in Hne. rewrite Hne, Hex.
    now destruct (selectError env). }
  rewrite H. cbn [fst snd].
  split; [reflexivity|]. split; [reflexivity|].
  split; [apply generate_company|].
  split; intros Hi; rewrite Hi; [reflexivity|].
  split; [reflexivity|].
  unfold handler. apply String.eqb_neq in Hne. rewrite Hne, Hsel.
  now rewrite (existing_after_insert _ _ Hex).
Qed.

Lemma resources_generated_once_witness :
  handler (mkEnv false false) "Acme Corp"
          (snd (handler (mkEnv false false) "Acme Corp" []))
  = (Resources (generate "Acme Corp"),
     snd (handler (mkEnv false false) "Acme Corp" [])).
Proof.
  refine (proj2 (proj2 (proj2 (proj2 (proj2 (resources_generated_once
            (mkEnv false false) (mkEnv false false) "Acme Corp" []
            _ eq_refl eq_refl)))) eq_refl)).
  discriminate.
Defined.

Lemma contains_append (a b : string) (c : ascii) :
  Spec.contains (a ++ b) c <-> Spec.contains a c \/ Spec.contains b c.
Proof.
  unfold Spec.contains. induction a as [|x a IH]; simpl.
  - tauto.
  - rewrite IH. tauto.
Qed.

Lemma replace_spaces_contains (in_run : bool) (s : string) (c : ascii) :
  Spec.contains (replace_spaces in_run s) c -> JS.isWhiteSpace c = false.
Proof.
  unfold Spec.contains. revert in_run.
  induction s as [|x s IH]; intros in_run; simpl; [tauto|].
  destruct (JS.isWhiteSpace x) eqn:W.
  - destruct in_run; simpl; [apply IH|].
    intros [<- | H]; [reflexivity | now apply (IH true)].
  - simpl. intros [<- | H]; [exact W | now apply (IH false)].
Qed.

Lemma encode_char_safe (x : ascii) :
  forallb (fun c => unreserved c || Ascii.eqb c "%")
          (list_ascii_of_string (encode_char x)) = true.
Proof. destruct x as [[] [] [] [] [] [] [] []]; vm_compute; reflexivity. Qed.

Lemma unreserved_not_space (c : ascii) :
  unreserved c || Ascii.eqb c "%" = true -> JS.isWhiteSpace c = false.
Proof. destruct c as [[] [] [] [] [] [] [] []]; vm_compute; congruence. Qed.

Lemma encodeURIComponent_safe (s : string) (c : ascii) :
  Spec.contains (encodeURIComponent s) c ->
  unreserved c || Ascii.eqb c "%" = true.
Proof.
  induction s as [|x s IH]; simpl.
  - intros [].
  - rewrite contains_append. intros [H | H]; [|now apply IH].
    pose proof (encode_char_safe x) as Hx.
    rewrite forallb_forall in Hx. now apply Hx.
Qed.

Lemma literal_no_space (lit : string) (c : ascii) :
  forallb (fun x => negb (JS.isWhiteSpace x)) (list_ascii_of_string lit)
  = true ->
  Spec.contains lit c -> JS.isWhiteSpace c = false.
Proof.
  intros H Hc. rewrite forallb_forall in H.
  apply negb_true_iff. now apply H.
Qed.

(** The shape of the generated links. *)
Lemma generate_url_shape (companyName : string) (r : Resource) :
  In r (generate companyName) ->
  exists pre post,
    no_space pre = true /\ no_space post = true
    /\ (url r = pre ++ slug companyName ++ post
        \/ url r = pre ++ encodeURIComponent companyName).
Proof.
  unfold generate.
  intros [<- | [<- | [<- | [<- | [<- | []]]]]]; cbn [url].
  - exists "https://www.geeksforgeeks.org/", "-interview-experience/". auto.
  - exists "https://leetcode.com/company/", "/". auto.
  - exists "https://www.interviewbit.com/", "-interview-questions/". auto.
  - exists "https://www.glassdoor.com/Search/results.htm?keyword=", "". auto.
  - exists "https://prepinsta.com/", "-interview-questions/". auto.
Qed.

(** X28. None of the five generated links holds a white-space character,
    whatever the company name: white space in the name becomes hyphens in
    the four links built from the lower-cased name, and in the Glassdoor
    link the name is percent-encoded, every character after "keyword="
    being a letter, a digit, one of [- _ . ! ~ * ' ( )] or a percent
    sign. *)
Theorem generated_links_clean (companyName : string) (r : Resource)
        (c : ascii) :
  In r (generate companyName) ->
  (Spec.contains (url r) c -> JS.isWhiteSpace c = false)
  /\ (Spec.contains (slug companyName) c -> JS.isWhiteSpace c = false)
  /\ (Spec.contains (encodeURIComponent companyName) c ->
      unreserved c || Ascii.eqb c "%" = true).
Proof.
  intros Hr. split; [|split].
  - destruct (generate_url_shape _ _ Hr) as (pre & post & Hpre & Hpost & [E | E]);
      rewrite E, ?contains_append; intros H.
    + destruct H as [H | [H | H]].
      * now apply (literal_no_space pre).
      * now apply (replace_spaces_contains false _ c H).
      * now apply (literal_no_space post).
    + destruct H as [H | H].
      * now apply (literal_no_space pre).
      * apply unreserved_not_space.
        now apply (encodeURIComponent_safe companyName).
  - apply replace_spaces_contains.
  - apply encodeURIComponent_safe.
Qed.

Lemma generated_links_clean_witness :
  Spec.contains (slug "Tata  Consultancy Services") "-"
  /\ JS.isWhiteSpace "-" = false.
Proof.
  split.
  - unfold Spec.contains. vm_compute. tauto.
  - refine (proj1 (proj2 (generated_links_clean
              "Tata  Consultancy Services"
              (nth 0 (generate "Tata  Consultancy Services")
                   (mkResource "" "" "" "" ""))
              "-" (or_introl eq_refl))) _).
    unfold Spec.contains. vm_compute. tauto.
Defined.

End PlacementResourcesFacts.

(* ================================================================= *)
(** ** The announcement sheet *)

Section AnnouncementFacts.
Import Announcements.

Lemma add_NoDup (x : string) (set : list string) :
  NoDup set -> NoDup (add x set).
Proof.
  intros H. unfold add. destruct (existsb (String.eqb x) set) eqn:E.
  - exact H.
  - apply NoDup_app; [exact H | repeat constructor; intros [] |].
    intros y Hy [<- | []].
    apply not_true_iff_false in E. apply E.
    apply existsb_exists. exists x. split; [assumption | apply String.eqb_refl].
Qed.

Lemma add_In (x y : string) (set : list string) :
  In y (add x set) -> y = x \/ In y set.
Proof.
  unfold add. destruct (existsb (String.eqb x) set); [auto|].
  intros H. apply in_app_or in H as [H | [<- | []]]; auto.
Qed.

Lemma email_of_normal (cell : JS.value) (e : string) :
  email_of cell = Some e -> JS.toLowerCase e = e /\ JS.trim e = e.
Proof.
  unfold email_of. destruct (JS.truthy cell); [|discriminate].
  destruct (JS.as_string cell) as [s|]; [|discriminate].
  intros H. inversion H; subst. split.
  - apply toLowerCase_idem.
  - now rewrite <- toLowerCase_trim, trim_idem.
Qed.

Lemma collect_invariant (P : string -> Prop) (sh : bool)
      (data : list RowData) :
  (forall cell e, email_of cell = Some e -> P e) ->
  forall ss ps,
    NoDup ss -> NoDup ps -> Forall P ss -> Forall P ps ->
    NoDup (fst (collect sh data ss ps))
    /\ NoDup (snd (collect sh data ss ps))
    /\ Forall P (fst (collect sh data ss ps))
    /\ Forall P (snd (collect sh data ss ps)).
Proof.
  intros HP. induction data as [|row data IH]; intros ss ps Hs Hp Fs Fp.
  - simpl. auto.
  - simpl. apply IH.
    + destruct (email_of (student_cell row)); [now apply add_NoDup | exact Hs].
    + destruct sh; [|exact Hp].
      destruct (email_of (parent_cell row)); [now apply add_NoDup | exact Hp].
    + destruct (email_of (student_cell row)) as [e|] eqn:E; [|exact Fs].
      apply Forall_forall. intros y Hy.
      destruct (add_In _ _ _ Hy) as [-> | Hy'];
        [now apply (HP _ _ E) | rewrite Forall_forall in Fs; auto].
    + destruct sh; [|exact Fp].
      destruct (email_of (parent_cell row)) as [e|] eqn:E; [|exact Fp].
      apply Forall_forall. intros y Hy.
      destruct (add_In _ _ _ Hy) as [-> | Hy'];
        [now apply (HP _ _ E) | rewrite Forall_forall in Fp; auto].
Qed.

Lemma collect_no_parents (data : list RowData) (ss ps : list string) :
  snd (collect false data ss ps) = ps.
Proof.
  revert ss. induction data as [|row data IH]; intros ss; simpl; auto.
Qed.

(** An address collected for the students is in lower case and trimmed. *)
Lemma collected_emails_lower (sh : bool) (data : list RowData) (e : string) :
  In e (fst (collect sh data [] [])) ->
  JS.toLowerCase e = e /\ JS.trim e = e.
Proof.
  intros He.
  destruct (collect_invariant
              (fun x => JS.toLowerCase x = x /\ JS.trim x = x)
              sh data email_of_normal [] []
              (NoDup_nil _) (NoDup_nil _) (Forall_nil _) (Forall_nil _))
    as (_ & _ & H3 & _).
  rewrite Forall_forall in H3. now apply H3.
Qed.

(** X29. The addresses collected from a sheet hold no duplicate, and each is
    in lower case with no white space around it, however the cells are
    written; parents' addresses are collected only for the category
    "shortlisting". *)
Theorem collected_emails_normal (shortlisting : bool) (data : list RowData)
        (e : string) :
  NoDup (fst (collect shortlisting data [] []))
  /\ NoDup (snd (collect shortlisting data [] []))
  /\ (In e (fst (collect shortlisting data [] []))
      \/ In e (snd (collect shortlisting data [] [])) ->
      JS.toLowerCase e = e /\ JS.trim e = e)
  /\ snd (collect false data [] []) = [].
Proof.
  destruct (collect_invariant
              (fun x => JS.toLowerCase x = x /\ JS.trim x = x)
              shortlisting data email_of_normal [] []
              (NoDup_nil _) (NoDup_nil _) (Forall_nil _) (Forall_nil _))
    as (H1 & H2 & H3 & H4).
  split; [exact H1|]. split; [exact H2|]. split.
  - rewrite Forall_forall in H3, H4. intros [H | H]; auto.
  - apply collect_no_parents.
Qed.

Lemma handler_done_inv (env : Env) (req : Request) (w w' : World)
      (sn pn : Z) :
  handler env req w = (Done sn pn, w') ->
  let emails :=
    collect (String.eqb (category req) "shortlisting") (data req) [] [] in
  let students := students_of (fst emails) w in
  sn = Z.of_nat (List.length students)
  /\ pn = Z.of_nat (List.length (snd emails))
  /\ profiles w' = profiles w
  /\ outbox w'
     = (outbox w ++ sent env (map (student_mail req) students)
        ++ sent env (if String.eqb (category req) "shortlisting"
                     then map (parent_mail req) (snd emails) else []))%list.
Proof.
  unfold handler.
  destruct (negb (file req) || String.eqb (announcementId req) "");
    [discriminate|].
  destruct (collect _ (data req) [] []) as [ss ps].
  destruct (studentsError env); [discriminate|].
  intros H. inversion H; subst. cbn [fst snd profiles outbox]. auto.
Qed.

(** X30. When the sheet is processed, the students notified are the profiles
    whose stored email is one of the collected addresses, so that a profile
    whose stored email is not in lower case is never notified; the count
    answered is their number whether or not their mails could be sent; and
    each of them whose mail can be sent gets it, a failed send stopping no
    other. *)
Theorem announcement_best_effort (env : Env) (req : Request) (w w' : World)
        (sn pn : Z) (p : Profile) :
  handler env req w = (Done sn pn, w') ->
  let emails :=
    fst (collect (String.eqb (category req) "shortlisting") (data req) [] [])
  in
  sn = Z.of_nat (List.length (students_of emails w))
  /\ (In p (students_of emails w) <-> In p (profiles w) /\ In (email p) emails)
  /\ (In p (profiles w) -> JS.toLowerCase (email p) <> email p ->
      ~ In p (students_of emails w)
      /\ ~ In (student_mail req p) (sent env (map (student_mail req)
                                                   (students_of emails w))))
  /\ (In p (students_of emails w) -> delivers env (student_mail req p) = true ->
      In (student_mail req p) (outbox w')).
Proof.
  intros H emails.
  destruct (handler_done_inv _ _ _ _ _ _ H) as (Hsn & _ & _ & Hout).
  fold emails in Hsn, Hout.
  assert (Hin : In p (students_of emails w)
                <-> In p (profiles w) /\ In (email p) emails).
  { unfold students_of. rewrite filter_In, existsb_exists. split.
    - intros (Hp & x & Hx & E). apply String.eqb_eq in E. subst x. auto.
    - intros (Hp & He). split; [assumption|].
      exists (email p). split; [assumption | apply String.eqb_refl]. }
  split; [exact Hsn|]. split; [exact Hin|]. split.
  - intros Hp Hcase.
    assert (Hnot : ~ In p (students_of emails w)).
    { intros Hs. apply Hin in Hs as [_ He]. apply Hcase.
      destruct (collected_emails_lower _ _ _ He) as [Hl _]. exact Hl. }
    split; [exact Hnot|].
    intros Hm. unfold sent in Hm. apply filter_In in Hm as [Hm _].
    apply in_map_iff in Hm as (q & Hq & Hqin).
    assert (Hcase' : JS.toLowerCase (email q) <> email q).
    { unfold student_mail in Hq. inversion Hq as [[Hto Hbody]].
      now rewrite Hto. }
    unfold students_of in Hqin. apply filter_In in Hqin as [_ Hq'].
    apply existsb_exists in Hq' as (x & Hx & E). apply String.eqb_eq in E.
    subst x. destruct (collected_emails_lower _ _ _ Hx) as [Hl _].
    contradiction.
  - intros Hs Hd. rewrite Hout. apply in_or_app. right.
    apply in_or_app. left. unfold sent. apply filter_In.
    split; [now apply in_map | exact Hd].
Qed.

Lemma announcement_best_effort_witness :
  1 = Z.of_nat (List.length
                  (students_of ["asha@college.edu"] Samples4.announce_world)).
Proof.
  exact (proj1 (announcement_best_effort
                  Samples4.announce_env Samples4.announce_req
                  Samples4.announce_world _ 1 1
                  (mkProfile "student-1" "asha@college.edu" "Asha")
                  eq_refl)).
Defined.

End AnnouncementFacts.
